(** * Window feature aggregator of the propensity notebooks

    A shallow embedding of [get_features] (notebook 02_feature_engineering)
    and the properties its specification states about it.

    Conventions of the model.
    - A calendar day is its day number ([Z]); [timedelta(days=n)] is [n].
      Formatting a day with [strftime] and comparing it inside a SQL
      expression is the comparison of the day numbers.
    - A metric cell is [option Qc]: [None] is SQL NULL, numbers are exact
      rationals.  The cast to [DoubleType] is the identity on them; the
      rounding of binary floating point is outside the model.
    - The columns of a transaction hold values (the adjusted table
      coalesces every monetary column); NULL only arises where the code
      writes it ([case when ... else null end]), in aggregates over no
      value, in divisions by zero, in the cast of a string that is not a
      number and in unmatched rows of an outer join.
    - In the days-since aggregation the SQL expression
      ['{max_day}' - case ... then day else '{min_day}' end] subtracts two
      strings: the [case] of the date column [day] and a string literal
      has the type string.  Spark casts both operands of [-] to double,
      and the cast of the text of a day is NULL.
    - The table [transactions] of the notebook, which [get_features] reads
      besides its argument [df], is a parameter of the model.
    - A DataFrame returned by the function is modelled by the rows it
      yields.  The only Spark action run inside [get_features] is the
      [collect()] of the min/max aggregation; it is recorded in a log. *)

From Stdlib Require Import ZArith QArith Qcanon List String Ascii Bool Lia.
Import ListNotations.

Local Open Scope string_scope.
Local Open Scope list_scope.
Local Open Scope Z_scope.

(** ** Data model *)

Record transaction : Type := mkTransaction {
  household_key : Z;
  commodity_desc : string;
  basket_id : Z;
  product_id : Z;
  day : Z;
  amount_list : Qc;
  instore_discount : Qc;
  campaign_coupon_discount : Qc;
  manuf_coupon_discount : Qc;
  total_coupon_discount : Qc;
  amount_paid : Qc
}.

Definition DataFrame : Type := list transaction.

(** A SQL value of a metric column. *)
Definition value : Type := option Qc.

Definition Z2Qc (z : Z) : Qc := Q2Qc (inject_Z z).

(** A grouping key: the household, and the commodity when
    [commodity_desc] is one of the grouping fields. *)
Definition key : Type := (Z * option string)%type.

Definition key_eq_dec (a b : key) : {a = b} + {a <> b}.
Proof.
  decide equality.
  - decide equality. apply string_dec.
  - apply Z.eq_dec.
Defined.

Definition key_eqb (a b : key) : bool :=
  if key_eq_dec a b then true else false.

(** A grouped or joined result: the names of its key columns, the names
    of its other columns, and one list of cells per row. *)
Record frame : Type := mkFrame {
  key_columns : list string;
  columns : list string;
  rows : list (key * list value)
}.

Definition all_columns (fr : frame) : list string :=
  key_columns fr ++ columns fr.

(** ** Column expressions *)

Definition col {A : Type} (c : transaction -> A) : transaction -> option A :=
  fun t => Some (c t).

Definition gt_zero (q : Qc) : bool := (0 <? Qnum (this q))%Z.

(** [case when c > 0 then e else null end] *)
Definition case_when_gt0 {A : Type} (c : transaction -> Qc)
    (e : transaction -> A) : transaction -> option A :=
  fun t => if gt_zero (c t) then Some (e t) else None.

(** [case when c > 0 then e else d end] *)
Definition case_when_gt0_else {A : Type} (c : transaction -> Qc)
    (e : transaction -> A) (d : A) : transaction -> A :=
  fun t => if gt_zero (c t) then e t else d.

(** The non-NULL values an expression takes over a group. *)
Definition non_null {A : Type} (e : transaction -> option A)
    (g : list transaction) : list A :=
  flat_map (fun t => match e t with Some v => [v] | None => [] end) g.

(** SQL division: NULL when an operand is NULL or the divisor is zero. *)
Definition sql_div (a b : value) : value :=
  match a, b with
  | Some x, Some y => if Qc_eq_dec y 0 then None else Some (x / y)%Qc
  | _, _ => None
  end.

(** SQL subtraction of doubles: NULL when an operand is NULL. *)
Definition sql_minus (a b : value) : value :=
  match a, b with
  | Some x, Some y => Some (x - y)%Qc
  | _, _ => None
  end.

(** A SQL string that holds the text of a day, ['%Y-%m-%d']. *)
Inductive day_string : Type :=
  | DayString (d : Z).

(** [cast(s as double)] of such a string, the implicit cast of the
    operands of [-] when both are strings: the text of a day is not the
    text of a number, and the cast is NULL. *)
Definition cast_as_double (s : day_string) : value :=
  match s with
  | DayString _ => None
  end.

Definition Qc_min (a b : Qc) : Qc := if Qclt_le_dec a b then a else b.

(** ** Aggregate functions ([pyspark.sql.functions as f]) *)

Module f.

Definition countDistinct (e : transaction -> option Z)
    (g : list transaction) : value :=
  Some (Z2Qc (Z.of_nat (List.length (nodup Z.eq_dec (non_null e g))))).

Definition count {A : Type} (e : transaction -> option A)
    (g : list transaction) : value :=
  Some (Z2Qc (Z.of_nat (List.length (non_null e g)))).

Definition count_star (g : list transaction) : value :=
  Some (Z2Qc (Z.of_nat (List.length g))).

Definition sum (e : transaction -> option Qc) (g : list transaction) : value :=
  match non_null e g with
  | [] => None
  | vs => Some (fold_right Qcplus 0%Qc vs)
  end.

Definition min (e : transaction -> option Z) (g : list transaction) : option Z :=
  match non_null e g with
  | [] => None
  | v :: vs => Some (fold_right Z.min v vs)
  end.

Definition max (e : transaction -> option Z) (g : list transaction) : option Z :=
  match non_null e g with
  | [] => None
  | v :: vs => Some (fold_right Z.max v vs)
  end.

(** [f.min] of an expression of type double. *)
Definition min_double (e : transaction -> value) (g : list transaction) : value :=
  match non_null e g with
  | [] => None
  | v :: vs => Some (fold_right Qc_min v vs)
  end.

End f.

(** ** DataFrame operations *)

(** [df.select(grouping_fields)] read as a key. *)
Definition select_key (include_commodity : bool) (t : transaction) : key :=
  (household_key t,
   if include_commodity then Some (commodity_desc t) else None).

(** [df.select(grouping_fields).distinct()] *)
Definition distinct_keys (include_commodity : bool) (df : DataFrame) : list key :=
  nodup key_eq_dec (map (select_key include_commodity) df).

(** The rows of [df] that fall in the group of key [k]. *)
Definition group (include_commodity : bool) (df : DataFrame) (k : key)
    : list transaction :=
  filter (fun t => key_eqb (select_key include_commodity t) k) df.

(** [df.groupBy(grouping_fields).agg(...)]: one row per key of [df]. *)
Definition groupBy_agg (grouping_fields : list string) (include_commodity : bool)
    (aggs : list (string * (list transaction -> value))) (df : DataFrame)
    : frame :=
  {| key_columns := grouping_fields;
     columns := map fst aggs;
     rows := map (fun k => (k, map (fun a => snd a (group include_commodity df k)) aggs))
                 (distinct_keys include_commodity df) |}.

(** The cell of the column called [name] in a row. *)
Fixpoint cell (cols : list string) (cells : list value) (name : string) : value :=
  match cols, cells with
  | c :: cols', v :: cells' =>
      if String.eqb c name then v else cell cols' cells' name
  | _, _ => None
  end.

Fixpoint set_cell (cols : list string) (cells : list value) (name : string)
    (v : value) : list value :=
  match cols, cells with
  | c :: cols', x :: cells' =>
      (if String.eqb c name then v else x) :: set_cell cols' cells' name v
  | _, _ => cells
  end.

(** [fr.withColumn(name, e)]: replaces the column of that name, or
    appends a new one.  The expression reads the row by column name. *)
Definition cols_withColumn (cols : list string) (name : string) : list string :=
  if existsb (String.eqb name) cols then cols else cols ++ [name].

Definition row_withColumn (cols : list string) (name : string)
    (e : (string -> value) -> value) (cells : list value) : list value :=
  if existsb (String.eqb name) cols
  then set_cell cols cells name (e (cell cols cells))
  else cells ++ [e (cell cols cells)].

Definition withColumn (name : string) (e : (string -> value) -> value)
    (fr : frame) : frame :=
  {| key_columns := key_columns fr;
     columns := cols_withColumn (columns fr) name;
     rows := map (fun r => (fst r, row_withColumn (columns fr) name e (snd r)))
                 (rows fr) |}.

Definition rename (c new : string) (x : string) : string :=
  if String.eqb x c then new else x.

(** [fr.withColumnRenamed(c, new)] *)
Definition withColumnRenamed (c new : string) (fr : frame) : frame :=
  {| key_columns := map (rename c new) (key_columns fr);
     columns := map (rename c new) (columns fr);
     rows := rows fr |}.

(** The cells of a row that found no partner in an outer join. *)
Definition nulls (cols : list string) : list value :=
  map (fun _ => None) cols.

(** [l.join(r, on=grouping_fields, how='leftouter')]: every row of [l],
    once per row of [r] with the same key, or once with NULL cells when
    [r] has none. *)
Definition join_leftouter (l r : frame) : frame :=
  {| key_columns := key_columns l;
     columns := columns l ++ columns r;
     rows := flat_map
       (fun lr =>
          match filter (fun rr => key_eqb (fst rr) (fst lr)) (rows r) with
          | [] => [(fst lr, snd lr ++ nulls (columns r))]
          | ms => map (fun rr => (fst lr, snd lr ++ snd rr)) ms
          end)
       (rows l) |}.

(** [f.expr('a/b')] and [f.expr(f'a/{n}')] *)
Definition div (a b : string) : (string -> value) -> value :=
  fun row => sql_div (row a) (row b).

Definition div_by (a : string) (n : Z) : (string -> value) -> value :=
  fun row => sql_div (row a) (Some (Z2Qc n)).

(** [f.col(c).cast(DoubleType())] *)
Definition cast_double (c : string) : (string -> value) -> value :=
  fun row => row c.

(** ** Effects: the actions run inside the call, and its exceptions *)

Inductive action : Type :=
  | Collect_min_max_day.   (* df.groupBy().agg(f.min('day'), f.max('day')).collect() *)

Inductive error : Type :=
  | UnknownWindowDefinition   (* raise Exception('unknown window definition') *)
  | NoneTypeOperand.          (* TypeError: None - timedelta *)

Definition M (A : Type) : Type := list action -> list action * (error + A).

Definition ret {A : Type} (a : A) : M A := fun log => (log, inr a).

Definition raise {A : Type} (e : error) : M A := fun log => (log, inl e).

Definition bind {A B : Type} (m : M A) (k : A -> M B) : M B :=
  fun log =>
    match m log with
    | (log', inr a) => k a log'
    | (log', inl e) => (log', inl e)
    end.

Definition run (a : action) : M unit := fun log => (log ++ [a], inr tt).

Notation "x <- m ;; k" := (bind m (fun x => k))
  (at level 61, m at next level, right associativity).
Notation "' pat <- m ;; k" := (bind m (fun x => match x with pat => k end))
  (at level 61, pat pattern, m at next level, right associativity).

(** [date - timedelta(days=n)]; [None - timedelta] is a TypeError. *)
Definition date_sub (d : option Z) (n : Z) : M Z :=
  match d with
  | Some x => ret (x - n)
  | None => raise NoneTypeOperand
  end.

(** [window == s] for a parameter that may be [None]. *)
Definition py_eq (window : option string) (s : string) : bool :=
  match window with
  | Some w => String.eqb w s
  | None => false
  end.

(** ['_' + window]; only evaluated in a branch where [window] equals
    one of the string literals. *)
Definition suffix_of (window : option string) : string :=
  match window with
  | Some w => String.append "_" w
  | None => "_"
  end.

(** [(max_day - min_day).days + 1] *)
Definition days_between (max_day min_day : option Z) : M Z :=
  match max_day, min_day with
  | Some a, Some b => ret (a - b + 1)
  | _, _ => raise NoneTypeOperand
  end.

(** [d.strftime('%Y-%m-%d')] *)
Definition strftime (d : option Z) : M Z :=
  match d with
  | Some x => ret x
  | None => raise NoneTypeOperand
  end.

(** The [collect()] of the min/max aggregation: a row of two NULLs when
    [df] has no row. *)
Definition collect_min_max (df : DataFrame) : M (option Z * option Z) :=
  _ <- run Collect_min_max_day ;;
  ret (f.min (col day) df, f.max (col day) df).

(** ** The feature function *)

(** Lines 93-112: the window of the call. *)
Definition adjust_window (window : option string) (min_day max_day : option Z)
    : M (string * option Z * option Z) :=
  if py_eq window "30d" then
    let window_suffix := suffix_of window in
    min_day <- date_sub max_day (30 - 1) ;;
    ret (window_suffix, Some min_day, max_day)
  else if py_eq window "60d" then
    let window_suffix := suffix_of window in
    min_day <- date_sub max_day (60 - 1) ;;
    ret (window_suffix, Some min_day, max_day)
  else if py_eq window "90d" then
    let window_suffix := suffix_of window in
    min_day <- date_sub max_day (90 - 1) ;;
    ret (window_suffix, Some min_day, max_day)
  else if py_eq window "1yr" then
    let window_suffix := suffix_of window in
    min_day <- date_sub max_day (365 - 1) ;;
    let max_day := min_day + (30 - 1) in
    ret (window_suffix, Some min_day, Some max_day)
  else
    raise UnknownWindowDefinition.

(** Lines 131-165: the aggregates of the summary. *)
Definition summary_aggs : list (string * (list transaction -> value)) :=
  [ ("days", f.countDistinct (col day));
    ("baskets", f.countDistinct (col basket_id));
    ("products", f.count (col product_id));
    ("line_items", f.count_star);
    ("amount_list", f.sum (col amount_list));
    ("instore_discount", f.sum (col instore_discount));
    ("campaign_coupon_discount", f.sum (col campaign_coupon_discount));
    ("manuf_coupon_discount", f.sum (col manuf_coupon_discount));
    ("total_coupon_discount", f.sum (col total_coupon_discount));
    ("amount_paid", f.sum (col amount_paid));
    ("days_with_instore_discount", f.countDistinct (case_when_gt0 instore_discount day));
    ("days_with_campaign_coupon_discount", f.countDistinct (case_when_gt0 campaign_coupon_discount day));
    ("days_with_manuf_coupon_discount", f.countDistinct (case_when_gt0 manuf_coupon_discount day));
    ("days_with_total_coupon_discount", f.countDistinct (case_when_gt0 total_coupon_discount day));
    ("baskets_with_instore_discount", f.countDistinct (case_when_gt0 instore_discount basket_id));
    ("baskets_with_campaign_coupon_discount", f.countDistinct (case_when_gt0 campaign_coupon_discount basket_id));
    ("baskets_with_manuf_coupon_discount", f.countDistinct (case_when_gt0 manuf_coupon_discount basket_id));
    ("baskets_with_total_coupon_discount", f.countDistinct (case_when_gt0 total_coupon_discount basket_id));
    ("products_with_instore_discount", f.countDistinct (case_when_gt0 instore_discount product_id));
    ("products_with_campaign_coupon_discount", f.countDistinct (case_when_gt0 campaign_coupon_discount product_id));
    ("products_with_manuf_coupon_discount", f.countDistinct (case_when_gt0 manuf_coupon_discount product_id));
    ("products_with_total_coupon_discount", f.countDistinct (case_when_gt0 total_coupon_discount product_id));
    ("line_items_with_instore_discount", f.sum (case_when_gt0 instore_discount (fun _ => 1%Qc)));
    ("line_items_with_campaign_coupon_discount", f.sum (case_when_gt0 campaign_coupon_discount (fun _ => 1%Qc)));
    ("line_items_with_manuf_coupon_discount", f.sum (case_when_gt0 manuf_coupon_discount (fun _ => 1%Qc)));
    ("line_items_with_total_coupon_discount", f.sum (case_when_gt0 total_coupon_discount (fun _ => 1%Qc))) ].

(** Lines 168-242: the chain of [withColumn] calls of the summary. *)
Definition ratio_columns (window_suffix : string) (days_in_window : Z)
    : list (string * ((string -> value) -> value)) :=
  [
    ("baskets_per_day", div "baskets" "days");
    (String.append "products_per_day" window_suffix, div "products" "days");
    ("line_items_per_day", div "line_items" "days");
    ("amount_list_per_day", div "amount_list" "days");
    ("instore_discount_per_day", div "instore_discount" "days");
    ("campaign_coupon_discount_per_day", div "campaign_coupon_discount" "days");
    ("manuf_coupon_discount_per_day", div "manuf_coupon_discount" "days");
    ("total_coupon_discount_per_day", div "total_coupon_discount" "days");
    ("amount_paid_per_day", div "amount_paid" "days");
    ("days_with_instore_discount_per_days", div "days_with_instore_discount" "days");
    ("days_with_campaign_coupon_discount_per_days", div "days_with_campaign_coupon_discount" "days");
    ("days_with_manuf_coupon_discount_per_days", div "days_with_manuf_coupon_discount" "days");
    ("days_with_total_coupon_discount_per_days", div "days_with_total_coupon_discount" "days");
    ("days_to_days_in_set", div_by "days" days_in_window);
    ("baskets_per_days_in_set", div_by "baskets" days_in_window);
    ("products_to_days_in_set", div_by "products" days_in_window);
    ("line_items_per_days_in_set", div_by "line_items" days_in_window);
    ("amount_list_per_days_in_set", div_by "amount_list" days_in_window);
    ("instore_discount_per_days_in_set", div_by "instore_discount" days_in_window);
    ("campaign_coupon_discount_per_days_in_set", div_by "campaign_coupon_discount" days_in_window);
    ("manuf_coupon_discount_per_days_in_set", div_by "manuf_coupon_discount" days_in_window);
    ("total_coupon_discount_per_days_in_set", div_by "total_coupon_discount" days_in_window);
    ("amount_paid_per_days_in_set", div_by "amount_paid" days_in_window);
    ("days_with_instore_discount_per_days_in_set", div_by "days_with_instore_discount" days_in_window);
    ("days_with_campaign_coupon_discount_per_days_in_set", div_by "days_with_campaign_coupon_discount" days_in_window);
    ("days_with_manuf_coupon_discount_per_days_in_set", div_by "days_with_manuf_coupon_discount" days_in_window);
    ("days_with_total_coupon_discount_per_days_in_set", div_by "days_with_total_coupon_discount" days_in_window);
    ("products_per_basket", div "products" "baskets");
    ("line_items_per_basket", div "line_items" "baskets");
    ("amount_list_per_basket", div "amount_list" "baskets");
    ("instore_discount_per_basket", div "instore_discount" "baskets");
    ("campaign_coupon_discount_per_basket", div "campaign_coupon_discount" "baskets");
    ("manuf_coupon_discount_per_basket", div "manuf_coupon_discount" "baskets");
    ("total_coupon_discount_per_basket", div "total_coupon_discount" "baskets");
    ("amount_paid_per_basket", div "amount_paid" "baskets");
    ("baskets_with_instore_discount_per_baskets", div "baskets_with_instore_discount" "baskets");
    ("baskets_with_campaign_coupon_discount_per_baskets", div "baskets_with_campaign_coupon_discount" "baskets");
    ("baskets_with_manuf_coupon_discount_per_baskets", div "baskets_with_manuf_coupon_discount" "baskets");
    ("baskets_with_total_coupon_discount_per_baskets", div "baskets_with_total_coupon_discount" "baskets");
    ("line_items_per_product", div "line_items" "products");
    ("amount_list_per_product", div "amount_list" "products");
    ("instore_discount_per_product", div "instore_discount" "products");
    ("campaign_coupon_discount_per_product", div "campaign_coupon_discount" "products");
    ("manuf_coupon_discount_per_product", div "manuf_coupon_discount" "products");
    ("total_coupon_discount_per_product", div "total_coupon_discount" "products");
    ("amount_paid_per_product", div "amount_paid" "products");
    ("products_with_instore_discount_per_product", div "products_with_instore_discount" "products");
    ("products_with_campaign_coupon_discount_per_product", div "products_with_campaign_coupon_discount" "products");
    ("products_with_manuf_coupon_discount_per_product", div "products_with_manuf_coupon_discount" "products");
    ("products_with_total_coupon_discount_per_product", div "products_with_total_coupon_discount" "products");
    ("amount_list_per_line_item", div "amount_list" "line_items");
    ("instore_discount_per_line_item", div "instore_discount" "line_items");
    ("campaign_coupon_discount_per_line_item", div "campaign_coupon_discount" "line_items");
    ("manuf_coupon_discount_per_line_item", div "manuf_coupon_discount" "line_items");
    ("total_coupon_discount_per_line_item", div "total_coupon_discount" "line_items");
    ("amount_paid_per_line_item", div "amount_paid" "line_items");
    ("products_with_instore_discount_per_line_item", div "products_with_instore_discount" "line_items");
    ("products_with_campaign_coupon_discount_per_line_item", div "products_with_campaign_coupon_discount" "line_items");
    ("products_with_manuf_coupon_discount_per_line_item", div "products_with_manuf_coupon_discount" "line_items");
    ("products_with_total_coupon_discount_per_line_item", div "products_with_total_coupon_discount" "line_items");
    ("campaign_coupon_discount_to_amount_list", div "campaign_coupon_discount" "amount_list");
    ("manuf_coupon_discount_to_amount_list", div "manuf_coupon_discount" "amount_list");
    ("total_coupon_discount_to_amount_list", div "total_coupon_discount" "amount_list");
    ("amount_paid_to_amount_list", div "amount_paid" "amount_list") ].

(** Lines 252-255: the aggregates of the days-since metrics,
    [f.min(f.expr("'{max_day}' - case when X >0 then day else '{min_day}' end"))].
    [max_day] and [min_day] are the strings of lines 121-122, and
    [min_day] is the start of the window by then.  The branches of the
    [case] are the date column [day] and a string literal, so the date is
    cast to a string and the [case] is a string; the two strings of the
    subtraction are cast to double. *)
Definition days_since (discount : transaction -> Qc) (min_day max_day : Z)
    (g : list transaction) : value :=
  f.min_double
    (fun t =>
       sql_minus
         (cast_as_double (DayString max_day))
         (cast_as_double
            (case_when_gt0_else discount (fun t => DayString (day t))
               (DayString min_day) t)))
    g.

Definition dayssince_aggs (min_day max_day : Z)
    : list (string * (list transaction -> value)) :=
  [ ("days_since_instore_discount", days_since instore_discount min_day max_day);
    ("days_since_campaign_coupon_discount", days_since campaign_coupon_discount min_day max_day);
    ("days_since_manuf_coupon_discount", days_since manuf_coupon_discount min_day max_day);
    ("days_since_total_coupon_discount", days_since total_coupon_discount min_day max_day) ].

(** [day between min_day and max_day] *)
Definition between (min_day max_day : Z) (t : transaction) : bool :=
  (min_day <=? day t) && (day t <=? max_day).

(** Lines 266-270: the loop that casts and renames the metric columns.
    It runs over the columns the frame has when the loop starts. *)
Definition rename_step (grouping_fields : list string)
    (grouping_suffix window_suffix : string) (ret_df : frame) (c : string)
    : frame :=
  if existsb (String.eqb c) grouping_fields then ret_df
  else
    let ret_df := withColumn c (cast_double c) ret_df in
    withColumnRenamed c
      (String.append c (String.append grouping_suffix window_suffix)) ret_df.

(** Lines 79-122: the bounds of the dataset and the window of the call:
    its suffix, its number of days, its last and its first day. *)
Definition resolve_window (df : DataFrame) (window : option string)
    : M (string * Z * Z * Z) :=
  (* identify when dataset starts and ends *)
  '(min_day, max_day) <- collect_min_max df ;;
  (* adjust min and max days based on specified window *)
  '(window_suffix, min_day, max_day) <- adjust_window window min_day max_day ;;
  (* determine the number of days in the window *)
  days_in_window <- days_between max_day min_day ;;
  (* convert dates to strings to make remaining steps easier *)
  max_day <- strftime max_day ;;
  min_day <- strftime min_day ;;
  ret (window_suffix, days_in_window, max_day, min_day).

Definition grouping_fields_of (include_commodity : bool) : list string :=
  ["household_key"] ++ (if include_commodity then ["commodity_desc"] else []).

Definition grouping_suffix_of (include_commodity : bool) : string :=
  if include_commodity then "_cmd" else "".

(** Lines 124-243: the summary of the window. *)
Definition summary_df_of (df : DataFrame) (include_commodity : bool)
    (window_suffix : string) (days_in_window max_day min_day : Z) : frame :=
  fold_left (fun fr c => withColumn (fst c) (snd c) fr)
    (ratio_columns window_suffix days_in_window)
    (groupBy_agg (grouping_fields_of include_commodity) include_commodity
       summary_aggs (filter (between min_day max_day) df)).

(** Lines 246-257: the days-since metrics. *)
Definition dayssince_df_of (df : DataFrame) (include_commodity : bool)
    (max_day min_day : Z) : frame :=
  groupBy_agg (grouping_fields_of include_commodity) include_commodity
    (dayssince_aggs min_day max_day)
    (filter (fun t => day t <=? max_day) df).

(** Lines 76-77: the distinct grouping items of the table [transactions]
    of the notebook (not of the argument [df]). *)
Definition anchor_df_of (transactions : DataFrame) (include_commodity : bool)
    : frame :=
  {| key_columns := grouping_fields_of include_commodity;
     columns := [];
     rows := map (fun k => (k, []))
                 (distinct_keys include_commodity transactions) |}.

Definition get_features (transactions df : DataFrame)
    (include_commodity : bool) (window : option string) : M frame :=
  (* determine how to group transaction data for metrics calculations *)
  let grouping_fields := grouping_fields_of include_commodity in
  let grouping_suffix := grouping_suffix_of include_commodity in
  (* get list of distinct grouping items in the original dataframe *)
  let anchor_df := anchor_df_of transactions include_commodity in
  '(window_suffix, days_in_window, max_day, min_day) <- resolve_window df window ;;
  (* derive summary features from set *)
  let summary_df :=
    summary_df_of df include_commodity window_suffix days_in_window max_day min_day in
  (* derive days-since metrics *)
  let dayssince_df := dayssince_df_of df include_commodity max_day min_day in
  (* combine metrics with anchor set to form return set *)
  let ret_df :=
    join_leftouter (join_leftouter anchor_df summary_df) dayssince_df in
  (* rename fields based on control parameters *)
  let ret_df :=
    fold_left (rename_step grouping_fields grouping_suffix window_suffix)
      (all_columns ret_df) ret_df in
  ret ret_df.

(** The outcome of a call made with an empty log. *)
Definition call (transactions df : DataFrame) (include_commodity : bool)
    (window : option string) : list action * (error + frame) :=
  get_features transactions df include_commodity window [].

(** * Notebook 01_data_prep *)

(** ** The adjusted transactions (the SQL of lines 131-178) *)

Module transactions_adj.

(** A row of the table [transactions]; every column may be NULL. *)
Record raw : Type := mkRaw {
  household_key : option Z;
  basket_id : option Z;
  week_no : option Z;
  day : option Z;
  trans_time : option Z;
  store_id : option Z;
  product_id : option Z;
  quantity : option Z;
  sales_value : value;
  retail_disc : value;
  coupon_disc : value;
  coupon_match_disc : value
}.

(** A row of the table [transactions_adj]. *)
Record adjusted : Type := mkAdjusted {
  adj_household_key : option Z;
  adj_basket_id : option Z;
  adj_week_no : option Z;
  adj_day : option Z;
  adj_trans_time : option Z;
  adj_store_id : option Z;
  adj_product_id : option Z;
  amount_list : value;
  campaign_coupon_discount : value;
  manuf_coupon_discount : value;
  manuf_coupon_match_discount : value;
  total_coupon_discount : value;
  instore_discount : value;
  amount_paid : value;
  units : option Z
}.

(** SQL arithmetic and comparison: NULL when an operand is NULL. *)
Definition sub (a b : value) : value :=
  match a, b with
  | Some x, Some y => Some (x - y)%Qc
  | _, _ => None
  end.

Definition mul (a b : value) : value :=
  match a, b with
  | Some x, Some y => Some (x * y)%Qc
  | _, _ => None
  end.

Definition eq (a b : value) : option bool :=
  match a, b with
  | Some x, Some y => Some (if Qc_eq_dec x y then true else false)
  | _, _ => None
  end.

Definition neq (a b : value) : option bool :=
  option_map negb (eq a b).

(** [COALESCE(a, b)] *)
Definition coalesce (a b : value) : value :=
  match a with
  | Some _ => a
  | None => b
  end.

(** [CASE WHEN c THEN a ELSE b END]: the [ELSE] also when [c] is NULL. *)
Definition case_when (c : option bool) (a b : value) : value :=
  match c with
  | Some true => a
  | _ => b
  end.

Definition zero : value := Some 0%Qc.        (* 0.0 *)
Definition minus_one : value := Some (- (1))%Qc.   (* -1 *)

(** The [SELECT] of lines 155-177, for one row. *)
Definition adjust (r : raw) : adjusted :=
  {| adj_household_key := household_key r;
     adj_basket_id := basket_id r;
     adj_week_no := week_no r;
     adj_day := day r;
     adj_trans_time := trans_time r;
     adj_store_id := store_id r;
     adj_product_id := product_id r;
     amount_list :=
       coalesce (sub (sub (sub (sales_value r) (retail_disc r)) (coupon_disc r))
                     (coupon_match_disc r)) zero;
     campaign_coupon_discount :=
       case_when (eq (coalesce (coupon_match_disc r) zero) zero)
         (mul minus_one (coalesce (coupon_disc r) zero)) zero;
     manuf_coupon_discount :=
       case_when (neq (coalesce (coupon_match_disc r) zero) zero)
         (mul minus_one (coalesce (coupon_disc r) zero)) zero;
     manuf_coupon_match_discount :=
       mul minus_one (coalesce (coupon_match_disc r) zero);
     total_coupon_discount :=
       mul minus_one (coalesce (sub (coupon_disc r) (coupon_match_disc r)) zero);
     instore_discount := coalesce (mul minus_one (retail_disc r)) zero;
     amount_paid := coalesce (sales_value r) zero;
     units := quantity r |}.

(** [COALESCE(v, 0.0)] as a number. *)
Definition number (v : value) : Qc :=
  match v with
  | Some x => x
  | None => 0%Qc
  end.

End transactions_adj.

(** ** The day columns of [create_table] (lines 78-84)

    Reading the CSV file and writing the Delta table are outside the
    model.  What a cell holds and how Spark casts it to an integer are
    parameters; a date is its number of days since 1970-01-01 and SQL
    integers are 32-bit with wrap-around; column names are ASCII. *)

Module create_table.

Definition wrap32 (z : Z) : Z := (z + 2 ^ 31) mod 2 ^ 32 - 2 ^ 31.

(** The date ['2018-01-01']. *)
Definition date_2018_01_01 : Z := 17532.

(** [date_add('2018-01-01', n - 1)] for the integer [n] of the cast. *)
Definition date_add_day (n : option Z) : option Z :=
  option_map (fun n => wrap32 (date_2018_01_01 + wrap32 (n - 1))) n.

(** [c.lower()] *)
Definition lower_char (c : ascii) : ascii :=
  let n := nat_of_ascii c in
  if ((65 <=? n) && (n <=? 90))%nat then ascii_of_nat (n + 32) else c.

Fixpoint lower (s : string) : string :=
  match s with
  | EmptyString => EmptyString
  | String c s' => String (lower_char c) (lower s')
  end.

(** [s.endswith(suffix)] *)
Fixpoint endswith (s suffix : string) : bool :=
  if String.eqb s suffix then true
  else match s with
       | EmptyString => false
       | String _ s' => endswith s' suffix
       end.

(** [c.lower().endswith('day')] *)
Definition is_day_column (c : string) : bool := endswith (lower c) "day".

(** A name that the SQL parser reads as one column when it is pasted
    into the text of an expression: ASCII letters, digits and
    underscores, the first of them no digit. *)
Definition is_letter (c : ascii) : bool :=
  let n := nat_of_ascii c in
  (((65 <=? n) && (n <=? 90)) || ((97 <=? n) && (n <=? 122)) || (n =? 95))%nat.

Definition is_digit (c : ascii) : bool :=
  let n := nat_of_ascii c in ((48 <=? n) && (n <=? 57))%nat.

Fixpoint all_chars (p : ascii -> bool) (s : string) : bool :=
  match s with
  | EmptyString => true
  | String c s' => p c && all_chars p s'
  end.

Definition bare_identifier (s : string) : bool :=
  match s with
  | EmptyString => false
  | String c s' => is_letter c && all_chars (fun x => is_letter x || is_digit x) s'
  end.

Section day_columns.

Variable cell : Type.
(** The integer of [cast(v as int)], NULL when there is none. *)
Variable cast_as_int : cell -> option Z.
(** The cell of a SQL date. *)
Variable date_cell : option Z -> cell.

Record table : Type := mkTable {
  names : list string;
  lines : list (list cell)
}.

(** The cell of the column called [c] in a row. *)
Fixpoint get (cols : list string) (row : list cell) (c : string) : option cell :=
  match cols, row with
  | x :: cols', v :: row' => if String.eqb x c then Some v else get cols' row' c
  | _, _ => None
  end.

Fixpoint put (cols : list string) (row : list cell) (c : string) (v : cell)
    : list cell :=
  match cols, row with
  | x :: cols', y :: row' =>
      (if String.eqb x c then v else y) :: put cols' row' c v
  | _, _ => row
  end.

(** [f.expr(f"date_add('2018-01-01', cast({c} as int)-1)")] on a row,
    for a name [c] that the parser reads as the column of that name, a
    [bare_identifier].  Line 84 pastes the name into the text as it is: a
    name with a blank or an operator in it gives a ParseException or an
    expression over other columns, which this definition does not
    describe. *)
Definition day_expr (c : string) (row : string -> option cell) : cell :=
  date_cell (date_add_day (match row c with
                           | Some v => cast_as_int v
                           | None => None
                           end)).

(** [df.withColumn(c, e)] *)
Definition withColumn (c : string) (e : (string -> option cell) -> cell)
    (df : table) : table :=
  if existsb (String.eqb c) (names df) then
    {| names := names df;
       lines := map (fun row => put (names df) row c (e (get (names df) row)))
                    (lines df) |}
  else
    {| names := names df ++ [c];
       lines := map (fun row => row ++ [e (get (names df) row)]) (lines df) |}.

(** The loop of lines 80-84, over the columns the table has when the
    loop starts. *)
Definition convert_step (df : table) (c : string) : table :=
  if is_day_column c then withColumn c (day_expr c) df else df.

Definition convert_day_columns (df : table) : table :=
  fold_left convert_step (names df) df.

(** The loop on one row of a table whose column names are [cols]. *)
Definition convert_row_step (cols : list string) (row : list cell) (c : string)
    : list cell :=
  if is_day_column c then put cols row c (day_expr c (get cols row)) else row.

Definition convert_row (cols cs : list string) (row : list cell) : list cell :=
  fold_left (convert_row_step cols) cs row.

End day_columns.

End create_table.

(** * Notebook 00_config *)

Module config.

(** [useremail.split('@')[0]] *)
Fixpoint before_at (s : string) : string :=
  match s with
  | EmptyString => EmptyString
  | String c s' =>
      if Ascii.eqb c "@" then EmptyString else String c (before_at s')
  end.

(** [s.replace(".", "_")] *)
Fixpoint replace_dots (s : string) : string :=
  match s with
  | EmptyString => EmptyString
  | String c s' =>
      String (if Ascii.eqb c "." then "_"%char else c) (replace_dots s')
  end.

(** Line 32. *)
Definition username_sql_compatible (useremail : string) : string :=
  replace_dots (before_at useremail).

End config.

(** ** Vocabulary of the properties *)

Definition supported_windows : list string := ["30d"; "60d"; "90d"; "1yr"].

Definition supported (w : string) : bool :=
  existsb (String.eqb w) supported_windows.

(** The window tokens that name no supported window; [None] is the
    default of the parameter. *)
Definition unsupported (window : option string) : bool :=
  match window with
  | Some w => negb (supported w)
  | None => true
  end.

(** The columns and the cells of a row after a chain of [withColumn]. *)
Fixpoint chain_cols (specs : list (string * ((string -> value) -> value)))
    (cols : list string) : list string :=
  match specs with
  | [] => cols
  | s :: specs' => chain_cols specs' (cols_withColumn cols (fst s))
  end.

Fixpoint chain_cells (specs : list (string * ((string -> value) -> value)))
    (cols : list string) (cells : list value) : list value :=
  match specs with
  | [] => cells
  | s :: specs' =>
      chain_cells specs' (cols_withColumn cols (fst s))
        (row_withColumn cols (fst s) (snd s) cells)
  end.

Definition summary_columns (window_suffix : string) (days_in_window : Z)
    : list string :=
  chain_cols (ratio_columns window_suffix days_in_window) (map fst summary_aggs).

(** The summary cells of a group of transactions. *)
Definition summary_cells (window_suffix : string) (days_in_window : Z)
    (g : list transaction) : list value :=
  chain_cells (ratio_columns window_suffix days_in_window)
    (map fst summary_aggs) (map (fun a => snd a g) summary_aggs).

Definition dayssince_columns : list string := map fst (dayssince_aggs 0 0).

Definition dayssince_cells (min_day max_day : Z) (g : list transaction)
    : list value :=
  map (fun a => snd a g) (dayssince_aggs min_day max_day).

(** What a left outer join contributes for a key whose group is [g]. *)
Definition joined_part (cols : list string)
    (cells : list transaction -> list value) (g : list transaction)
    : list value :=
  match g with
  | [] => nulls cols
  | _ :: _ => cells g
  end.

(** The transactions of key [k] inside the window, and up to its end. *)
Definition in_window (df : DataFrame) (include_commodity : bool)
    (max_day min_day : Z) (k : key) : list transaction :=
  group include_commodity (filter (between min_day max_day) df) k.

Definition up_to (df : DataFrame) (include_commodity : bool)
    (max_day : Z) (k : key) : list transaction :=
  group include_commodity (filter (fun t => day t <=? max_day) df) k.

(** The cells of the row of key [k] before the renaming loop. *)
Definition joined_cells (df : DataFrame) (include_commodity : bool)
    (window_suffix : string) (days_in_window max_day min_day : Z) (k : key)
    : list value :=
  joined_part (summary_columns window_suffix days_in_window)
    (summary_cells window_suffix days_in_window)
    (in_window df include_commodity max_day min_day k)
  ++ joined_part dayssince_columns (dayssince_cells min_day max_day)
    (up_to df include_commodity max_day k).

(** The renaming loop, on the column names and on the cells of a row. *)
Definition new_name (grouping_suffix window_suffix c : string) : string :=
  String.append c (String.append grouping_suffix window_suffix).

Fixpoint loop_cols (gf : list string) (gs ws : string) (cs cols : list string)
    : list string :=
  match cs with
  | [] => cols
  | c :: cs' =>
      loop_cols gf gs ws cs'
        (if existsb (String.eqb c) gf then cols
         else map (rename c (new_name gs ws c)) (cols_withColumn cols c))
  end.

Fixpoint loop_cells (gf : list string) (gs ws : string) (cs cols : list string)
    (cells : list value) : list value :=
  match cs with
  | [] => cells
  | c :: cs' =>
      if existsb (String.eqb c) gf then loop_cells gf gs ws cs' cols cells
      else loop_cells gf gs ws cs'
             (map (rename c (new_name gs ws c)) (cols_withColumn cols c))
             (row_withColumn cols c (cast_double c) cells)
  end.

Fixpoint loop_keys (gf : list string) (gs ws : string) (cs kc : list string)
    : list string :=
  match cs with
  | [] => kc
  | c :: cs' =>
      loop_keys gf gs ws cs'
        (if existsb (String.eqb c) gf then kc
         else map (rename c (new_name gs ws c)) kc)
  end.

(** The frame a successful call returns, row by row. *)
Definition features (transactions df : DataFrame) (include_commodity : bool)
    (window_suffix : string) (days_in_window max_day min_day : Z) : frame :=
  let gf := grouping_fields_of include_commodity in
  let gs := grouping_suffix_of include_commodity in
  let cols := summary_columns window_suffix days_in_window ++ dayssince_columns in
  {| key_columns := loop_keys gf gs window_suffix (gf ++ cols) gf;
     columns := loop_cols gf gs window_suffix (gf ++ cols) cols;
     rows := map (fun k =>
                    (k, loop_cells gf gs window_suffix (gf ++ cols) cols
                          (joined_cells df include_commodity window_suffix
                             days_in_window max_day min_day k)))
                 (distinct_keys include_commodity transactions) |}.

(** The number of places of [s] where [pat] starts. *)
Fixpoint occurrences (pat s : string) : nat :=
  match s with
  | EmptyString => if String.prefix pat s then 1%nat else 0%nat
  | String _ s' =>
      ((if String.prefix pat s then 1 else 0) + occurrences pat s')%nat
  end.

(** The window of a supported token, for a dataset whose last day is
    [max_day]: its number of days, its last and its first day. *)
Definition window_days (w : string) : Z :=
  if String.eqb w "60d" then 60 else if String.eqb w "90d" then 90 else 30.

Definition window_last (w : string) (max_day : Z) : Z :=
  if String.eqb w "1yr" then max_day - 335 else max_day.

Definition window_first (w : string) (max_day : Z) : Z :=
  if String.eqb w "30d" then max_day - 29
  else if String.eqb w "60d" then max_day - 59
  else if String.eqb w "90d" then max_day - 89
  else max_day - 364.

(** The names of the metric columns before the renaming loop. *)
Definition metric_columns (window_suffix : string) : list string :=
  summary_columns window_suffix 0 ++ dayssince_columns.

Fixpoint distinct_names (l : list string) : bool :=
  match l with
  | [] => true
  | x :: l' => negb (existsb (String.eqb x) l') && distinct_names l'
  end.

(** A check on the names met by the renaming loop: every column it casts
    exists, and the names of the frame are distinct at each step. *)
Fixpoint loop_ok (gf : list string) (gs ws : string) (cs cols : list string)
    : bool :=
  match cs with
  | [] => true
  | c :: cs' =>
      if existsb (String.eqb c) gf then loop_ok gf gs ws cs' cols
      else existsb (String.eqb c) cols && distinct_names cols
           && loop_ok gf gs ws cs'
                (map (rename c (new_name gs ws c)) (cols_withColumn cols c))
  end.

(** The names, in the returned frame, of the columns that come from the
    summary of the window and from the days-since aggregation. *)
Definition summary_names (include_commodity : bool) (w : string) : list string :=
  map (new_name (grouping_suffix_of include_commodity) ("_" ++ w)%string)
      (summary_columns ("_" ++ w)%string 0).

Definition dayssince_names (include_commodity : bool) (w : string) : list string :=
  map (new_name (grouping_suffix_of include_commodity) ("_" ++ w)%string)
      dayssince_columns.

(** The values of the column [name] in the rows of key [k] of the frame
    a call returned; no value when the call failed. *)
Definition metric_of (out : list action * (error + frame)) (k : key)
    (name : string) : list value :=
  match snd out with
  | inr fr =>
      map (fun r => cell (columns fr) (snd r) name)
          (filter (fun r => key_eqb (fst r) k) (rows fr))
  | inl _ => []
  end.

(** No name of [l1] is a name of [l2]. *)
Definition names_disjoint (l1 l2 : list string) : bool :=
  forallb (fun n => negb (existsb (String.eqb n) l2)) l1.

(** The four discount types, by the name of their column. *)
Definition discount_types : list (string * (transaction -> Qc)) :=
  [ ("instore_discount", instore_discount);
    ("campaign_coupon_discount", campaign_coupon_discount);
    ("manuf_coupon_discount", manuf_coupon_discount);
    ("total_coupon_discount", total_coupon_discount) ].

(** The column the summary creates with the window suffix in its name. *)
Definition products_per_day (window_suffix : string) : string :=
  String.append "products_per_day" window_suffix.

(** A check of how often the suffixes occur in the name a metric column
    gets from its name [base] before the renaming loop. *)
Definition suffix_count_ok (ic : bool) (ws base : string) : bool :=
  let c := new_name (grouping_suffix_of ic) ws base in
  (if String.eqb base (products_per_day ws)
   then Nat.eqb (occurrences ws c) 2
   else Nat.eqb (occurrences ws c) 1 && Nat.eqb (occurrences ws base) 0)
  && (if ic then Nat.eqb (occurrences "_cmd" c) 1 else true).

(** The six monetary sums of the summary, by the name of their column. *)
Definition monetary_sums : list (string * (transaction -> Qc)) :=
  [ ("amount_list", amount_list);
    ("instore_discount", instore_discount);
    ("campaign_coupon_discount", campaign_coupon_discount);
    ("manuf_coupon_discount", manuf_coupon_discount);
    ("total_coupon_discount", total_coupon_discount);
    ("amount_paid", amount_paid) ].

(** The total of a column over a list of transactions. *)
Definition total (c : transaction -> Qc) (g : list transaction) : Qc :=
  fold_right Qcplus 0%Qc (map c g).

(** The non-NULL cells of the column [name] in the rows of household [h]
    of a frame, and their SQL sum in the frame a call returned. *)
Definition household_cells (fr : frame) (h : Z) (name : string) : list Qc :=
  flat_map (fun r => if Z.eqb (fst (fst r)) h
                     then match cell (columns fr) (snd r) name with
                          | Some v => [v]
                          | None => []
                          end
                     else [])
           (rows fr).

Definition sum_over_household (out : list action * (error + frame)) (h : Z)
    (name : string) : value :=
  match snd out with
  | inr fr =>
      match household_cells fr h name with
      | [] => None
      | vs => Some (fold_right Qcplus 0%Qc vs)
      end
  | inl _ => None
  end.

(** The transactions of [df] whose grouping columns hold the key [k], on
    the days [min_day] to [max_day]. *)
Definition key_window (df : DataFrame) (include_commodity : bool)
    (min_day max_day : Z) (k : key) : list transaction :=
  filter (fun t =>
            key_eqb (household_key t,
                     if include_commodity then Some (commodity_desc t) else None) k
            && ((min_day <=? day t) && (day t <=? max_day)))
         df.



(** The rows of household [h] in the frame a call returned. *)
Definition household_rows (out : list action * (error + frame)) (h : Z)
    : list (key * list value) :=
  match snd out with
  | inr fr => filter (fun r => Z.eqb (fst (fst r)) h) (rows fr)
  | inl _ => []
  end.

(** ** Vocabulary of the ratio columns *)

(** The aggregate of the summary called [name], over a group. *)
Definition aggregate (g : list transaction) (name : string) : value :=
  cell (map fst summary_aggs) (map (fun a => snd a g) summary_aggs) name.

(** What a ratio column divides by: another column, or the number of
    days of the window. *)
Inductive denominator : Type :=
  | Column (c : string)
  | DaysInWindow.

Definition ratio_expr (days_in_window : Z) (a : string) (den : denominator)
    : (string -> value) -> value :=
  match den with
  | Column c => div a c
  | DaysInWindow => div_by a days_in_window
  end.

Definition count_columns : list string :=
  ["days"; "baskets"; "products"; "line_items"].

(** The aggregates that are NULL over a group without discount. *)
Definition line_item_counts : list string :=
  [ "line_items_with_instore_discount";
    "line_items_with_campaign_coupon_discount";
    "line_items_with_manuf_coupon_discount";
    "line_items_with_total_coupon_discount" ].

(** The ratio columns that divide by the sum of [amount_list], with the
    column they divide. *)
Definition amount_list_ratios : list (string * (transaction -> Qc)) :=
  [ ("campaign_coupon_discount_to_amount_list", campaign_coupon_discount);
    ("manuf_coupon_discount_to_amount_list", manuf_coupon_discount);
    ("total_coupon_discount_to_amount_list", total_coupon_discount);
    ("amount_paid_to_amount_list", amount_paid) ].

Definition is_name (l : list string) (n : string) : bool :=
  existsb (String.eqb n) l.

(** A check of the two sources of a ratio column: the numerator is an
    aggregate that is never NULL over a group with rows; the denominator
    is a count, the number of days of the window, or the sum of
    [amount_list] for the four ratios to it. *)
Definition well_formed_ratio (name a : string) (den : denominator) : bool :=
  is_name (map fst summary_aggs) a && negb (is_name line_item_counts a)
  && match den with
     | DaysInWindow => true
     | Column c =>
         is_name count_columns c
         || (String.eqb c "amount_list"
             && is_name (map fst amount_list_ratios) name)
     end.

(** Every name of a chain of [withColumn] is new when its turn comes. *)
Fixpoint fresh_chain (specs : list (string * ((string -> value) -> value)))
    (cols : list string) : bool :=
  match specs with
  | [] => true
  | s :: specs' =>
      negb (existsb (String.eqb (fst s)) cols)
      && fresh_chain specs' (cols ++ [fst s])
  end.

(** The names of the metric columns of the frame returned for a
    grouping mode and a supported window. *)
Definition output_columns (include_commodity : bool) (w : string) : list string :=
  summary_names include_commodity w ++ dayssince_names include_commodity w.

(** ** Sample data *)

Definition q (n : Z) (d : positive) : Qc := Q2Qc (n # d).

(** A line item of household 1, on day 700, with an in-store discount
    and a manufacturer coupon. *)
Definition line_a : transaction :=
  mkTransaction 1 "MILK" 10 100 700 (q 5 1) (q 1 2) (q 0 1) (q 1 4) (q 1 4) (q 17 4).

(** A line item of household 1 in another category, without discount. *)
Definition line_b : transaction :=
  mkTransaction 1 "BREAD" 10 101 700 (q 3 1) (q 0 1) (q 0 1) (q 0 1) (q 0 1) (q 3 1).

(** An old line item of household 2, on day 600, with an in-store
    discount. *)
Definition line_old : transaction :=
  mkTransaction 2 "MILK" 7 100 600 (q 5 1) (q 1 2) (q 0 1) (q 0 1) (q 0 1) (q 9 2).

(** The first line item of household 1, on day 1, without discount. *)
Definition line_first : transaction :=
  mkTransaction 1 "BREAD" 1 101 1 (q 3 1) (q 0 1) (q 0 1) (q 0 1) (q 0 1) (q 3 1).

(** ** The renaming loop and the chain of [withColumn], row by row *)

Lemma fold_withColumn (specs : list (string * ((string -> value) -> value))) :
  forall fr,
    fold_left (fun fr c => withColumn (fst c) (snd c) fr) specs fr =
    {| key_columns := key_columns fr;
       columns := chain_cols specs (columns fr);
       rows := map (fun r => (fst r, chain_cells specs (columns fr) (snd r)))
                   (rows fr) |}.
Proof.
  induction specs as [|s specs IH]; intros fr; cbn [fold_left chain_cols chain_cells].
  - destruct fr as [kc cols rs]; cbn. f_equal.
    rewrite <- (map_id rs) at 1. apply map_ext. now intros [k c].
  - rewrite IH. unfold withColumn; cbn. f_equal.
    rewrite map_map. reflexivity.
Qed.

Lemma fold_rename_step (gf : list string) (gs ws : string) (cs : list string) :
  forall fr,
    fold_left (rename_step gf gs ws) cs fr =
    {| key_columns := loop_keys gf gs ws cs (key_columns fr);
       columns := loop_cols gf gs ws cs (columns fr);
       rows := map (fun r => (fst r, loop_cells gf gs ws cs (columns fr) (snd r)))
                   (rows fr) |}.
Proof.
  induction cs as [|c cs IH]; intros fr;
    cbn [fold_left loop_keys loop_cols loop_cells].
  - destruct fr as [kc cols rs]; cbn. f_equal.
    rewrite <- (map_id rs) at 1. apply map_ext. now intros [k x].
  - rewrite IH. unfold rename_step.
    destruct (existsb (String.eqb c) gf); [reflexivity|].
    unfold withColumnRenamed, withColumn, new_name; cbn. f_equal.
    rewrite map_map. reflexivity.
Qed.

(** ** Groups, distinct keys and the left outer join *)

Lemma key_eqb_eq (a b : key) : key_eqb a b = true <-> a = b.
Proof.
  unfold key_eqb. destruct (key_eq_dec a b); split; congruence.
Qed.

Lemma key_eqb_refl (a : key) : key_eqb a a = true.
Proof. apply key_eqb_eq. reflexivity. Qed.

Lemma group_nil_iff (ic : bool) (df : DataFrame) (k : key) :
  group ic df k = [] <-> ~ In k (map (select_key ic) df).
Proof.
  unfold group. induction df as [|t df IH]; cbn [filter map In].
  - tauto.
  - destruct (key_eqb (select_key ic t) k) eqn:E.
    + apply key_eqb_eq in E. split; [discriminate|]. intros H.
      exfalso. apply H. left. exact E.
    + rewrite IH. split.
      * intros H [H1|H1]; [|contradiction].
        apply key_eqb_eq in H1. rewrite H1 in E. discriminate.
      * intros H H1. apply H. right. exact H1.
Qed.

Lemma In_distinct_keys (ic : bool) (df : DataFrame) (k : key) :
  In k (distinct_keys ic df) <-> In k (map (select_key ic) df).
Proof. unfold distinct_keys. apply nodup_In. Qed.

Lemma NoDup_distinct_keys (ic : bool) (df : DataFrame) :
  NoDup (distinct_keys ic df).
Proof. apply NoDup_nodup. Qed.

Lemma filter_key_absent (h : key -> list value) (k : key) (l : list key) :
  ~ In k l ->
  filter (fun rr => key_eqb (fst rr) k) (map (fun k' => (k', h k')) l) = [].
Proof.
  induction l as [|a l IH]; cbn [filter map fst In]; [reflexivity|]. intros H.
  destruct (key_eqb a k) eqn:E.
  - apply key_eqb_eq in E. exfalso. apply H. left. exact E.
  - apply IH. intros Hk. apply H. right. exact Hk.
Qed.

Lemma filter_key_present (h : key -> list value) (k : key) (l : list key) :
  NoDup l -> In k l ->
  filter (fun rr => key_eqb (fst rr) k) (map (fun k' => (k', h k')) l)
  = [(k, h k)].
Proof.
  induction 1 as [|a l Ha Hl IH]; cbn [filter map fst In];
    [intros []|].
  intros [->|Hin].
  - rewrite key_eqb_refl. f_equal. apply filter_key_absent. exact Ha.
  - destruct (key_eqb a k) eqn:E.
    + apply key_eqb_eq in E. subst a. contradiction.
    + apply IH. exact Hin.
Qed.

(** Joining with a grouped frame adds, to every row of the left side, the
    cells of the group of its key, or NULLs when the group is empty. *)
Lemma join_grouped_rows (l : frame) (kc rcols : list string)
    (c : list transaction -> list value) (ic : bool) (df : DataFrame) :
  rows (join_leftouter l
          {| key_columns := kc; columns := rcols;
             rows := map (fun k => (k, c (group ic df k))) (distinct_keys ic df) |})
  = map (fun lr => (fst lr, snd lr ++ joined_part rcols c (group ic df (fst lr))))
        (rows l).
Proof.
  unfold join_leftouter; cbn [rows columns].
  induction (rows l) as [|lr lrs IH]; [reflexivity|].
  change (flat_map ?g (lr :: lrs)) with (g lr ++ flat_map g lrs).
  rewrite IH, map_cons. clear IH. cbv beta.
  destruct (in_dec key_eq_dec (fst lr) (distinct_keys ic df)) as [Hin|Hout].
  - rewrite (filter_key_present (fun k => c (group ic df k)))
      by (auto using NoDup_distinct_keys).
    cbn [map app fst snd]. unfold joined_part.
    destruct (group ic df (fst lr)) eqn:G; [|reflexivity].
    apply group_nil_iff in G. apply In_distinct_keys in Hin. contradiction.
  - rewrite (filter_key_absent (fun k => c (group ic df k))) by assumption.
    cbn [map app fst snd]. unfold joined_part.
    destruct (group ic df (fst lr)) eqn:G; [reflexivity|].
    exfalso. apply Hout. apply In_distinct_keys.
    destruct (in_dec key_eq_dec (fst lr) (map (select_key ic) df)) as [H|H];
      [assumption|].
    apply group_nil_iff in H. congruence.
Qed.

Lemma join_grouped (l : frame) (kc rcols : list string)
    (c : list transaction -> list value) (ic : bool) (df : DataFrame) :
  join_leftouter l
    {| key_columns := kc; columns := rcols;
       rows := map (fun k => (k, c (group ic df k))) (distinct_keys ic df) |}
  = {| key_columns := key_columns l;
       columns := columns l ++ rcols;
       rows := map (fun lr =>
                      (fst lr, snd lr ++ joined_part rcols c (group ic df (fst lr))))
                   (rows l) |}.
Proof.
  rewrite <- join_grouped_rows with (kc := kc). reflexivity.
Qed.

Lemma dayssince_aggs_columns (min_day max_day : Z) :
  map fst (dayssince_aggs min_day max_day) = dayssince_columns.
Proof. reflexivity. Qed.

(** ** The frame of a call whose window is resolved *)

Lemma summary_df_of_eq (df : DataFrame) (ic : bool) (ws : string)
    (d max_day min_day : Z) :
  summary_df_of df ic ws d max_day min_day =
  {| key_columns := grouping_fields_of ic;
     columns := summary_columns ws d;
     rows := map (fun k => (k, summary_cells ws d
                                 (group ic (filter (between min_day max_day) df) k)))
                 (distinct_keys ic (filter (between min_day max_day) df)) |}.
Proof.
  unfold summary_df_of. rewrite fold_withColumn.
  unfold groupBy_agg; cbn [key_columns columns rows].
  rewrite map_map. unfold summary_columns, summary_cells. cbn [fst snd].
  reflexivity.
Qed.

Lemma dayssince_df_of_eq (df : DataFrame) (ic : bool) (max_day min_day : Z) :
  dayssince_df_of df ic max_day min_day =
  {| key_columns := grouping_fields_of ic;
     columns := dayssince_columns;
     rows := map (fun k => (k, dayssince_cells min_day max_day
                                 (group ic (filter (fun t => day t <=? max_day) df) k)))
                 (distinct_keys ic (filter (fun t => day t <=? max_day) df)) |}.
Proof. reflexivity. Qed.

Lemma derive_features (transactions df : DataFrame) (ic : bool) (ws : string)
    (d max_day min_day : Z) :
  let grouping_fields := grouping_fields_of ic in
  let ret_df :=
    join_leftouter
      (join_leftouter (anchor_df_of transactions ic)
         (summary_df_of df ic ws d max_day min_day))
      (dayssince_df_of df ic max_day min_day) in
  fold_left (rename_step grouping_fields (grouping_suffix_of ic) ws)
    (all_columns ret_df) ret_df
  = features transactions df ic ws d max_day min_day.
Proof.
  cbv zeta. rewrite fold_rename_step.
  rewrite summary_df_of_eq, dayssince_df_of_eq, !join_grouped.
  unfold all_columns, features, anchor_df_of, joined_cells, in_window, up_to.
  cbn [key_columns columns rows app].
  f_equal. rewrite !map_map. apply map_ext. intros k. reflexivity.
Qed.

(** ** The window of a call *)

Lemma supported_cases (w : string) :
  supported w = true -> w = "30d" \/ w = "60d" \/ w = "90d" \/ w = "1yr".
Proof.
  unfold supported, supported_windows. cbn [existsb]. rewrite !orb_true_iff.
  rewrite !String.eqb_eq. intuition discriminate.
Qed.

Lemma resolve_window_supported (df : DataFrame) (w : string) (mx : Z)
    (log : list action) :
  supported w = true ->
  f.max (col day) df = Some mx ->
  resolve_window df (Some w) log =
  (log ++ [Collect_min_max_day],
   inr ("_" ++ w, window_days w, window_last w mx, window_first w mx)%string).
Proof.
  intros Hw Hmx. unfold resolve_window, collect_min_max, bind, run, ret.
  rewrite Hmx.
  destruct (supported_cases w Hw) as [ -> | [ -> | [ -> | -> ] ] ];
    cbn; f_equal; f_equal; repeat (apply (f_equal2 (@pair _ _)));
    try reflexivity; lia.
Qed.

Lemma max_day_defined (df : DataFrame) :
  df <> [] -> exists mx, f.max (col day) df = Some mx.
Proof.
  destruct df as [|t df]; [congruence|]. intros _.
  unfold f.max. cbn. eexists. reflexivity.
Qed.

Lemma call_supported (transactions df : DataFrame) (ic : bool) (w : string)
    (mx : Z) :
  supported w = true ->
  f.max (col day) df = Some mx ->
  call transactions df ic (Some w) =
  ([Collect_min_max_day],
   inr (features transactions df ic ("_" ++ w)%string (window_days w)
          (window_last w mx) (window_first w mx))).
Proof.
  intros Hw Hmx. unfold call, get_features, bind.
  rewrite (resolve_window_supported df w mx [] Hw Hmx).
  unfold ret. cbn [app]. rewrite derive_features. reflexivity.
Qed.

(** ** The renaming loop leaves the cells where they are *)

Lemma set_cell_absent (name : string) (v : value) (cols : list string) :
  forall cells,
    existsb (String.eqb name) cols = false ->
    set_cell cols cells name v = cells.
Proof.
  induction cols as [|c cols IH]; intros cells H; [reflexivity|].
  destruct cells as [|x cells]; [reflexivity|].
  cbn [existsb] in H. apply orb_false_iff in H. destruct H as [H1 H2].
  cbn [set_cell]. rewrite String.eqb_sym, H1, IH by exact H2. reflexivity.
Qed.

Lemma set_cell_same (name : string) (cols : list string) :
  forall cells,
    distinct_names cols = true ->
    set_cell cols cells name (cell cols cells name) = cells.
Proof.
  induction cols as [|c cols IH]; intros cells H; [reflexivity|].
  destruct cells as [|x cells]; [reflexivity|].
  cbn [distinct_names] in H. apply andb_true_iff in H. destruct H as [H1 H2].
  apply negb_true_iff in H1.
  cbn [set_cell cell]. destruct (String.eqb c name) eqn:E.
  - apply String.eqb_eq in E. subst c.
    rewrite set_cell_absent by exact H1. reflexivity.
  - rewrite IH by exact H2. reflexivity.
Qed.

Lemma loop_cells_id (gf : list string) (gs ws : string) (cs : list string) :
  forall cols cells,
    loop_ok gf gs ws cs cols = true ->
    loop_cells gf gs ws cs cols cells = cells.
Proof.
  induction cs as [|c cs IH]; intros cols cells H; [reflexivity|].
  cbn [loop_ok loop_cells] in *.
  destruct (existsb (String.eqb c) gf); [apply IH; exact H|].
  apply andb_true_iff in H. destruct H as [H H3].
  apply andb_true_iff in H. destruct H as [H1 H2].
  rewrite IH by exact H3.
  unfold row_withColumn, cast_double. rewrite H1.
  apply set_cell_same. exact H2.
Qed.

Lemma loop_keys_supported (ic : bool) (w : string) (d : Z) :
  supported w = true ->
  loop_keys (grouping_fields_of ic) (grouping_suffix_of ic) ("_" ++ w)%string
    (grouping_fields_of ic ++ summary_columns ("_" ++ w)%string d ++ dayssince_columns)
    (grouping_fields_of ic)
  = grouping_fields_of ic.
Proof.
  intros Hw.
  destruct ic; destruct (supported_cases w Hw) as [ -> | [ -> | [ -> | -> ] ] ];
    vm_compute; reflexivity.
Qed.

Lemma loop_cols_supported (ic : bool) (w : string) (d : Z) :
  supported w = true ->
  loop_cols (grouping_fields_of ic) (grouping_suffix_of ic) ("_" ++ w)%string
    (grouping_fields_of ic ++ summary_columns ("_" ++ w)%string d ++ dayssince_columns)
    (summary_columns ("_" ++ w)%string d ++ dayssince_columns)
  = map (new_name (grouping_suffix_of ic) ("_" ++ w)%string)
        (metric_columns ("_" ++ w)%string).
Proof.
  intros Hw.
  destruct ic; destruct (supported_cases w Hw) as [ -> | [ -> | [ -> | -> ] ] ];
    vm_compute; reflexivity.
Qed.

Lemma loop_ok_supported (ic : bool) (w : string) (d : Z) :
  supported w = true ->
  loop_ok (grouping_fields_of ic) (grouping_suffix_of ic) ("_" ++ w)%string
    (grouping_fields_of ic ++ summary_columns ("_" ++ w)%string d ++ dayssince_columns)
    (summary_columns ("_" ++ w)%string d ++ dayssince_columns)
  = true.
Proof.
  intros Hw.
  destruct ic; destruct (supported_cases w Hw) as [ -> | [ -> | [ -> | -> ] ] ];
    vm_compute; reflexivity.
Qed.

(** For the supported windows the loop only appends the two suffixes to
    the name of every metric column. *)
Lemma features_supported (transactions df : DataFrame) (ic : bool) (w : string)
    (d max_day min_day : Z) :
  supported w = true ->
  features transactions df ic ("_" ++ w)%string d max_day min_day =
  {| key_columns := grouping_fields_of ic;
     columns := map (new_name (grouping_suffix_of ic) ("_" ++ w)%string)
                    (metric_columns ("_" ++ w)%string);
     rows := map (fun k => (k, joined_cells df ic ("_" ++ w)%string d
                                  max_day min_day k))
                 (distinct_keys ic transactions) |}.
Proof.
  intros Hw. unfold features. cbv zeta.
  rewrite (loop_keys_supported ic w d Hw), (loop_cols_supported ic w d Hw).
  apply (f_equal (mkFrame _ _)).
  apply map_ext. intros k.
  rewrite loop_cells_id by (apply loop_ok_supported; exact Hw).
  reflexivity.
Qed.

(** ** The window of the call and its errors *)

Lemma non_null_col {A : Type} (c : transaction -> A) (g : list transaction) :
  non_null (col c) g = map c g.
Proof.
  unfold non_null, col. induction g as [|t g IH]; [reflexivity|].
  cbn [flat_map map app]. rewrite IH. reflexivity.
Qed.

Lemma fold_max_spec (v : Z) (vs : list Z) :
  In (fold_right Z.max v vs) (v :: vs) /\
  forall x, In x (v :: vs) -> x <= fold_right Z.max v vs.
Proof.
  induction vs as [|y vs [Hin Hle]]; cbn [fold_right].
  - split; [left; reflexivity|]. intros x [<-|[]]. lia.
  - split.
    + destruct (Z.max_spec y (fold_right Z.max v vs)) as [[_ ->]|[_ ->]].
      * destruct Hin as [Hv|Hvs]; [left; exact Hv|right; right; exact Hvs].
      * right; left; reflexivity.
    + intros x [<-|[<-|Hx]].
      * specialize (Hle v (or_introl eq_refl)). lia.
      * lia.
      * specialize (Hle x (or_intror Hx)). lia.
Qed.

Lemma max_day_is_max (df : DataFrame) (mx : Z) :
  f.max (col day) df = Some mx ->
  In mx (map day df) /\ forall t, In t df -> day t <= mx.
Proof.
  unfold f.max. rewrite non_null_col.
  destruct df as [|t0 df]; [discriminate|]. cbn [map].
  intros H. injection H as <-.
  destruct (fold_max_spec (day t0) (map day df)) as [Hin Hle].
  split; [exact Hin|].
  intros t Ht. apply Hle. change (In (day t) (map day (t0 :: df))).
  apply in_map. exact Ht.
Qed.

(** C2. For a transaction set whose last day is [mx], the window is
    [mx-29, mx] for '30d', [mx-59, mx] for '60d', [mx-89, mx] for '90d' and
    [mx-364, mx-335] for '1yr', and [days_in_window], the divisor of the
    per-days-in-set ratios, is 30, 60, 90 and 30: the result of
    [resolve_window] is the suffix, the number of days, the last and the
    first day of the window. *)
Theorem window_bounds (df : DataFrame) (mx : Z) :
  f.max (col day) df = Some mx ->
  resolve_window df (Some "30d") [] =
    ([Collect_min_max_day], inr ("_30d", 30, mx, mx - 29)) /\
  resolve_window df (Some "60d") [] =
    ([Collect_min_max_day], inr ("_60d", 60, mx, mx - 59)) /\
  resolve_window df (Some "90d") [] =
    ([Collect_min_max_day], inr ("_90d", 90, mx, mx - 89)) /\
  resolve_window df (Some "1yr") [] =
    ([Collect_min_max_day], inr ("_1yr", 30, mx - 335, mx - 364)).
Proof.
  intros Hmx.
  split; [exact (resolve_window_supported df "30d" mx [] eq_refl Hmx)|].
  split; [exact (resolve_window_supported df "60d" mx [] eq_refl Hmx)|].
  split; [exact (resolve_window_supported df "90d" mx [] eq_refl Hmx)|].
  exact (resolve_window_supported df "1yr" mx [] eq_refl Hmx).
Qed.

Lemma window_bounds_witness :
  resolve_window [line_a; line_old] (Some "1yr") [] =
    ([Collect_min_max_day], inr ("_1yr", 30, 365, 336)).
Proof.
  apply (window_bounds [line_a; line_old] 700). reflexivity.
Defined.

Lemma unsupported_not_eq (window : option string) (s : string) :
  unsupported window = true -> supported s = true -> py_eq window s = false.
Proof.
  destruct window as [w|]; [|reflexivity]. cbn [unsupported py_eq].
  intros Hu Hs. apply negb_true_iff in Hu.
  destruct (String.eqb w s) eqn:E; [|reflexivity].
  apply String.eqb_eq in E. congruence.
Qed.

(** C4, amended.  A call with a window that is none of '30d', '60d',
    '90d', '1yr' raises the exception 'unknown window definition',
    whatever the transactions are; when it does, the min/max day
    aggregation over [df] has been collected, and nothing else has run. *)
Theorem unknown_window_rejected (transactions df : DataFrame) (ic : bool)
    (window : option string) :
  unsupported window = true ->
  call transactions df ic window =
    ([Collect_min_max_day], inl UnknownWindowDefinition).
Proof.
  intros Hu. unfold call, get_features, resolve_window, collect_min_max,
    adjust_window, bind, run, ret, raise.
  rewrite (unsupported_not_eq window "30d" Hu eq_refl),
    (unsupported_not_eq window "60d" Hu eq_refl),
    (unsupported_not_eq window "90d" Hu eq_refl),
    (unsupported_not_eq window "1yr" Hu eq_refl).
  reflexivity.
Qed.

Lemma unknown_window_rejected_witness :
  call [line_a] [] true (Some "7d") =
    ([Collect_min_max_day], inl UnknownWindowDefinition).
Proof.
  apply (unknown_window_rejected [line_a] [] true (Some "7d")). reflexivity.
Defined.

(** C4 as stated fails: when the unknown window '7d' is rejected, the
    log of the actions that ran is not empty. *)
Lemma unknown_window_after_aggregation :
  snd (call [line_a] [line_a] false (Some "7d")) = inl UnknownWindowDefinition /\
  fst (call [line_a] [line_a] false (Some "7d")) = [Collect_min_max_day] /\
  fst (call [line_a] [line_a] false (Some "7d")) <> [].
Proof.
  repeat split. vm_compute. discriminate.
Qed.

(** C5. For every supported window and both grouping modes, a call on a
    transaction set without rows fails: the min and max day are undefined
    ([None]) and the date arithmetic on them raises. *)
Theorem empty_dataset_fails (transactions : DataFrame) (ic : bool) (w : string) :
  supported w = true ->
  call transactions [] ic (Some w) = ([Collect_min_max_day], inl NoneTypeOperand).
Proof.
  intros Hw.
  destruct (supported_cases w Hw) as [ -> | [ -> | [ -> | -> ] ] ]; reflexivity.
Qed.

Lemma empty_dataset_fails_witness :
  call [] [] false (Some "90d") = ([Collect_min_max_day], inl NoneTypeOperand).
Proof.
  apply (empty_dataset_fails [] false "90d"). reflexivity.
Defined.

(** ** The rows of a successful call *)

Lemma chain_cols_names (s1 s2 : list (string * ((string -> value) -> value))) :
  map fst s1 = map fst s2 ->
  forall cols, chain_cols s1 cols = chain_cols s2 cols.
Proof.
  revert s2. induction s1 as [|x s1 IH]; intros [|y s2] H cols;
    try discriminate; [reflexivity|].
  cbn [map] in H. injection H as Hx Hs.
  cbn [chain_cols]. rewrite Hx. apply IH. exact Hs.
Qed.

Lemma summary_columns_days (ws : string) (d : Z) :
  summary_columns ws d = summary_columns ws 0.
Proof.
  unfold summary_columns. apply chain_cols_names. reflexivity.
Qed.

Lemma call_supported_frame (transactions df : DataFrame) (ic : bool)
    (w : string) (mx : Z) :
  supported w = true ->
  f.max (col day) df = Some mx ->
  call transactions df ic (Some w) =
  ([Collect_min_max_day],
   inr {| key_columns := grouping_fields_of ic;
          columns := summary_names ic w ++ dayssince_names ic w;
          rows := map (fun k => (k, joined_cells df ic ("_" ++ w)%string
                                      (window_days w) (window_last w mx)
                                      (window_first w mx) k))
                      (distinct_keys ic transactions) |}).
Proof.
  intros Hw Hmx. rewrite (call_supported transactions df ic w mx Hw Hmx).
  rewrite (features_supported transactions df ic w _ _ _ Hw).
  unfold summary_names, dayssince_names, metric_columns.
  rewrite map_app. reflexivity.
Qed.

Lemma metric_of_call (transactions df : DataFrame) (ic : bool) (w : string)
    (mx : Z) (k : key) (name : string) :
  supported w = true ->
  f.max (col day) df = Some mx ->
  In k (map (select_key ic) transactions) ->
  metric_of (call transactions df ic (Some w)) k name =
  [cell (summary_names ic w ++ dayssince_names ic w)
        (joined_cells df ic ("_" ++ w)%string (window_days w)
           (window_last w mx) (window_first w mx) k) name].
Proof.
  intros Hw Hmx Hk. rewrite (call_supported_frame transactions df ic w mx Hw Hmx).
  unfold metric_of. cbn [snd rows columns].
  rewrite (filter_key_present
             (fun k => joined_cells df ic ("_" ++ w)%string (window_days w)
                         (window_last w mx) (window_first w mx) k)).
  - reflexivity.
  - apply NoDup_distinct_keys.
  - apply In_distinct_keys. exact Hk.
Qed.

Lemma nulls_map (g : string -> string) (cols : list string) :
  nulls (map g cols) = nulls cols.
Proof. unfold nulls. apply map_map. Qed.

Lemma cell_nulls_left (cols1 cols2 : list string) (rest : list value)
    (name : string) :
  In name cols1 ->
  cell (cols1 ++ cols2) (nulls cols1 ++ rest) name = None.
Proof.
  induction cols1 as [|c cols1 IH]; [intros []|].
  intros Hin. cbn [app nulls map cell].
  destruct (String.eqb c name) eqn:E; [reflexivity|].
  apply IH. destruct Hin as [Hc|Hin]; [|exact Hin].
  apply String.eqb_neq in E. contradiction.
Qed.

Lemma cell_all_nulls (cols : list string) (name : string) :
  forall cells,
    (forall v, In v cells -> v = None) ->
    cell cols cells name = None.
Proof.
  induction cols as [|c cols IH]; intros [|v cells] H; try reflexivity.
  cbn [cell]. destruct (String.eqb c name).
  - apply H. left. reflexivity.
  - apply IH. intros x Hx. apply H. right. exact Hx.
Qed.

Lemma nulls_all_none (cols : list string) (v : value) :
  In v (nulls cols) -> v = None.
Proof.
  unfold nulls. intros H. apply in_map_iff in H.
  destruct H as [x [Hx _]]. symmetry. exact Hx.
Qed.

Lemma joined_row_inv (h : key -> list value) (ks : list key) (k : key)
    (cells : list value) :
  In (k, cells) (map (fun k' => (k', h k')) ks) -> In k ks /\ cells = h k.
Proof.
  intros H. apply in_map_iff in H. destruct H as [k' [E Hin]].
  injection E as -> <-. split; [exact Hin|reflexivity].
Qed.

(** ** Reading a cell of a returned row *)

Lemma length_append (a b : string) :
  String.length (String.append a b) = (String.length a + String.length b)%nat.
Proof.
  induction a as [|c a IH]; cbn [String.append String.length plus];
    [reflexivity|]. rewrite IH. reflexivity.
Qed.

Lemma append_inj_left (s a b : string) :
  String.append a s = String.append b s -> a = b.
Proof.
  revert b. induction a as [|c a IH]; intros [|c' b] H.
  - reflexivity.
  - apply (f_equal String.length) in H. rewrite !length_append in H.
    cbn [String.length] in H. lia.
  - apply (f_equal String.length) in H. rewrite !length_append in H.
    cbn [String.length] in H. lia.
  - cbn [String.append] in H. injection H as -> H. f_equal. apply IH. exact H.
Qed.

Lemma new_name_inj (gs ws a b : string) :
  new_name gs ws a = new_name gs ws b -> a = b.
Proof. unfold new_name. apply append_inj_left. Qed.

Lemma cell_map_inj (g : string -> string) (name : string) (cols : list string) :
  (forall a b, g a = g b -> a = b) ->
  forall cells, cell (map g cols) cells (g name) = cell cols cells name.
Proof.
  intros Hg. induction cols as [|c cols IH]; intros [|v cells]; try reflexivity.
  cbn [map cell]. rewrite IH.
  destruct (String.eqb c name) eqn:E.
  - apply String.eqb_eq in E. subst c. rewrite String.eqb_refl. reflexivity.
  - destruct (String.eqb (g c) (g name)) eqn:E'; [|reflexivity].
    apply String.eqb_eq in E'. apply Hg in E'. subst c.
    rewrite String.eqb_refl in E. discriminate.
Qed.

Lemma cell_app_left (name : string) (cols1 cols2 : list string) :
  forall cells1 cells2,
    List.length cells1 = List.length cols1 ->
    In name cols1 ->
    cell (cols1 ++ cols2) (cells1 ++ cells2) name = cell cols1 cells1 name.
Proof.
  induction cols1 as [|c cols1 IH]; intros [|v cells1] cells2 Hlen Hin;
    try discriminate; [destruct Hin|].
  cbn [app cell]. destruct (String.eqb c name) eqn:E; [reflexivity|].
  apply IH.
  - cbn [List.length] in Hlen. lia.
  - destruct Hin as [Hc|Hin]; [|exact Hin].
    apply String.eqb_neq in E. contradiction.
Qed.

Lemma cell_app_right (name : string) (cols1 cols2 : list string) :
  forall cells1 cells2,
    List.length cells1 = List.length cols1 ->
    ~ In name cols1 ->
    cell (cols1 ++ cols2) (cells1 ++ cells2) name = cell cols2 cells2 name.
Proof.
  induction cols1 as [|c cols1 IH]; intros [|v cells1] cells2 Hlen Hin;
    try discriminate; [reflexivity|].
  cbn [app cell]. destruct (String.eqb c name) eqn:E.
  - apply String.eqb_eq in E. exfalso. apply Hin. left. exact E.
  - apply IH.
    + cbn [List.length] in Hlen. lia.
    + intros H. apply Hin. right. exact H.
Qed.

Lemma set_cell_length (name : string) (v : value) (cols : list string) :
  forall cells, List.length (set_cell cols cells name v) = List.length cells.
Proof.
  induction cols as [|c cols IH]; intros [|x cells]; try reflexivity.
  cbn [set_cell List.length]. rewrite IH. reflexivity.
Qed.

Lemma cell_set_cell_other (name other : string) (v : value) (cols : list string) :
  other <> name ->
  forall cells, cell cols (set_cell cols cells other v) name = cell cols cells name.
Proof.
  intros Hne. induction cols as [|c cols IH]; intros [|x cells]; try reflexivity.
  cbn [set_cell cell]. destruct (String.eqb c name) eqn:E.
  - apply String.eqb_eq in E. subst c.
    destruct (String.eqb name other) eqn:E'; [|reflexivity].
    apply String.eqb_eq in E'. congruence.
  - apply IH.
Qed.

Lemma existsb_eqb_In (name : string) (cols : list string) :
  existsb (String.eqb name) cols = true <-> In name cols.
Proof.
  rewrite existsb_exists. split.
  - intros [x [Hin E]]. apply String.eqb_eq in E. subst x. exact Hin.
  - intros Hin. exists name. split; [exact Hin|apply String.eqb_refl].
Qed.

Lemma cols_withColumn_length (cols : list string) (n : string)
    (e : (string -> value) -> value) (cells : list value) :
  List.length cells = List.length cols ->
  List.length (row_withColumn cols n e cells) = List.length (cols_withColumn cols n).
Proof.
  intros Hlen. unfold row_withColumn, cols_withColumn.
  destruct (existsb (String.eqb n) cols).
  - rewrite set_cell_length. exact Hlen.
  - rewrite !length_app. cbn [List.length]. lia.
Qed.

Lemma cols_withColumn_incl (cols : list string) (n name : string) :
  In name cols -> In name (cols_withColumn cols n).
Proof.
  intros H. unfold cols_withColumn.
  destruct (existsb (String.eqb n) cols); [exact H|].
  apply in_or_app. left. exact H.
Qed.

Lemma chain_cells_length (specs : list (string * ((string -> value) -> value))) :
  forall cols cells,
    List.length cells = List.length cols ->
    List.length (chain_cells specs cols cells) = List.length (chain_cols specs cols).
Proof.
  induction specs as [|s specs IH]; intros cols cells Hlen; [exact Hlen|].
  cbn [chain_cells chain_cols]. apply IH. apply cols_withColumn_length. exact Hlen.
Qed.

Lemma chain_cols_incl (specs : list (string * ((string -> value) -> value)))
    (name : string) :
  forall cols, In name cols -> In name (chain_cols specs cols).
Proof.
  induction specs as [|s specs IH]; intros cols H; [exact H|].
  cbn [chain_cols]. apply IH. apply cols_withColumn_incl. exact H.
Qed.

(** A chain of [withColumn] does not change the columns it does not name. *)
Lemma chain_cell_untouched (specs : list (string * ((string -> value) -> value)))
    (name : string) :
  ~ In name (map fst specs) ->
  forall cols cells,
    List.length cells = List.length cols ->
    In name cols ->
    cell (chain_cols specs cols) (chain_cells specs cols cells) name
    = cell cols cells name.
Proof.
  induction specs as [|s specs IH]; intros Hnot cols cells Hlen Hin;
    [reflexivity|].
  cbn [chain_cols chain_cells]. cbn [map] in Hnot.
  rewrite IH.
  - unfold row_withColumn, cols_withColumn.
    destruct (existsb (String.eqb (fst s)) cols).
    + apply cell_set_cell_other. intros E. apply Hnot. left. exact E.
    + apply cell_app_left; assumption.
  - intros H. apply Hnot. right. exact H.
  - apply cols_withColumn_length. exact Hlen.
  - apply cols_withColumn_incl. exact Hin.
Qed.

Lemma cell_of_aggregate (g : list transaction)
    (aggs : list (string * (list transaction -> value)))
    (name : string) (a : list transaction -> value) :
  NoDup (map fst aggs) ->
  In (name, a) aggs ->
  cell (map fst aggs) (map (fun x => snd x g) aggs) name = a g.
Proof.
  induction aggs as [|[n b] aggs IH]; intros Hnd Hin; [destruct Hin|].
  cbn [map fst snd cell]. cbn [map fst] in Hnd.
  apply NoDup_cons_iff in Hnd. destruct Hnd as [Hn Hnd].
  destruct Hin as [E|Hin].
  - injection E as -> ->. rewrite String.eqb_refl. reflexivity.
  - destruct (String.eqb n name) eqn:E.
    + apply String.eqb_eq in E. subst n. exfalso. apply Hn.
      change name with (fst (name, a)). apply in_map. exact Hin.
    + apply IH; assumption.
Qed.

Lemma In_map_inj (g : string -> string) :
  (forall a b, g a = g b -> a = b) ->
  forall (x : string) (l : list string), In (g x) (map g l) -> In x l.
Proof.
  intros Hg x l. induction l as [|y l IH]; cbn [map In]; [intros []|].
  intros [E|H]; [left; apply Hg; exact E|right; apply IH; exact H].
Qed.

Lemma distinct_names_NoDup (l : list string) :
  distinct_names l = true -> NoDup l.
Proof.
  induction l as [|x l IH]; intros H; [constructor|].
  cbn [distinct_names] in H. apply andb_true_iff in H. destruct H as [H1 H2].
  constructor; [|apply IH; exact H2].
  intros Hin. apply existsb_eqb_In in Hin. rewrite Hin in H1. discriminate.
Qed.

Lemma names_disjoint_spec (l1 l2 : list string) (name : string) :
  names_disjoint l1 l2 = true -> In name l1 -> ~ In name l2.
Proof.
  unfold names_disjoint. intros H Hin Hin2.
  rewrite forallb_forall in H. specialize (H name Hin).
  apply existsb_eqb_In in Hin2. rewrite Hin2 in H. discriminate.
Qed.

Lemma summary_aggs_NoDup : NoDup (map fst summary_aggs).
Proof. apply distinct_names_NoDup. vm_compute. reflexivity. Qed.

Lemma dayssince_aggs_NoDup (min_day max_day : Z) :
  NoDup (map fst (dayssince_aggs min_day max_day)).
Proof. apply distinct_names_NoDup. vm_compute. reflexivity. Qed.

Lemma ratio_names_fresh (w : string) (d : Z) :
  supported w = true ->
  names_disjoint (map fst summary_aggs)
    (map fst (ratio_columns ("_" ++ w)%string d)) = true.
Proof.
  intros Hw.
  destruct (supported_cases w Hw) as [ -> | [ -> | [ -> | -> ] ] ];
    vm_compute; reflexivity.
Qed.

Lemma dayssince_names_fresh (w : string) :
  supported w = true ->
  names_disjoint dayssince_columns (summary_columns ("_" ++ w)%string 0) = true.
Proof.
  intros Hw.
  destruct (supported_cases w Hw) as [ -> | [ -> | [ -> | -> ] ] ];
    vm_compute; reflexivity.
Qed.

Lemma summary_cells_length (ws : string) (d : Z) (g : list transaction) :
  List.length (summary_cells ws d g) = List.length (summary_columns ws 0).
Proof.
  rewrite <- (summary_columns_days ws d). unfold summary_cells, summary_columns.
  apply chain_cells_length. rewrite !length_map. reflexivity.
Qed.

Lemma summary_part_length (ws : string) (d : Z) (g : list transaction) :
  List.length (joined_part (summary_columns ws d) (summary_cells ws d) g)
  = List.length (summary_columns ws 0).
Proof.
  destruct g as [|t g]; cbn [joined_part].
  - unfold nulls. rewrite length_map, summary_columns_days. reflexivity.
  - apply summary_cells_length.
Qed.

(** The cell of an aggregate of the summary, in a row whose summary part
    comes from the group [g]. *)
Lemma summary_aggregate_cell (ic : bool) (w : string) (d : Z)
    (g : list transaction) (rest : list value) (name : string)
    (a : list transaction -> value) :
  supported w = true ->
  In (name, a) summary_aggs ->
  cell (summary_names ic w ++ dayssince_names ic w)
       (summary_cells ("_" ++ w)%string d g ++ rest)
       (new_name (grouping_suffix_of ic) ("_" ++ w)%string name)
  = a g.
Proof.
  intros Hw Hin.
  assert (Hname : In name (map fst summary_aggs)).
  { change name with (fst (name, a)). apply in_map. exact Hin. }
  rewrite cell_app_left.
  - unfold summary_names. rewrite cell_map_inj by apply new_name_inj.
    rewrite <- (summary_columns_days _ d).
    unfold summary_columns, summary_cells.
    rewrite chain_cell_untouched.
    + apply cell_of_aggregate; [apply summary_aggs_NoDup|exact Hin].
    + apply (names_disjoint_spec _ _ name (ratio_names_fresh w d Hw) Hname).
    + rewrite !length_map. reflexivity.
    + exact Hname.
  - unfold summary_names. rewrite length_map. apply summary_cells_length.
  - unfold summary_names. apply in_map. unfold summary_columns.
    apply chain_cols_incl. exact Hname.
Qed.

(** The cell of a days-since aggregate, in a row whose days-since part
    comes from the group [g]. *)
Lemma dayssince_aggregate_cell (ic : bool) (w : string) (min_day max_day : Z)
    (g : list transaction) (part : list value) (name : string)
    (a : list transaction -> value) :
  supported w = true ->
  List.length part = List.length (summary_columns ("_" ++ w)%string 0) ->
  In (name, a) (dayssince_aggs min_day max_day) ->
  cell (summary_names ic w ++ dayssince_names ic w)
       (part ++ dayssince_cells min_day max_day g)
       (new_name (grouping_suffix_of ic) ("_" ++ w)%string name)
  = a g.
Proof.
  intros Hw Hlen Hin.
  assert (Hname : In name dayssince_columns).
  { rewrite <- (dayssince_aggs_columns min_day max_day).
    change name with (fst (name, a)). apply in_map. exact Hin. }
  rewrite (cell_app_right _ (summary_names ic w) (dayssince_names ic w) part).
  - unfold dayssince_names. rewrite cell_map_inj by apply new_name_inj.
    unfold dayssince_cells.
    exact (cell_of_aggregate g (dayssince_aggs min_day max_day) name a
             (dayssince_aggs_NoDup min_day max_day) Hin).
  - unfold summary_names. rewrite length_map. exact Hlen.
  - unfold summary_names. intros H.
    apply (In_map_inj (new_name (grouping_suffix_of ic) ("_" ++ w)%string)
             (new_name_inj _ _) name (summary_columns ("_" ++ w)%string 0)) in H.
    exact (names_disjoint_spec _ _ name (dayssince_names_fresh w Hw) Hname H).
Qed.

Lemma metric_of_summary (transactions df : DataFrame) (ic : bool) (w : string)
    (mx : Z) (k : key) (name : string) (a : list transaction -> value) :
  supported w = true ->
  f.max (col day) df = Some mx ->
  In k (map (select_key ic) transactions) ->
  In (name, a) summary_aggs ->
  in_window df ic (window_last w mx) (window_first w mx) k <> [] ->
  metric_of (call transactions df ic (Some w)) k
    (new_name (grouping_suffix_of ic) ("_" ++ w)%string name)
  = [a (in_window df ic (window_last w mx) (window_first w mx) k)].
Proof.
  intros Hw Hmx Hk Hin Hg.
  rewrite (metric_of_call transactions df ic w mx k _ Hw Hmx Hk).
  unfold joined_cells.
  destruct (in_window df ic (window_last w mx) (window_first w mx) k) as [|t g];
    [congruence|].
  cbn [joined_part].
  rewrite (summary_aggregate_cell ic w _ _ _ name a Hw Hin). reflexivity.
Qed.

Lemma metric_of_dayssince (transactions df : DataFrame) (ic : bool) (w : string)
    (mx : Z) (k : key) (name : string) (a : list transaction -> value) :
  supported w = true ->
  f.max (col day) df = Some mx ->
  In k (map (select_key ic) transactions) ->
  In (name, a) (dayssince_aggs (window_first w mx) (window_last w mx)) ->
  up_to df ic (window_last w mx) k <> [] ->
  metric_of (call transactions df ic (Some w)) k
    (new_name (grouping_suffix_of ic) ("_" ++ w)%string name)
  = [a (up_to df ic (window_last w mx) k)].
Proof.
  intros Hw Hmx Hk Hin Hg.
  rewrite (metric_of_call transactions df ic w mx k _ Hw Hmx Hk).
  unfold joined_cells.
  destruct (up_to df ic (window_last w mx) k) as [|t g] eqn:E; [congruence|].
  cbn [joined_part].
  rewrite (dayssince_aggregate_cell ic w _ _ _ _ name a Hw
             (summary_part_length _ _ _) Hin).
  reflexivity.
Qed.

(** ** The days-since metrics *)

Lemma up_to_spec (df : DataFrame) (ic : bool) (max_day : Z) (k : key)
    (t : transaction) :
  In t (up_to df ic max_day k) <->
  In t df /\ day t <= max_day /\ select_key ic t = k.
Proof.
  unfold up_to, group. rewrite !filter_In, key_eqb_eq, Z.leb_le.
  split; [intros [[H1 H2] H3]|intros [H1 [H2 H3]]]; repeat split; assumption.
Qed.

Lemma in_window_spec (df : DataFrame) (ic : bool) (max_day min_day : Z)
    (k : key) (t : transaction) :
  In t (in_window df ic max_day min_day k) <->
  In t df /\ (min_day <= day t <= max_day) /\ select_key ic t = k.
Proof.
  unfold in_window, group, between.
  rewrite !filter_In, key_eqb_eq, andb_true_iff, !Z.leb_le.
  split; [intros [[H1 [H2 H2']] H3]|intros [H1 [[H2 H2'] H3]]];
    repeat split; assumption.
Qed.

Lemma days_since_in_aggs (name : string) (X : transaction -> Qc)
    (min_day max_day : Z) :
  In (name, X) discount_types ->
  In (String.append "days_since_" name, days_since X min_day max_day)
     (dayssince_aggs min_day max_day).
Proof.
  unfold discount_types, dayssince_aggs. cbn [In].
  intros [E|[E|[E|[E|[]]]]]; injection E as <- <-; cbn [String.append];
    [left|right; left|right; right; left|right; right; right; left];
    reflexivity.
Qed.

Lemma window_span (w : string) (mx : Z) :
  supported w = true ->
  window_last w mx - window_first w mx = window_days w - 1.
Proof.
  intros Hw.
  destruct (supported_cases w Hw) as [ -> | [ -> | [ -> | -> ] ] ];
    cbn; lia.
Qed.

Lemma non_null_all_null {A : Type} (e : transaction -> option A)
    (g : list transaction) :
  (forall t, e t = None) -> non_null e g = [].
Proof.
  intros He. induction g as [|t g IH]; [reflexivity|].
  unfold non_null in *. cbn [flat_map]. rewrite He, IH. reflexivity.
Qed.

(** The difference of the two strings is NULL on every row, and so is
    its minimum over every group. *)
Lemma days_since_null (X : transaction -> Qc) (min_day max_day : Z)
    (g : list transaction) :
  days_since X min_day max_day g = None.
Proof.
  unfold days_since, f.min_double.
  rewrite non_null_all_null; [reflexivity|].
  intros t. reflexivity.
Qed.

Lemma dayssince_cells_null (min_day max_day : Z) (g : list transaction)
    (v : value) :
  In v (dayssince_cells min_day max_day g) -> v = None.
Proof.
  unfold dayssince_cells, dayssince_aggs. cbn [map snd In].
  intros [ <- | [ <- | [ <- | [ <- | [] ] ] ] ]; apply days_since_null.
Qed.

Lemma dayssince_part_null (cols : list string) (min_day max_day : Z)
    (g : list transaction) (v : value) :
  In v (joined_part cols (dayssince_cells min_day max_day) g) -> v = None.
Proof.
  destruct g as [|t g]; cbn [joined_part].
  - apply nulls_all_none.
  - apply dayssince_cells_null.
Qed.

(** The cell of a days-since column, in a row whose days-since part holds
    NULLs only. *)
Lemma dayssince_cell_null (ic : bool) (w : string) (part rest : list value)
    (name : string) :
  supported w = true ->
  List.length part = List.length (summary_columns ("_" ++ w)%string 0) ->
  In name dayssince_columns ->
  (forall v, In v rest -> v = None) ->
  cell (summary_names ic w ++ dayssince_names ic w) (part ++ rest)
       (new_name (grouping_suffix_of ic) ("_" ++ w)%string name)
  = None.
Proof.
  intros Hw Hlen Hname Hrest.
  rewrite (cell_app_right _ (summary_names ic w) (dayssince_names ic w) part).
  - apply cell_all_nulls. exact Hrest.
  - unfold summary_names. rewrite length_map. exact Hlen.
  - unfold summary_names. intros H.
    apply (In_map_inj (new_name (grouping_suffix_of ic) ("_" ++ w)%string)
             (new_name_inj _ _) name (summary_columns ("_" ++ w)%string 0)) in H.
    exact (names_disjoint_spec _ _ name (dayssince_names_fresh w Hw) Hname H).
Qed.

Lemma joined_cells_length (df : DataFrame) (ic : bool) (ws : string)
    (d max_day min_day : Z) (k : key) :
  List.length (joined_cells df ic ws d max_day min_day k)
  = (List.length (summary_columns ws 0) + 4)%nat.
Proof.
  unfold joined_cells. rewrite length_app, summary_part_length. f_equal.
  destruct (up_to df ic max_day k); reflexivity.
Qed.

(** ** Keys and windows, written out on the columns *)

Lemma key_of_table (ic : bool) (T : DataFrame) (k : key) :
  In k (map (select_key ic) T) <->
  exists t, In t T /\
            k = (household_key t, if ic then Some (commodity_desc t) else None).
Proof.
  split.
  - intros H.
    destruct (proj1 (in_map_iff (select_key ic) T k) H) as [t [E Ht]].
    exists t. split; [exact Ht|]. symmetry. exact E.
  - intros [t [Ht ->]]. exact (in_map (select_key ic) T t Ht).
Qed.

Lemma in_window_nil (df : DataFrame) (ic : bool) (max_day min_day : Z) (k : key) :
  (forall t, In t df ->
     (household_key t, if ic then Some (commodity_desc t) else None) = k ->
     ~ (min_day <= day t <= max_day)) ->
  in_window df ic max_day min_day k = [].
Proof.
  intros H.
  destruct (in_window df ic max_day min_day k) as [|t g] eqn:E; [reflexivity|].
  exfalso.
  assert (Ht : In t (in_window df ic max_day min_day k))
    by (rewrite E; left; reflexivity).
  destruct (proj1 (in_window_spec df ic max_day min_day k t) Ht)
    as [Hdf [Hday Hkey]].
  exact (H t Hdf Hkey Hday).
Qed.

Lemma filter_filter_and {A : Type} (p q : A -> bool) (l : list A) :
  filter p (filter q l) = filter (fun x => p x && q x) l.
Proof.
  induction l as [|a l IH]; [reflexivity|].
  cbn [filter]. destruct (q a); cbn [filter]; destruct (p a); cbn [andb];
    rewrite IH; reflexivity.
Qed.

Lemma in_window_key_window (df : DataFrame) (ic : bool) (max_day min_day : Z)
    (k : key) :
  in_window df ic max_day min_day k = key_window df ic min_day max_day k.
Proof.
  unfold in_window, group, key_window. rewrite filter_filter_and. reflexivity.
Qed.





(** The cell of an aggregate of the summary in any returned row: the
    aggregate over the transactions of the key inside the window, NULL
    when there is none. *)
Lemma summary_cell_of_row (df : DataFrame) (ic : bool) (w : string)
    (d max_day min_day : Z) (k : key) (name : string)
    (a : list transaction -> value) :
  supported w = true ->
  In (name, a) summary_aggs ->
  cell (summary_names ic w ++ dayssince_names ic w)
       (joined_cells df ic ("_" ++ w)%string d max_day min_day k)
       (new_name (grouping_suffix_of ic) ("_" ++ w)%string name)
  = match in_window df ic max_day min_day k with
    | [] => None
    | t :: g => a (t :: g)
    end.
Proof.
  intros Hw Hin. unfold joined_cells.
  destruct (in_window df ic max_day min_day k) as [|t g]; cbn [joined_part].
  - rewrite summary_columns_days.
    rewrite <- (nulls_map (new_name (grouping_suffix_of ic) ("_" ++ w)%string)).
    apply (cell_nulls_left (summary_names ic w)).
    unfold summary_names.
    apply (in_map (new_name (grouping_suffix_of ic) ("_" ++ w)%string)).
    unfold summary_columns. apply chain_cols_incl.
    change name with (fst (name, a)).
    apply (in_map fst). exact Hin.
  - apply (summary_aggregate_cell ic w d (t :: g) _ name a Hw Hin).
Qed.

Lemma line_items_in_aggs : In ("line_items", f.count_star) summary_aggs.
Proof.
  unfold summary_aggs. cbn [In]. right. right. right. left. reflexivity.
Qed.

(** The cells of the row of a key without a transaction inside the
    window are NULLs. *)
Lemma inactive_cells_null (df : DataFrame) (ic : bool) (ws : string)
    (d max_day min_day : Z) (k : key) (v : value) :
  in_window df ic max_day min_day k = [] ->
  In v (joined_cells df ic ws d max_day min_day k) -> v = None.
Proof.
  intros Hwin. unfold joined_cells. rewrite Hwin. cbn [joined_part].
  intros Hv. apply in_app_or in Hv. destruct Hv as [Hv|Hv].
  - exact (nulls_all_none _ v Hv).
  - exact (dayssince_part_null _ _ _ _ v Hv).
Qed.

(** C3.  The code does not return the metric the claim describes.  For
    every key of the table, every discount type, every supported window
    and either grouping mode, the days-since column of the returned row
    is NULL, whether the key has a discount of that type or not: lines
    252-255 subtract the [case] expression, a string, from the string
    ['{max_day}'], both are cast to double, and the text of a day is not
    the text of a number. *)
Theorem days_since_is_null (transactions df : DataFrame) (ic : bool) (w : string)
    (mx : Z) (t0 : transaction) (name : string) (X : transaction -> Qc) :
  supported w = true ->
  f.max (col day) df = Some mx ->
  In t0 transactions ->
  In (name, X) discount_types ->
  metric_of (call transactions df ic (Some w))
    (household_key t0, if ic then Some (commodity_desc t0) else None)
    (new_name (grouping_suffix_of ic) ("_" ++ w)%string
       (String.append "days_since_" name))
  = [None].
Proof.
  intros Hw Hmx Ht0 Hname.
  rewrite (metric_of_call transactions df ic w mx _ _ Hw Hmx
             (in_map (select_key ic) transactions t0 Ht0)).
  apply (f_equal (fun v : value => [v])).
  unfold joined_cells. apply dayssince_cell_null.
  - exact Hw.
  - apply summary_part_length.
  - rewrite <- (dayssince_aggs_columns 0 0).
    change (String.append "days_since_" name)
      with (fst (String.append "days_since_" name, days_since X 0 0)).
    apply (in_map fst). apply days_since_in_aggs. exact Hname.
  - intros v. apply dayssince_part_null.
Qed.

Lemma days_since_is_null_witness :
  metric_of (call [line_a] [line_a] false (Some "30d"))
    (household_key line_a, None)
    (new_name (grouping_suffix_of false) "_30d"
       (String.append "days_since_" "instore_discount"))
  = [None].
Proof.
  apply (days_since_is_null [line_a] [line_a] false "30d" 700 line_a
           "instore_discount" instore_discount).
  - reflexivity.
  - reflexivity.
  - left. reflexivity.
  - left. reflexivity.
Defined.

(** Household 1 buys with an in-store discount on day 700, the last day
    of the dataset and of the 30-day window: the column is NULL, not 0.
    A household that never has the discount gets NULL as well, not a
    number of days. *)
Example days_since_null_on_the_discount_day :
  gt_zero (instore_discount line_a) = true /\
  day line_a = 700 /\
  f.max (col day) [line_a] = Some 700 /\
  metric_of (call [line_a] [line_a] false (Some "30d"))
    (1, None) "days_since_instore_discount_30d" = [None] /\
  metric_of (call [line_first; line_b] [line_first; line_b] false (Some "30d"))
    (1, None) "days_since_instore_discount_30d" = [None].
Proof. repeat split; vm_compute; reflexivity. Qed.

(** ** One row per key of the table *)



(** Household 2 has its only transaction on day 600, outside the last 30
    days: it keeps its row, and the cells of the row are NULL. *)
Example inactive_household_row :
  metric_of (call [line_a; line_old] [line_a; line_old] false (Some "30d"))
    (2, None) "amount_list_30d" = [None] /\
  metric_of (call [line_a; line_old] [line_a; line_old] false (Some "30d"))
    (2, None) "days_since_instore_discount_30d" = [None] /\
  metric_of (call [line_a; line_old] [line_a; line_old] false (Some "30d"))
    (1, None) "amount_list_30d" = [Some (q 5 1)].
Proof. repeat split; vm_compute; reflexivity. Qed.

(** ** The keys come from the table, the metrics from [df] *)

(** C10.  The keys of the returned frame are the distinct keys of the
    table [transactions] of the notebook, whatever [df] is: every
    transaction of the table has its row, every row belongs to a
    transaction of the table, no key has two rows, and a key that only
    [df] has gets no row.  The metrics are computed from [df]: the
    line-item count of a row counts the transactions of [df] with the
    key of the row inside the window, a key without a transaction in
    [df] has NULLs only, and the metrics of a key do not change when the
    table is replaced by another one that has the key. *)
Theorem anchor_keys_from_notebook_table (transactions df : DataFrame) (ic : bool)
    (w : string) (mx : Z) :
  supported w = true ->
  f.max (col day) df = Some mx ->
  exists fr,
    call transactions df ic (Some w) = ([Collect_min_max_day], inr fr) /\
    NoDup (map fst (rows fr)) /\
    (forall t, In t transactions ->
       In (household_key t, if ic then Some (commodity_desc t) else None)
          (map fst (rows fr))) /\
    (forall k, In k (map fst (rows fr)) ->
       exists t, In t transactions /\
                 k = (household_key t,
                      if ic then Some (commodity_desc t) else None)) /\
    (forall t, In t df ->
       (forall t', In t' transactions ->
          (household_key t', if ic then Some (commodity_desc t') else None)
          <> (household_key t, if ic then Some (commodity_desc t) else None)) ->
       ~ In (household_key t, if ic then Some (commodity_desc t) else None)
            (map fst (rows fr))) /\
    (forall k cells,
       In (k, cells) (rows fr) ->
       cell (columns fr) cells
         (new_name (grouping_suffix_of ic) ("_" ++ w)%string "line_items")
       = match key_window df ic (window_first w mx) (window_last w mx) k with
         | [] => None
         | t :: g => Some (Z2Qc (Z.of_nat (List.length (t :: g))))
         end /\
       ((forall t, In t df ->
           (household_key t, if ic then Some (commodity_desc t) else None) <> k) ->
        forall v, In v cells -> v = None)) /\
    (forall (transactions' : DataFrame) (t' : transaction) (name : string),
       In t' transactions' ->
       In (household_key t', if ic then Some (commodity_desc t') else None)
          (map fst (rows fr)) ->
       metric_of (call transactions' df ic (Some w))
         (household_key t', if ic then Some (commodity_desc t') else None) name
       = metric_of (call transactions df ic (Some w))
           (household_key t', if ic then Some (commodity_desc t') else None) name).
Proof.
  intros Hw Hmx. eexists. split.
  { apply (call_supported_frame transactions df ic w mx Hw Hmx). }
  cbn [rows columns]. rewrite map_map. cbn [fst]. rewrite map_id.
  assert (Hkeys : forall k, In k (distinct_keys ic transactions) ->
            exists t, In t transactions /\
                      k = (household_key t,
                           if ic then Some (commodity_desc t) else None)).
  { intros k Hk. apply (proj1 (key_of_table ic transactions k)).
    exact (proj1 (In_distinct_keys ic transactions k) Hk). }
  split; [apply NoDup_distinct_keys|].
  split.
  { intros t Ht. apply (proj2 (In_distinct_keys ic transactions _)).
    exact (in_map (select_key ic) transactions t Ht). }
  split; [exact Hkeys|].
  split.
  { intros t Ht Hnone Hk. destruct (Hkeys _ Hk) as [t' [Ht' E]].
    apply (Hnone t' Ht'). symmetry. exact E. }
  split.
  { intros k cells Hin. apply joined_row_inv in Hin. destruct Hin as [_ ->].
    split.
    - rewrite (summary_cell_of_row df ic w _ _ _ k "line_items" f.count_star
                 Hw line_items_in_aggs).
      rewrite in_window_key_window.
      destruct (key_window df ic (window_first w mx) (window_last w mx) k);
        reflexivity.
    - intros Hnone v. apply inactive_cells_null. apply in_window_nil.
      intros t Ht Hk _. exact (Hnone t Ht Hk). }
  intros transactions' t' name Ht' Hk.
  change (household_key t', if ic then Some (commodity_desc t') else None)
    with (select_key ic t') in *.
  rewrite (metric_of_call transactions' df ic w mx _ name Hw Hmx
             (in_map (select_key ic) transactions' t' Ht')).
  rewrite (metric_of_call transactions df ic w mx _ name Hw Hmx
             (proj1 (In_distinct_keys ic transactions _) Hk)).
  reflexivity.
Qed.

Lemma anchor_keys_from_notebook_table_witness :
  exists fr,
    call [line_a; line_old] [line_a] false (Some "30d")
      = ([Collect_min_max_day], inr fr) /\
    NoDup (map fst (rows fr)) /\
    (forall t, In t [line_a; line_old] ->
       In (household_key t, None) (map fst (rows fr))) /\
    (forall k, In k (map fst (rows fr)) ->
       exists t, In t [line_a; line_old] /\ k = (household_key t, None)) /\
    (forall t, In t [line_a] ->
       (forall t', In t' [line_a; line_old] ->
          (household_key t', @None string) <> (household_key t, None)) ->
       ~ In (household_key t, None) (map fst (rows fr))) /\
    (forall k cells,
       In (k, cells) (rows fr) ->
       cell (columns fr) cells
         (new_name (grouping_suffix_of false) "_30d" "line_items")
       = match key_window [line_a] false (window_first "30d" 700)
                 (window_last "30d" 700) k with
         | [] => None
         | t :: g => Some (Z2Qc (Z.of_nat (List.length (t :: g))))
         end /\
       ((forall t, In t [line_a] -> (household_key t, None) <> k) ->
        forall v, In v cells -> v = None)) /\
    (forall (transactions' : DataFrame) (t' : transaction) (name : string),
       In t' transactions' ->
       In (household_key t', None) (map fst (rows fr)) ->
       metric_of (call transactions' [line_a] false (Some "30d"))
         (household_key t', None) name
       = metric_of (call [line_a; line_old] [line_a] false (Some "30d"))
           (household_key t', None) name).
Proof.
  apply (anchor_keys_from_notebook_table [line_a; line_old] [line_a] false "30d" 700);
    reflexivity.
Defined.

(** The keys follow [transactions] even when [df] has other keys: a key
    of [df] alone gets no row, a key of [transactions] alone gets NULLs. *)
Example keys_differ_from_df :
  metric_of (call [line_a] [line_a; line_old] false (Some "90d"))
    (2, None) "amount_list_90d" = [] /\
  metric_of (call [line_a; line_old] [line_a] false (Some "90d"))
    (2, None) "amount_list_90d" = [None].
Proof. split; vm_compute; reflexivity. Qed.

(** ** The discount-adoption counts *)

Lemma non_null_no_discount {A : Type} (X : transaction -> Qc)
    (e : transaction -> A) (g : list transaction) :
  (forall t, In t g -> gt_zero (X t) = false) ->
  non_null (case_when_gt0 X e) g = [].
Proof.
  unfold non_null, case_when_gt0.
  induction g as [|t g IH]; intros H; [reflexivity|].
  cbn [flat_map]. rewrite (H t (or_introl eq_refl)). cbn [app].
  apply IH. intros t' Ht'. apply H. right. exact Ht'.
Qed.

Lemma adoption_aggs_in (name : string) (X : transaction -> Qc) :
  In (name, X) discount_types ->
  In (String.append "days_with_" name, f.countDistinct (case_when_gt0 X day))
     summary_aggs /\
  In (String.append "baskets_with_" name,
      f.countDistinct (case_when_gt0 X basket_id)) summary_aggs /\
  In (String.append "products_with_" name,
      f.countDistinct (case_when_gt0 X product_id)) summary_aggs /\
  In (String.append "line_items_with_" name,
      f.sum (case_when_gt0 X (fun _ => 1%Qc))) summary_aggs.
Proof.
  unfold discount_types. cbn [In].
  intros [E|[E|[E|[E|[]]]]]; injection E as <- <-;
    cbn [String.append]; unfold summary_aggs; cbn [In];
    repeat split; repeat (first [left; reflexivity | right]).
Qed.

(** C8. For a key with a transaction inside the window and none there
    with a strictly positive discount of a type, the counts of days,
    baskets and products with that discount are 0 and the count of line
    items with it is NULL. *)
Theorem adoption_counts_without_discount (transactions df : DataFrame)
    (ic : bool) (w : string) (mx : Z) (k : key) (name : string)
    (X : transaction -> Qc) :
  supported w = true ->
  f.max (col day) df = Some mx ->
  In k (map (select_key ic) transactions) ->
  In (name, X) discount_types ->
  in_window df ic (window_last w mx) (window_first w mx) k <> [] ->
  (forall t, In t (in_window df ic (window_last w mx) (window_first w mx) k) ->
             gt_zero (X t) = false) ->
  metric_of (call transactions df ic (Some w)) k
    (new_name (grouping_suffix_of ic) ("_" ++ w)%string
       (String.append "days_with_" name)) = [Some (Z2Qc 0)] /\
  metric_of (call transactions df ic (Some w)) k
    (new_name (grouping_suffix_of ic) ("_" ++ w)%string
       (String.append "baskets_with_" name)) = [Some (Z2Qc 0)] /\
  metric_of (call transactions df ic (Some w)) k
    (new_name (grouping_suffix_of ic) ("_" ++ w)%string
       (String.append "products_with_" name)) = [Some (Z2Qc 0)] /\
  metric_of (call transactions df ic (Some w)) k
    (new_name (grouping_suffix_of ic) ("_" ++ w)%string
       (String.append "line_items_with_" name)) = [None].
Proof.
  intros Hw Hmx Hk Hname Hg Hnone.
  destruct (adoption_aggs_in name X Hname) as [Hd [Hb [Hp Hl]]].
  rewrite (metric_of_summary transactions df ic w mx k _ _ Hw Hmx Hk Hd Hg).
  rewrite (metric_of_summary transactions df ic w mx k _ _ Hw Hmx Hk Hb Hg).
  rewrite (metric_of_summary transactions df ic w mx k _ _ Hw Hmx Hk Hp Hg).
  rewrite (metric_of_summary transactions df ic w mx k _ _ Hw Hmx Hk Hl Hg).
  unfold f.countDistinct, f.sum.
  rewrite !(non_null_no_discount X _ _ Hnone).
  repeat split; reflexivity.
Qed.

Lemma adoption_counts_without_discount_witness :
  metric_of (call [line_a] [line_a] false (Some "30d")) (1, None)
    (new_name (grouping_suffix_of false) "_30d"
       (String.append "days_with_" "campaign_coupon_discount"))
    = [Some (Z2Qc 0)] /\
  metric_of (call [line_a] [line_a] false (Some "30d")) (1, None)
    (new_name (grouping_suffix_of false) "_30d"
       (String.append "baskets_with_" "campaign_coupon_discount"))
    = [Some (Z2Qc 0)] /\
  metric_of (call [line_a] [line_a] false (Some "30d")) (1, None)
    (new_name (grouping_suffix_of false) "_30d"
       (String.append "products_with_" "campaign_coupon_discount"))
    = [Some (Z2Qc 0)] /\
  metric_of (call [line_a] [line_a] false (Some "30d")) (1, None)
    (new_name (grouping_suffix_of false) "_30d"
       (String.append "line_items_with_" "campaign_coupon_discount"))
    = [None].
Proof.
  apply (adoption_counts_without_discount [line_a] [line_a] false "30d" 700
           (1, None) "campaign_coupon_discount" campaign_coupon_discount).
  - reflexivity.
  - reflexivity.
  - left. reflexivity.
  - right. left. reflexivity.
  - discriminate.
  - intros t [<-|[]]. reflexivity.
Defined.

(** ** A single line item *)

Lemma sql_div_nonzero (x y : Qc) :
  y <> 0%Qc -> sql_div (Some x) (Some y) = Some (x / y)%Qc.
Proof.
  intros Hy. unfold sql_div. destruct (Qc_eq_dec y 0) as [E|_];
    [contradiction|reflexivity].
Qed.

Lemma Z2Qc_nonzero (z : Z) : z <> 0 -> Z2Qc z <> 0%Qc.
Proof.
  intros Hz E. unfold Z2Qc in E.
  change 0%Qc with (Q2Qc 0) in E. apply Q2Qc_eq_iff in E.
  unfold Qeq, inject_Z in E. cbn [Qnum Qden] in E. lia.
Qed.

Lemma sum_single (c : transaction -> Qc) (t : transaction) :
  f.sum (col c) [t] = Some (c t).
Proof.
  unfold f.sum, non_null, col. cbn [flat_map app fold_right].
  rewrite Qcplus_0_r. reflexivity.
Qed.

Lemma in_window_single (t : transaction) :
  in_window [t] false (window_last "30d" (day t)) (window_first "30d" (day t))
    (household_key t, None) = [t].
Proof.
  unfold in_window, group, between, select_key.
  cbn [filter window_last window_first String.eqb Ascii.eqb Bool.eqb].
  replace (day t - 29 <=? day t) with true by (symmetry; apply Z.leb_le; lia).
  rewrite Z.leb_refl. cbn [andb filter]. rewrite key_eqb_refl. reflexivity.
Qed.

Lemma per_day_ratio_cells_30d (g : list transaction) (rest : list value) :
  cell (summary_names false "30d" ++ dayssince_names false "30d")
       (summary_cells "_30d" 30 g ++ rest) "baskets_per_day_30d"
  = sql_div (f.countDistinct (col basket_id) g) (f.countDistinct (col day) g) /\
  cell (summary_names false "30d" ++ dayssince_names false "30d")
       (summary_cells "_30d" 30 g ++ rest) "days_to_days_in_set_30d"
  = sql_div (f.countDistinct (col day) g) (Some (Z2Qc 30)).
Proof. split; reflexivity. Qed.

Lemma metric_of_sum_single (t : transaction) (name : string)
    (c : transaction -> Qc) :
  In (name, f.sum (col c)) summary_aggs ->
  metric_of (call [t] [t] false (Some "30d")) (household_key t, None)
    (new_name (grouping_suffix_of false) ("_" ++ "30d")%string name)
  = [Some (c t)].
Proof.
  intros Hin.
  assert (Hg : in_window [t] false (window_last "30d" (day t))
                 (window_first "30d" (day t)) (household_key t, None) <> [])
    by (rewrite in_window_single; discriminate).
  rewrite (metric_of_summary [t] [t] false "30d" (day t) (household_key t, None)
             name (f.sum (col c)) eq_refl eq_refl (or_introl eq_refl) Hin Hg).
  rewrite in_window_single, sum_single. reflexivity.
Qed.

(** C7. For a transaction set of one line item (one household, one day,
    one basket), the call with window '30d' returns one row; its sums of
    amount_list, instore_discount, campaign_coupon_discount and
    manuf_coupon_discount are the values of the line item,
    baskets_per_day is 1 and days_to_days_in_set is 1/30. *)
Theorem single_line_item (t : transaction) :
  (exists fr,
     call [t] [t] false (Some "30d") = ([Collect_min_max_day], inr fr) /\
     map fst (rows fr) = [(household_key t, None)]) /\
  metric_of (call [t] [t] false (Some "30d")) (household_key t, None)
    "amount_list_30d" = [Some (amount_list t)] /\
  metric_of (call [t] [t] false (Some "30d")) (household_key t, None)
    "instore_discount_30d" = [Some (instore_discount t)] /\
  metric_of (call [t] [t] false (Some "30d")) (household_key t, None)
    "campaign_coupon_discount_30d" = [Some (campaign_coupon_discount t)] /\
  metric_of (call [t] [t] false (Some "30d")) (household_key t, None)
    "manuf_coupon_discount_30d" = [Some (manuf_coupon_discount t)] /\
  metric_of (call [t] [t] false (Some "30d")) (household_key t, None)
    "baskets_per_day_30d" = [Some 1%Qc] /\
  metric_of (call [t] [t] false (Some "30d")) (household_key t, None)
    "days_to_days_in_set_30d" = [Some (Q2Qc (1 # 30))].
Proof.
  split.
  { eexists. split.
    { apply (call_supported_frame [t] [t] false "30d" (day t) eq_refl eq_refl). }
    cbn [rows]. rewrite map_map. cbn [fst]. rewrite map_id. reflexivity. }
  split.
  { apply (metric_of_sum_single t "amount_list" amount_list).
    unfold summary_aggs. cbn [In]. do 4 right. left. reflexivity. }
  split.
  { apply (metric_of_sum_single t "instore_discount" instore_discount).
    unfold summary_aggs. cbn [In]. do 5 right. left. reflexivity. }
  split.
  { apply (metric_of_sum_single t "campaign_coupon_discount" campaign_coupon_discount).
    unfold summary_aggs. cbn [In]. do 6 right. left. reflexivity. }
  split.
  { apply (metric_of_sum_single t "manuf_coupon_discount" manuf_coupon_discount).
    unfold summary_aggs. cbn [In]. do 7 right. left. reflexivity. }
  assert (Hrow : forall name,
            metric_of (call [t] [t] false (Some "30d")) (household_key t, None) name
            = [cell (summary_names false "30d" ++ dayssince_names false "30d")
                 (summary_cells "_30d" 30 [t]
                  ++ joined_part dayssince_columns
                       (dayssince_cells (window_first "30d" (day t))
                          (window_last "30d" (day t)))
                       (up_to [t] false (window_last "30d" (day t))
                          (household_key t, None)))
                 name]).
  { intros name.
    rewrite (metric_of_call [t] [t] false "30d" (day t) (household_key t, None)
               name eq_refl eq_refl (or_introl eq_refl)).
    unfold joined_cells. rewrite in_window_single. reflexivity. }
  rewrite !Hrow.
  destruct (per_day_ratio_cells_30d [t]
              (joined_part dayssince_columns
                 (dayssince_cells (window_first "30d" (day t))
                    (window_last "30d" (day t)))
                 (up_to [t] false (window_last "30d" (day t))
                    (household_key t, None)))) as [-> ->].
  change (f.countDistinct (col basket_id) [t]) with (Some (Z2Qc 1)).
  change (f.countDistinct (col day) [t]) with (Some (Z2Qc 1)).
  rewrite !sql_div_nonzero by (apply Z2Qc_nonzero; discriminate).
  split; do 2 f_equal; apply Qc_is_canon; reflexivity.
Qed.

(** ** The names of the columns *)

Lemma suffix_counts (ic : bool) (w : string) :
  supported w = true ->
  forallb (suffix_count_ok ic ("_" ++ w)%string) (metric_columns ("_" ++ w)%string)
  = true.
Proof.
  intros Hw.
  destruct ic; destruct (supported_cases w Hw) as [ -> | [ -> | [ -> | -> ] ] ];
    vm_compute; reflexivity.
Qed.

Lemma products_per_day_created (w : string) :
  supported w = true ->
  In (products_per_day ("_" ++ w)%string) (metric_columns ("_" ++ w)%string).
Proof.
  intros Hw.
  apply (proj1 (existsb_eqb_In (products_per_day ("_" ++ w)%string)
                  (metric_columns ("_" ++ w)%string))).
  destruct (supported_cases w Hw) as [ -> | [ -> | [ -> | -> ] ] ];
    vm_compute; reflexivity.
Qed.

(** C9. In the returned frame every metric column is named by its name
    before the renaming loop followed by the grouping suffix and the
    window suffix.  The per-day products ratio is created as
    products_per_day followed by the window suffix, so that its final name
    has the window suffix twice; the name of every other metric column
    has it once, at its end, and none in its base name; with
    include_commodity the grouping suffix occurs once in every name. *)
Theorem window_suffix_twice (transactions df : DataFrame) (ic : bool)
    (w : string) (mx : Z) :
  supported w = true ->
  f.max (col day) df = Some mx ->
  exists fr,
    call transactions df ic (Some w) = ([Collect_min_max_day], inr fr) /\
    key_columns fr = grouping_fields_of ic /\
    columns fr = map (new_name (grouping_suffix_of ic) ("_" ++ w)%string)
                     (metric_columns ("_" ++ w)%string) /\
    In (new_name (grouping_suffix_of ic) ("_" ++ w)%string
          (String.append "products_per_day" ("_" ++ w)%string))
       (columns fr) /\
    occurrences ("_" ++ w)%string
      (new_name (grouping_suffix_of ic) ("_" ++ w)%string
         (String.append "products_per_day" ("_" ++ w)%string)) = 2%nat /\
    (forall base,
       In base (metric_columns ("_" ++ w)%string) ->
       base <> String.append "products_per_day" ("_" ++ w)%string ->
       occurrences ("_" ++ w)%string
         (new_name (grouping_suffix_of ic) ("_" ++ w)%string base) = 1%nat /\
       occurrences ("_" ++ w)%string base = 0%nat) /\
    (ic = true ->
     forall base,
       In base (metric_columns ("_" ++ w)%string) ->
       occurrences "_cmd"
         (new_name (grouping_suffix_of ic) ("_" ++ w)%string base) = 1%nat).
Proof.
  intros Hw Hmx.
  pose proof (suffix_counts ic w Hw) as Hc. rewrite forallb_forall in Hc.
  pose proof (products_per_day_created w Hw) as Hp.
  eexists. split.
  { apply (call_supported_frame transactions df ic w mx Hw Hmx). }
  cbn [key_columns columns].
  split; [reflexivity|].
  split.
  { unfold summary_names, dayssince_names, metric_columns.
    rewrite map_app. reflexivity. }
  split.
  { unfold summary_names, dayssince_names. rewrite <- map_app.
    apply in_map. exact Hp. }
  split.
  { specialize (Hc _ Hp). unfold suffix_count_ok in Hc.
    rewrite String.eqb_refl in Hc. apply andb_true_iff in Hc.
    destruct Hc as [Hc _]. apply Nat.eqb_eq in Hc. exact Hc. }
  split.
  { intros base Hb Hne. specialize (Hc _ Hb). unfold suffix_count_ok in Hc.
    apply String.eqb_neq in Hne. unfold products_per_day in Hc.
    rewrite Hne in Hc. apply andb_true_iff in Hc. destruct Hc as [Hc _].
    apply andb_true_iff in Hc. destruct Hc as [H1 H0].
    apply Nat.eqb_eq in H1. apply Nat.eqb_eq in H0. split; assumption. }
  intros -> base Hb. specialize (Hc _ Hb). unfold suffix_count_ok in Hc.
  apply andb_true_iff in Hc. destruct Hc as [_ Hc].
  apply Nat.eqb_eq in Hc. exact Hc.
Qed.

Lemma window_suffix_twice_witness :
  exists fr,
    call [line_a] [line_a] false (Some "30d") = ([Collect_min_max_day], inr fr) /\
    key_columns fr = ["household_key"] /\
    columns fr = map (new_name "" "_30d") (metric_columns "_30d") /\
    In "products_per_day_30d_30d" (columns fr) /\
    occurrences "_30d" "products_per_day_30d_30d" = 2%nat /\
    (forall base,
       In base (metric_columns "_30d") ->
       base <> "products_per_day_30d" ->
       occurrences "_30d" (new_name "" "_30d" base) = 1%nat /\
       occurrences "_30d" base = 0%nat) /\
    (false = true ->
     forall base,
       In base (metric_columns "_30d") ->
       occurrences "_cmd" (new_name "" "_30d" base) = 1%nat).
Proof.
  apply (window_suffix_twice [line_a] [line_a] false "30d" 700); reflexivity.
Defined.

(** ** Category rows add up to the household row *)

Lemma sum_col (c : transaction -> Qc) (g : list transaction) :
  f.sum (col c) g = match g with [] => None | _ :: _ => Some (total c g) end.
Proof.
  unfold f.sum, total. rewrite non_null_col. destruct g; reflexivity.
Qed.

Lemma fold_plus_app (a b : list Qc) :
  fold_right Qcplus 0%Qc (a ++ b)
  = (fold_right Qcplus 0%Qc a + fold_right Qcplus 0%Qc b)%Qc.
Proof.
  induction a as [|x a IH]; cbn [app fold_right].
  - ring.
  - rewrite IH. ring.
Qed.

Lemma total_cons (c : transaction -> Qc) (t : transaction)
    (g : list transaction) :
  total c (t :: g) = (c t + total c g)%Qc.
Proof. reflexivity. Qed.

Lemma group_cons (ic : bool) (t : transaction) (df : DataFrame) (k : key) :
  group ic (t :: df) k
  = if key_eqb (select_key ic t) k then t :: group ic df k else group ic df k.
Proof. reflexivity. Qed.

(** The share of the keys of household [h] in the total of a column. *)
Lemma household_share_one (h : Z) (v : Qc) (k0 : key) (ks : list key) :
  NoDup ks -> In k0 ks ->
  fold_right Qcplus 0%Qc
    (map (fun k : key => if Z.eqb (fst k) h
                   then (if key_eqb k0 k then v else 0%Qc) else 0%Qc) ks)
  = if Z.eqb (fst k0) h then v else 0%Qc.
Proof.
  induction 1 as [|k ks Hk Hnd IH]; intros Hin; [destruct Hin|].
  cbn [map fold_right]. destruct Hin as [->|Hin].
  - rewrite key_eqb_refl.
    assert (Hz : fold_right Qcplus 0%Qc
                   (map (fun k : key => if Z.eqb (fst k) h
                                  then (if key_eqb k0 k then v else 0%Qc)
                                  else 0%Qc) ks) = 0%Qc).
    { clear IH Hnd. induction ks as [|k ks IHks]; [reflexivity|].
      cbn [map fold_right]. rewrite IHks.
      - destruct (key_eqb k0 k) eqn:E.
        + apply key_eqb_eq in E. subst k. exfalso. apply Hk. left. reflexivity.
        + destruct (Z.eqb (fst k) h); ring.
      - intros H. apply Hk. right. exact H. }
    rewrite Hz. destruct (Z.eqb (fst k0) h); ring.
  - rewrite (IH Hin). destruct (key_eqb k0 k) eqn:E.
    + apply key_eqb_eq in E. subst k. contradiction.
    + destruct (Z.eqb (fst k) h); ring.
Qed.

Lemma fold_plus_pointwise (u v : key -> Qc) (ks : list key) :
  fold_right Qcplus 0%Qc (map (fun k : key => (u k + v k)%Qc) ks)
  = (fold_right Qcplus 0%Qc (map u ks) + fold_right Qcplus 0%Qc (map v ks))%Qc.
Proof.
  induction ks as [|k ks IH]; cbn [map fold_right]; [ring|].
  rewrite IH. ring.
Qed.

Lemma fold_plus_zeros (h : Z) (ks : list key) :
  fold_right Qcplus 0%Qc
    (map (fun k : key => if Z.eqb (fst k) h then 0%Qc else 0%Qc) ks) = 0%Qc.
Proof.
  induction ks as [|k ks IH]; cbn [map fold_right]; [reflexivity|].
  rewrite IH. destruct (Z.eqb (fst k) h); ring.
Qed.

Lemma key_eqb_household (x h : Z) :
  key_eqb (x, None) (h, None) = Z.eqb x h.
Proof.
  destruct (Z.eqb x h) eqn:E.
  - apply Z.eqb_eq in E. subst x. apply key_eqb_refl.
  - destruct (key_eqb (x, None) (h, None)) eqn:E'; [|reflexivity].
    apply key_eqb_eq in E'. injection E' as ->.
    rewrite Z.eqb_refl in E. discriminate.
Qed.

(** The totals of the groups by household and commodity of a household
    add up to the total of the group of the household. *)
Lemma household_partition (c : transaction -> Qc) (h : Z) (ks : list key) :
  NoDup ks ->
  forall W : DataFrame,
    (forall t, In t W -> In (select_key true t) ks) ->
    fold_right Qcplus 0%Qc
      (map (fun k : key => if Z.eqb (fst k) h then total c (group true W k) else 0%Qc) ks)
    = total c (group false W (h, None)).
Proof.
  intros Hnd. induction W as [|t W IH]; intros Hin.
  - cbn [group filter]. apply fold_plus_zeros.
  - rewrite (map_ext _
               (fun k : key => ((if Z.eqb (fst k) h
                           then (if key_eqb (select_key true t) k then c t else 0%Qc)
                           else 0%Qc)
                          + (if Z.eqb (fst k) h
                             then total c (group true W k) else 0%Qc))%Qc)).
    + rewrite fold_plus_pointwise.
      rewrite (household_share_one h (c t) (select_key true t) ks Hnd
                 (Hin t (or_introl eq_refl))).
      rewrite IH by (intros t' Ht'; apply Hin; right; exact Ht').
      rewrite group_cons. unfold select_key at 2. rewrite key_eqb_household.
      cbn [select_key fst].
      destruct (Z.eqb (household_key t) h); [rewrite total_cons|]; ring.
    + intros k. rewrite group_cons.
      destruct (Z.eqb (fst k) h); [|ring].
      destruct (key_eqb (select_key true t) k); [rewrite total_cons|]; ring.
Qed.

Lemma flat_map_of_map {A B C : Type} (g : A -> B) (u : B -> list C)
    (l : list A) :
  flat_map u (map g l) = flat_map (fun x => u (g x)) l.
Proof.
  induction l as [|x l IH]; [reflexivity|].
  cbn [map]. change (flat_map u (g x :: map g l)) with (u (g x) ++ flat_map u (map g l)).
  rewrite IH. reflexivity.
Qed.

Lemma category_cells_sum (c : transaction -> Qc) (h : Z) (W : DataFrame)
    (ks : list key) :
  fold_right Qcplus 0%Qc
    (flat_map (fun k : key => if Z.eqb (fst k) h
                        then match f.sum (col c) (group true W k) with
                             | Some v => [v]
                             | None => []
                             end
                        else []) ks)
  = fold_right Qcplus 0%Qc
      (map (fun k : key => if Z.eqb (fst k) h then total c (group true W k) else 0%Qc) ks).
Proof.
  induction ks as [|k ks IH]; [reflexivity|].
  cbn [map fold_right].
  change (flat_map ?u (k :: ks)) with (u k ++ flat_map u ks).
  rewrite fold_plus_app, IH. f_equal.
  destruct (Z.eqb (fst k) h); [|reflexivity].
  rewrite sum_col. destruct (group true W k) as [|t g]; [reflexivity|].
  cbn [fold_right]. ring.
Qed.

Lemma monetary_sum_in_aggs (name : string) (c : transaction -> Qc) :
  In (name, c) monetary_sums -> In (name, f.sum (col c)) summary_aggs.
Proof.
  unfold monetary_sums. cbn [In].
  intros [E|[E|[E|[E|[E|[E|[]]]]]]]; injection E as <- <-;
    unfold summary_aggs; cbn [In];
    repeat (first [left; reflexivity | right]).
Qed.









(** A household with two categories: one row with 8 at the household
    level, two rows with 5 and 3 at the category level. *)
Example two_categories_split :
  metric_of (call [line_a; line_b] [line_a; line_b] false (Some "30d"))
    (1, None) "amount_list_30d" = [Some (q 8 1)] /\
  metric_of (call [line_a; line_b] [line_a; line_b] true (Some "30d"))
    (1, Some "MILK") "amount_list_cmd_30d" = [Some (q 5 1)] /\
  metric_of (call [line_a; line_b] [line_a; line_b] true (Some "30d"))
    (1, Some "BREAD") "amount_list_cmd_30d" = [Some (q 3 1)] /\
  List.length
    (household_rows (call [line_a; line_b] [line_a; line_b] true (Some "30d")) 1)
  = 2%nat /\
  sum_over_household (call [line_a; line_b] [line_a; line_b] true (Some "30d"))
    1 "amount_list_cmd_30d" = Some (q 8 1).
Proof. repeat split; vm_compute; reflexivity. Qed.

(** * Further properties of [get_features] *)

(** ** The chain of ratio columns *)

Lemma is_name_In (l : list string) (n : string) :
  is_name l n = true <-> In n l.
Proof. unfold is_name. apply existsb_eqb_In. Qed.

Ltac ratio_entry :=
  cbn [fst snd];
  lazymatch goal with
  | |- exists a den, div ?x ?y = _ /\ _ =>
      exists x, (Column y); split; [reflexivity|vm_compute; reflexivity]
  | |- exists a den, div_by ?x _ = _ /\ _ =>
      exists x, DaysInWindow; split; [reflexivity|vm_compute; reflexivity]
  end.

(** Every ratio column divides a never-NULL aggregate by a count, by the
    number of days of the window, or by the sum of [amount_list]. *)
Lemma ratio_shape (ws : string) (d : Z) :
  Forall (fun s => exists a den,
            snd s = ratio_expr d a den /\
            well_formed_ratio (fst s) a den = true)
         (ratio_columns ws d).
Proof.
  unfold ratio_columns.
  repeat (apply Forall_cons; [ratio_entry|]). apply Forall_nil.
Qed.

Lemma well_formed_sources (name a : string) (den : denominator) :
  well_formed_ratio name a den = true ->
  In a (map fst summary_aggs) /\
  forall c, den = Column c -> In c (map fst summary_aggs).
Proof.
  unfold well_formed_ratio. intros H.
  apply andb_true_iff in H. destruct H as [H Hden].
  apply andb_true_iff in H. destruct H as [Ha _].
  split; [apply (proj1 (is_name_In _ a)); exact Ha|].
  intros c ->. apply orb_true_iff in Hden. destruct Hden as [Hc|Hc].
  - apply (proj1 (is_name_In count_columns c)) in Hc.
    apply (proj1 (is_name_In (map fst summary_aggs) c)).
    destruct Hc as [<-|[<-|[<-|[<-|[]]]]]; vm_compute; reflexivity.
  - apply andb_true_iff in Hc. destruct Hc as [Hc _].
    apply String.eqb_eq in Hc. subst c.
    apply (proj1 (is_name_In (map fst summary_aggs) "amount_list")).
    vm_compute. reflexivity.
Qed.

(** A ratio expression reads the row at its two sources only. *)
Lemma ratio_expr_reads (d : Z) (name a : string) (den : denominator)
    (row row' : string -> value) :
  well_formed_ratio name a den = true ->
  (forall n, In n (map fst summary_aggs) -> row n = row' n) ->
  ratio_expr d a den row = ratio_expr d a den row'.
Proof.
  intros Hwf Hrow. destruct (well_formed_sources name a den Hwf) as [Ha Hc].
  destruct den as [c|]; unfold ratio_expr, div, div_by.
  - rewrite (Hrow a Ha), (Hrow c (Hc c eq_refl)). reflexivity.
  - rewrite (Hrow a Ha). reflexivity.
Qed.

(** A chain of [withColumn] with new names, whose expressions read the
    columns of [cols0] only, appends one cell per column, computed from
    the cells of [cols0]. *)
Lemma chain_append (cols0 : list string) (cells0 : list value)
    (specs : list (string * ((string -> value) -> value))) :
  List.length cells0 = List.length cols0 ->
  (forall s, In s specs ->
     forall row row', (forall n, In n cols0 -> row n = row' n) ->
                      snd s row = snd s row') ->
  forall pn pc,
    List.length pc = List.length pn ->
    fresh_chain specs (cols0 ++ pn) = true ->
    chain_cols specs (cols0 ++ pn) = cols0 ++ pn ++ map fst specs /\
    chain_cells specs (cols0 ++ pn) (cells0 ++ pc)
    = cells0 ++ pc ++ map (fun s => snd s (cell cols0 cells0)) specs.
Proof.
  intros Hlen0. induction specs as [|s specs IH]; intros Hreads pn pc Hlen Hfresh.
  - cbn [chain_cols chain_cells map]. rewrite !app_nil_r. split; reflexivity.
  - cbn [fresh_chain] in Hfresh. apply andb_true_iff in Hfresh.
    destruct Hfresh as [Hnew Hfresh]. apply negb_true_iff in Hnew.
    cbn [chain_cols chain_cells map].
    unfold cols_withColumn, row_withColumn. rewrite Hnew.
    rewrite <- (app_assoc cols0 pn [fst s]) in *.
    rewrite <- (app_assoc cells0 pc).
    assert (Hv : snd s (cell (cols0 ++ pn) (cells0 ++ pc)) = snd s (cell cols0 cells0)).
    { apply (Hreads s (or_introl eq_refl)). intros n Hn.
      apply cell_app_left; assumption. }
    rewrite Hv.
    destruct (IH (fun s' Hs' => Hreads s' (or_intror Hs'))
                (pn ++ [fst s]) (pc ++ [snd s (cell cols0 cells0)])) as [Hc Hr].
    + rewrite !length_app. cbn [List.length]. lia.
    + exact Hfresh.
    + rewrite Hc, Hr. rewrite <- !app_assoc. split; reflexivity.
Qed.

Lemma ratio_chain_fresh (w : string) (d : Z) :
  supported w = true ->
  fresh_chain (ratio_columns ("_" ++ w)%string d) (map fst summary_aggs ++ []) = true.
Proof.
  intros Hw.
  destruct (supported_cases w Hw) as [ -> | [ -> | [ -> | -> ] ] ];
    vm_compute; reflexivity.
Qed.

Lemma ratio_reads_aggregates (ws : string) (d : Z)
    (s : string * ((string -> value) -> value)) :
  In s (ratio_columns ws d) ->
  forall row row', (forall n, In n (map fst summary_aggs) -> row n = row' n) ->
                   snd s row = snd s row'.
Proof.
  intros Hs row row' Hrow.
  pose proof (ratio_shape ws d) as Hshape.
  rewrite Forall_forall in Hshape.
  destruct (Hshape s Hs) as [a [den [-> Hwf]]].
  exact (ratio_expr_reads d (fst s) a den row row' Hwf Hrow).
Qed.

(** The summary of a group: its aggregates, then one ratio per column of
    the chain, each computed from the aggregates. *)
Lemma summary_normal_form (w : string) (d : Z) (g : list transaction) :
  supported w = true ->
  summary_columns ("_" ++ w)%string d
  = map fst summary_aggs ++ map fst (ratio_columns ("_" ++ w)%string d) /\
  summary_cells ("_" ++ w)%string d g
  = map (fun a => snd a g) summary_aggs
    ++ map (fun s => snd s (aggregate g)) (ratio_columns ("_" ++ w)%string d).
Proof.
  intros Hw. unfold summary_columns, summary_cells, aggregate.
  destruct (chain_append (map fst summary_aggs)
              (map (fun a => snd a g) summary_aggs)
              (ratio_columns ("_" ++ w)%string d)
              ltac:(rewrite !length_map; reflexivity)
              (ratio_reads_aggregates ("_" ++ w)%string d)
              [] [] eq_refl (ratio_chain_fresh w d Hw)) as [Hc Hr].
  rewrite !app_nil_r in Hc, Hr. cbn [app] in Hc, Hr.
  split; assumption.
Qed.

Lemma cell_of_chain (row : string -> value)
    (specs : list (string * ((string -> value) -> value)))
    (name : string) (e : (string -> value) -> value) :
  NoDup (map fst specs) ->
  In (name, e) specs ->
  cell (map fst specs) (map (fun s => snd s row) specs) name = e row.
Proof.
  induction specs as [|[n b] specs IH]; intros Hnd Hin; [destruct Hin|].
  cbn [map fst snd cell]. cbn [map fst] in Hnd.
  apply NoDup_cons_iff in Hnd. destruct Hnd as [Hn Hnd].
  destruct Hin as [E|Hin].
  - injection E as -> ->. rewrite String.eqb_refl. reflexivity.
  - destruct (String.eqb n name) eqn:E.
    + apply String.eqb_eq in E. subst n. exfalso. apply Hn.
      change name with (fst (name, e)). apply (in_map fst). exact Hin.
    + apply IH; assumption.
Qed.

Lemma ratio_names_NoDup (w : string) (d : Z) :
  supported w = true ->
  NoDup (map fst (ratio_columns ("_" ++ w)%string d)).
Proof.
  intros Hw. apply distinct_names_NoDup.
  destruct (supported_cases w Hw) as [ -> | [ -> | [ -> | -> ] ] ];
    vm_compute; reflexivity.
Qed.

(** The cell of a ratio column, in a row whose summary part comes from
    the group [g]. *)
Lemma ratio_cell (ic : bool) (w : string) (d : Z) (g : list transaction)
    (rest : list value) (name : string) (e : (string -> value) -> value) :
  supported w = true ->
  In (name, e) (ratio_columns ("_" ++ w)%string d) ->
  cell (summary_names ic w ++ dayssince_names ic w)
       (summary_cells ("_" ++ w)%string d g ++ rest)
       (new_name (grouping_suffix_of ic) ("_" ++ w)%string name)
  = e (aggregate g).
Proof.
  intros Hw Hin.
  destruct (summary_normal_form w d g Hw) as [Hcols Hcells].
  assert (Hname : In name (map fst (ratio_columns ("_" ++ w)%string d))).
  { change name with (fst (name, e)). apply (in_map fst). exact Hin. }
  rewrite cell_app_left.
  - unfold summary_names. rewrite cell_map_inj by apply new_name_inj.
    rewrite <- (summary_columns_days _ d). rewrite Hcols, Hcells.
    rewrite cell_app_right.
    + apply cell_of_chain; [apply ratio_names_NoDup; exact Hw|exact Hin].
    + rewrite !length_map. reflexivity.
    + intros Hbase.
      exact (names_disjoint_spec _ _ name (ratio_names_fresh w d Hw) Hbase Hname).
  - unfold summary_names. rewrite length_map. apply summary_cells_length.
  - unfold summary_names.
    apply (in_map (new_name (grouping_suffix_of ic) ("_" ++ w)%string)).
    rewrite <- (summary_columns_days _ d). rewrite Hcols.
    apply in_or_app. right. exact Hname.
Qed.

Lemma aggregate_lookup (g : list transaction) (name : string)
    (a : list transaction -> value) :
  In (name, a) summary_aggs -> aggregate g name = a g.
Proof.
  intros Hin. unfold aggregate.
  apply cell_of_aggregate; [apply summary_aggs_NoDup|exact Hin].
Qed.

Lemma metric_of_ratio (transactions df : DataFrame) (ic : bool) (w : string)
    (mx : Z) (k : key) (name : string) (e : (string -> value) -> value) :
  supported w = true ->
  f.max (col day) df = Some mx ->
  In k (map (select_key ic) transactions) ->
  In (name, e) (ratio_columns ("_" ++ w)%string (window_days w)) ->
  in_window df ic (window_last w mx) (window_first w mx) k <> [] ->
  metric_of (call transactions df ic (Some w)) k
    (new_name (grouping_suffix_of ic) ("_" ++ w)%string name)
  = [e (aggregate (in_window df ic (window_last w mx) (window_first w mx) k))].
Proof.
  intros Hw Hmx Hk Hin Hg.
  rewrite (metric_of_call transactions df ic w mx k _ Hw Hmx Hk).
  unfold joined_cells.
  destruct (in_window df ic (window_last w mx) (window_first w mx) k) as [|t g];
    [congruence|].
  cbn [joined_part].
  rewrite (ratio_cell ic w _ _ _ name e Hw Hin). reflexivity.
Qed.

(** X1. For a key with a transaction inside the window, every column of
    the chain of ratios holds its expression evaluated on the aggregates
    of the key inside the window: the SQL quotient of two aggregates, or
    of an aggregate and days_in_window. *)
Theorem ratio_metric (transactions df : DataFrame) (ic : bool) (w : string)
    (mx : Z) (k : key) (name : string) (e : (string -> value) -> value) :
  supported w = true ->
  f.max (col day) df = Some mx ->
  In k (map (select_key ic) transactions) ->
  In (name, e) (ratio_columns ("_" ++ w)%string (window_days w)) ->
  in_window df ic (window_last w mx) (window_first w mx) k <> [] ->
  metric_of (call transactions df ic (Some w)) k
    (new_name (grouping_suffix_of ic) ("_" ++ w)%string name)
  = [e (aggregate (in_window df ic (window_last w mx) (window_first w mx) k))].
Proof.
  intros Hw Hmx Hk Hin Hg.
  exact (metric_of_ratio transactions df ic w mx k name e Hw Hmx Hk Hin Hg).
Qed.

Lemma ratio_metric_witness :
  metric_of (call [line_a; line_b] [line_a; line_b] false (Some "60d")) (1, None)
    (new_name (grouping_suffix_of false) "_60d" "amount_paid_per_basket")
  = [div "amount_paid" "baskets"
       (aggregate (in_window [line_a; line_b] false (window_last "60d" 700)
                     (window_first "60d" 700) (1, None)))].
Proof.
  apply (ratio_metric [line_a; line_b] [line_a; line_b] false "60d" 700 (1, None)
           "amount_paid_per_basket" (div "amount_paid" "baskets")).
  - reflexivity.
  - reflexivity.
  - left. reflexivity.
  - unfold ratio_columns. cbn [In]. do 34 right. left. reflexivity.
  - discriminate.
Defined.

(** ** Bounds on the counts *)

Lemma nodup_length_le (l : list Z) :
  (List.length (nodup Z.eq_dec l) <= List.length l)%nat.
Proof.
  apply NoDup_incl_length; [apply NoDup_nodup|].
  intros x Hx. exact (proj1 (nodup_In Z.eq_dec l x) Hx).
Qed.

Lemma nodup_length_pos (l : list Z) :
  l <> [] -> (1 <= List.length (nodup Z.eq_dec l))%nat.
Proof.
  destruct l as [|x l]; [congruence|]. intros _.
  assert (Hx : In x (nodup Z.eq_dec (x :: l)))
    by (apply (proj2 (nodup_In Z.eq_dec (x :: l) x)); left; reflexivity).
  destruct (nodup Z.eq_dec (x :: l)); [destruct Hx|].
  cbn [List.length]. lia.
Qed.

Lemma nodup_length_incl (l l' : list Z) :
  incl l l' ->
  (List.length (nodup Z.eq_dec l) <= List.length (nodup Z.eq_dec l'))%nat.
Proof.
  intros H. apply NoDup_incl_length; [apply NoDup_nodup|].
  intros x Hx. apply (proj2 (nodup_In Z.eq_dec l' x)). apply H.
  exact (proj1 (nodup_In Z.eq_dec l x) Hx).
Qed.

(** Distinct integers of an interval are at most as many as the interval
    has. *)
Lemma distinct_in_range (lo hi : Z) (l : list Z) :
  NoDup l ->
  (forall x, In x l -> lo <= x <= hi) ->
  Z.of_nat (List.length l) <= Z.max 0 (hi - lo + 1).
Proof.
  intros Hnd Hrange.
  assert (Hincl : incl l (map (fun i => lo + Z.of_nat i)
                            (seq 0 (Z.to_nat (hi - lo + 1))))).
  { intros x Hx. specialize (Hrange x Hx). apply in_map_iff.
    exists (Z.to_nat (x - lo)). split; [lia|].
    apply in_seq. lia. }
  pose proof (NoDup_incl_length Hnd Hincl) as Hlen.
  rewrite length_map, length_seq in Hlen. lia.
Qed.

Lemma non_null_case_incl {A : Type} (X : transaction -> Qc)
    (e : transaction -> A) (g : list transaction) :
  incl (non_null (case_when_gt0 X e) g) (map e g).
Proof.
  unfold non_null, case_when_gt0. induction g as [|t g IH]; [intros x []|].
  cbn [flat_map map]. destruct (gt_zero (X t)); cbn [app].
  - intros x [<-|Hx]; [left; reflexivity|right; apply IH; exact Hx].
  - intros x Hx. right. apply IH. exact Hx.
Qed.

Lemma in_summary_aggs_counts :
  In ("days", f.countDistinct (col day)) summary_aggs /\
  In ("baskets", f.countDistinct (col basket_id)) summary_aggs /\
  In ("products", f.count (col product_id)) summary_aggs /\
  In ("line_items", f.count_star) summary_aggs.
Proof.
  unfold summary_aggs. cbn [In].
  repeat split; repeat (first [left; reflexivity | right]).
Qed.

(** X2. For a key with a transaction inside the window the four counts
    are numbers, never NULL: the distinct days are at least 1 and at most
    days_in_window, the distinct baskets are at least 1, neither exceeds
    the line items, and the products (a count, not a distinct count) equal
    the line items. *)
Theorem activity_counts (transactions df : DataFrame) (ic : bool) (w : string)
    (mx : Z) (k : key) :
  supported w = true ->
  f.max (col day) df = Some mx ->
  In k (map (select_key ic) transactions) ->
  in_window df ic (window_last w mx) (window_first w mx) k <> [] ->
  exists days baskets line_items : Z,
    metric_of (call transactions df ic (Some w)) k
      (new_name (grouping_suffix_of ic) ("_" ++ w)%string "days")
      = [Some (Z2Qc days)] /\
    metric_of (call transactions df ic (Some w)) k
      (new_name (grouping_suffix_of ic) ("_" ++ w)%string "baskets")
      = [Some (Z2Qc baskets)] /\
    metric_of (call transactions df ic (Some w)) k
      (new_name (grouping_suffix_of ic) ("_" ++ w)%string "products")
      = [Some (Z2Qc line_items)] /\
    metric_of (call transactions df ic (Some w)) k
      (new_name (grouping_suffix_of ic) ("_" ++ w)%string "line_items")
      = [Some (Z2Qc line_items)] /\
    1 <= days <= window_days w /\ days <= line_items /\
    1 <= baskets <= line_items.
Proof.
  intros Hw Hmx Hk Hg.
  destruct in_summary_aggs_counts as [Hd [Hb [Hp Hl]]].
  rewrite (metric_of_summary transactions df ic w mx k _ _ Hw Hmx Hk Hd Hg).
  rewrite (metric_of_summary transactions df ic w mx k _ _ Hw Hmx Hk Hb Hg).
  rewrite (metric_of_summary transactions df ic w mx k _ _ Hw Hmx Hk Hp Hg).
  rewrite (metric_of_summary transactions df ic w mx k _ _ Hw Hmx Hk Hl Hg).
  set (g := in_window df ic (window_last w mx) (window_first w mx) k) in *.
  unfold f.countDistinct, f.count, f.count_star. rewrite !non_null_col.
  rewrite (length_map product_id).
  do 3 eexists. do 4 (split; [reflexivity|]).
  assert (Hne : forall c : transaction -> Z, map c g <> []).
  { intros c E. apply map_eq_nil in E. contradiction. }
  pose proof (nodup_length_pos (map day g) (Hne day)) as Hd1.
  pose proof (nodup_length_pos (map basket_id g) (Hne basket_id)) as Hb1.
  pose proof (nodup_length_le (map day g)) as Hd2.
  pose proof (nodup_length_le (map basket_id g)) as Hb2.
  rewrite length_map in Hd2, Hb2.
  assert (Hrange : Z.of_nat (List.length (nodup Z.eq_dec (map day g)))
                   <= Z.max 0 (window_last w mx - window_first w mx + 1)).
  { apply distinct_in_range; [apply NoDup_nodup|].
    intros x Hx. apply (proj1 (nodup_In Z.eq_dec (map day g) x)) in Hx.
    apply (proj1 (in_map_iff day g x)) in Hx.
    destruct Hx as [t [<- Ht]].
    apply (proj1 (in_window_spec df ic _ _ k t)) in Ht. apply Ht. }
  rewrite (window_span w mx Hw) in Hrange.
  repeat split; lia.
Qed.

Lemma activity_counts_witness :
  exists days baskets line_items : Z,
    metric_of (call [line_a; line_b] [line_a; line_b] false (Some "30d")) (1, None)
      (new_name (grouping_suffix_of false) "_30d" "days") = [Some (Z2Qc days)] /\
    metric_of (call [line_a; line_b] [line_a; line_b] false (Some "30d")) (1, None)
      (new_name (grouping_suffix_of false) "_30d" "baskets")
      = [Some (Z2Qc baskets)] /\
    metric_of (call [line_a; line_b] [line_a; line_b] false (Some "30d")) (1, None)
      (new_name (grouping_suffix_of false) "_30d" "products")
      = [Some (Z2Qc line_items)] /\
    metric_of (call [line_a; line_b] [line_a; line_b] false (Some "30d")) (1, None)
      (new_name (grouping_suffix_of false) "_30d" "line_items")
      = [Some (Z2Qc line_items)] /\
    1 <= days <= window_days "30d" /\ days <= line_items /\
    1 <= baskets <= line_items.
Proof.
  apply (activity_counts [line_a; line_b] [line_a; line_b] false "30d" 700 (1, None)).
  - reflexivity.
  - reflexivity.
  - left. reflexivity.
  - discriminate.
Defined.

(** X3. The three counts of days, baskets and products with a discount
    are numbers that never exceed the count of all days, baskets and
    products of the key inside the window. *)
Theorem adoption_counts_bounded (transactions df : DataFrame) (ic : bool)
    (w : string) (mx : Z) (k : key) (name : string) (X : transaction -> Qc) :
  supported w = true ->
  f.max (col day) df = Some mx ->
  In k (map (select_key ic) transactions) ->
  In (name, X) discount_types ->
  in_window df ic (window_last w mx) (window_first w mx) k <> [] ->
  exists days_with days baskets_with baskets products_with products : Z,
    metric_of (call transactions df ic (Some w)) k
      (new_name (grouping_suffix_of ic) ("_" ++ w)%string
         (String.append "days_with_" name)) = [Some (Z2Qc days_with)] /\
    metric_of (call transactions df ic (Some w)) k
      (new_name (grouping_suffix_of ic) ("_" ++ w)%string "days")
      = [Some (Z2Qc days)] /\
    metric_of (call transactions df ic (Some w)) k
      (new_name (grouping_suffix_of ic) ("_" ++ w)%string
         (String.append "baskets_with_" name)) = [Some (Z2Qc baskets_with)] /\
    metric_of (call transactions df ic (Some w)) k
      (new_name (grouping_suffix_of ic) ("_" ++ w)%string "baskets")
      = [Some (Z2Qc baskets)] /\
    metric_of (call transactions df ic (Some w)) k
      (new_name (grouping_suffix_of ic) ("_" ++ w)%string
         (String.append "products_with_" name)) = [Some (Z2Qc products_with)] /\
    metric_of (call transactions df ic (Some w)) k
      (new_name (grouping_suffix_of ic) ("_" ++ w)%string "products")
      = [Some (Z2Qc products)] /\
    0 <= days_with <= days /\
    0 <= baskets_with <= baskets /\
    0 <= products_with <= products.
Proof.
  intros Hw Hmx Hk Hname Hg.
  destruct in_summary_aggs_counts as [Hd [Hb [Hp _]]].
  destruct (adoption_aggs_in name X Hname) as [Hdw [Hbw [Hpw _]]].
  rewrite (metric_of_summary transactions df ic w mx k _ _ Hw Hmx Hk Hd Hg).
  rewrite (metric_of_summary transactions df ic w mx k _ _ Hw Hmx Hk Hb Hg).
  rewrite (metric_of_summary transactions df ic w mx k _ _ Hw Hmx Hk Hp Hg).
  rewrite (metric_of_summary transactions df ic w mx k _ _ Hw Hmx Hk Hdw Hg).
  rewrite (metric_of_summary transactions df ic w mx k _ _ Hw Hmx Hk Hbw Hg).
  rewrite (metric_of_summary transactions df ic w mx k _ _ Hw Hmx Hk Hpw Hg).
  set (g := in_window df ic (window_last w mx) (window_first w mx) k) in *.
  unfold f.countDistinct, f.count. rewrite !non_null_col.
  do 6 eexists. do 6 (split; [reflexivity|]).
  pose proof (nodup_length_incl _ _ (non_null_case_incl X day g)) as H1.
  pose proof (nodup_length_incl _ _ (non_null_case_incl X basket_id g)) as H2.
  pose proof (nodup_length_incl _ _ (non_null_case_incl X product_id g)) as H3.
  pose proof (nodup_length_le (map product_id g)) as H4.
  repeat split; lia.
Qed.

Lemma adoption_counts_bounded_witness :
  exists days_with days baskets_with baskets products_with products : Z,
    metric_of (call [line_a; line_b] [line_a; line_b] true (Some "90d"))
      (1, Some "MILK")
      (new_name (grouping_suffix_of true) "_90d"
         (String.append "days_with_" "instore_discount"))
      = [Some (Z2Qc days_with)] /\
    metric_of (call [line_a; line_b] [line_a; line_b] true (Some "90d"))
      (1, Some "MILK")
      (new_name (grouping_suffix_of true) "_90d" "days") = [Some (Z2Qc days)] /\
    metric_of (call [line_a; line_b] [line_a; line_b] true (Some "90d"))
      (1, Some "MILK")
      (new_name (grouping_suffix_of true) "_90d"
         (String.append "baskets_with_" "instore_discount"))
      = [Some (Z2Qc baskets_with)] /\
    metric_of (call [line_a; line_b] [line_a; line_b] true (Some "90d"))
      (1, Some "MILK")
      (new_name (grouping_suffix_of true) "_90d" "baskets")
      = [Some (Z2Qc baskets)] /\
    metric_of (call [line_a; line_b] [line_a; line_b] true (Some "90d"))
      (1, Some "MILK")
      (new_name (grouping_suffix_of true) "_90d"
         (String.append "products_with_" "instore_discount"))
      = [Some (Z2Qc products_with)] /\
    metric_of (call [line_a; line_b] [line_a; line_b] true (Some "90d"))
      (1, Some "MILK")
      (new_name (grouping_suffix_of true) "_90d" "products")
      = [Some (Z2Qc products)] /\
    0 <= days_with <= days /\
    0 <= baskets_with <= baskets /\
    0 <= products_with <= products.
Proof.
  apply (adoption_counts_bounded [line_a; line_b] [line_a; line_b] true "90d" 700
           (1, Some "MILK") "instore_discount" instore_discount).
  - reflexivity.
  - reflexivity.
  - left. reflexivity.
  - left. reflexivity.
  - discriminate.
Defined.

(** ** Which ratios can be NULL *)

Ltac aggregate_entry :=
  cbn [fst snd];
  first
    [ right; intros g Hg; eexists; reflexivity
    | right; intros g Hg; rewrite sum_col;
      destruct g; [congruence|eexists; reflexivity]
    | left; vm_compute; reflexivity ].

Lemma aggregates_defined :
  Forall (fun p => is_name line_item_counts (fst p) = true \/
                   forall g, g <> [] -> exists v, snd p g = Some v)
         summary_aggs.
Proof.
  unfold summary_aggs.
  repeat (apply Forall_cons; [aggregate_entry|]). apply Forall_nil.
Qed.

Lemma numerator_defined (a : string) (g : list transaction) :
  In a (map fst summary_aggs) ->
  is_name line_item_counts a = false ->
  g <> [] ->
  exists v, aggregate g a = Some v.
Proof.
  intros Ha Hnot Hg.
  apply (proj1 (in_map_iff fst summary_aggs a)) in Ha.
  destruct Ha as [[n agg] [E Hin]]. cbn [fst] in E. subst n.
  rewrite (aggregate_lookup g a agg Hin).
  pose proof aggregates_defined as Hall. rewrite Forall_forall in Hall.
  destruct (Hall (a, agg) Hin) as [Hl|Hd].
  - cbn [fst] in Hl. rewrite Hl in Hnot. discriminate.
  - exact (Hd g Hg).
Qed.

Lemma count_defined (c : string) (g : list transaction) :
  In c count_columns -> g <> [] ->
  exists n, aggregate g c = Some (Z2Qc n) /\ 1 <= n.
Proof.
  intros Hc Hg.
  destruct in_summary_aggs_counts as [Hd [Hb [Hp Hl]]].
  assert (Hne : forall e : transaction -> Z, map e g <> []).
  { intros e E. apply map_eq_nil in E. contradiction. }
  assert (Hlen : (1 <= List.length g)%nat).
  { destruct g; [congruence|]. cbn [List.length]. lia. }
  destruct Hc as [<-|[<-|[<-|[<-|[]]]]].
  - rewrite (aggregate_lookup g _ _ Hd). unfold f.countDistinct.
    rewrite non_null_col. eexists. split; [reflexivity|].
    pose proof (nodup_length_pos _ (Hne day)). lia.
  - rewrite (aggregate_lookup g _ _ Hb). unfold f.countDistinct.
    rewrite non_null_col. eexists. split; [reflexivity|].
    pose proof (nodup_length_pos _ (Hne basket_id)). lia.
  - rewrite (aggregate_lookup g _ _ Hp). unfold f.count.
    rewrite non_null_col, length_map. eexists. split; [reflexivity|]. lia.
  - rewrite (aggregate_lookup g _ _ Hl). unfold f.count_star.
    eexists. split; [reflexivity|]. lia.
Qed.

Lemma window_days_pos (w : string) : 30 <= window_days w.
Proof.
  unfold window_days.
  destruct (String.eqb w "60d"); [lia|]. destruct (String.eqb w "90d"); lia.
Qed.

(** A ratio that does not divide by the sum of [amount_list] has a value
    over every group with rows. *)
Lemma ratio_value (ws : string) (d : Z) (name : string)
    (e : (string -> value) -> value) (g : list transaction) :
  1 <= d ->
  In (name, e) (ratio_columns ws d) ->
  ~ In name (map fst amount_list_ratios) ->
  g <> [] ->
  exists v, e (aggregate g) = Some v.
Proof.
  intros Hd Hin Hname Hg.
  pose proof (ratio_shape ws d) as Hshape. rewrite Forall_forall in Hshape.
  destruct (Hshape (name, e) Hin) as [a [den [He Hwf]]].
  cbn [fst snd] in He, Hwf. subst e.
  unfold well_formed_ratio in Hwf.
  apply andb_true_iff in Hwf. destruct Hwf as [Hnum Hden].
  apply andb_true_iff in Hnum. destruct Hnum as [Ha Hnl].
  apply negb_true_iff in Hnl.
  destruct (numerator_defined a g (proj1 (is_name_In _ a) Ha) Hnl Hg) as [x Hx].
  destruct den as [c|]; unfold ratio_expr, div, div_by; rewrite Hx.
  - apply orb_true_iff in Hden. destruct Hden as [Hc|Hc].
    + destruct (count_defined c g (proj1 (is_name_In _ c) Hc) Hg) as [n [Hn Hn1]].
      rewrite Hn. rewrite sql_div_nonzero by (apply Z2Qc_nonzero; lia).
      eexists. reflexivity.
    + apply andb_true_iff in Hc. destruct Hc as [_ Hc].
      apply (proj1 (is_name_In _ name)) in Hc. contradiction.
  - rewrite sql_div_nonzero by (apply Z2Qc_nonzero; lia).
    eexists. reflexivity.
Qed.

(** X4. For a key with a transaction inside the window, every ratio
    column other than the four ratios to amount_list has a value: its
    numerator is never NULL and its divisor (days, baskets, products,
    line items or days_in_window) is at least 1. *)
Theorem ratio_defined (transactions df : DataFrame) (ic : bool) (w : string)
    (mx : Z) (k : key) (name : string) (e : (string -> value) -> value) :
  supported w = true ->
  f.max (col day) df = Some mx ->
  In k (map (select_key ic) transactions) ->
  In (name, e) (ratio_columns ("_" ++ w)%string (window_days w)) ->
  ~ In name (map fst amount_list_ratios) ->
  in_window df ic (window_last w mx) (window_first w mx) k <> [] ->
  exists v,
    metric_of (call transactions df ic (Some w)) k
      (new_name (grouping_suffix_of ic) ("_" ++ w)%string name) = [Some v].
Proof.
  intros Hw Hmx Hk Hin Hname Hg.
  rewrite (metric_of_ratio transactions df ic w mx k name e Hw Hmx Hk Hin Hg).
  pose proof (window_days_pos w) as Hd.
  destruct (ratio_value _ (window_days w) name e _ ltac:(lia) Hin Hname Hg)
    as [v Hv].
  exists v. rewrite Hv. reflexivity.
Qed.

Lemma ratio_defined_witness :
  exists v,
    metric_of (call [line_a; line_b] [line_a; line_b] false (Some "60d")) (1, None)
      (new_name (grouping_suffix_of false) "_60d" "amount_paid_per_basket")
    = [Some v].
Proof.
  apply (ratio_defined [line_a; line_b] [line_a; line_b] false "60d" 700 (1, None)
           "amount_paid_per_basket" (div "amount_paid" "baskets")).
  - reflexivity.
  - reflexivity.
  - left. reflexivity.
  - unfold ratio_columns. cbn [In]. do 34 right. left. reflexivity.
  - cbn. intros [H|[H|[H|[H|[]]]]]; discriminate H.
  - discriminate.
Defined.

Lemma amount_list_ratio_in (ws : string) (d : Z) (name : string)
    (c : transaction -> Qc) :
  In (name, c) amount_list_ratios ->
  exists a,
    In (name, div a "amount_list") (ratio_columns ws d) /\
    In (a, c) monetary_sums.
Proof.
  unfold amount_list_ratios. cbn [In].
  intros [E|[E|[E|[E|[]]]]]; injection E as <- <-.
  - exists "campaign_coupon_discount". split.
    + unfold ratio_columns. cbn [In]. do 60 right. left. reflexivity.
    + unfold monetary_sums. cbn [In]. do 2 right. left. reflexivity.
  - exists "manuf_coupon_discount". split.
    + unfold ratio_columns. cbn [In]. do 61 right. left. reflexivity.
    + unfold monetary_sums. cbn [In]. do 3 right. left. reflexivity.
  - exists "total_coupon_discount". split.
    + unfold ratio_columns. cbn [In]. do 62 right. left. reflexivity.
    + unfold monetary_sums. cbn [In]. do 4 right. left. reflexivity.
  - exists "amount_paid". split.
    + unfold ratio_columns. cbn [In]. do 63 right. left. reflexivity.
    + unfold monetary_sums. cbn [In]. do 5 right. left. reflexivity.
Qed.

(** X5. For a key with a transaction inside the window, each of the four
    ratios to amount_list is the total of its column divided by the total
    of amount_list over the transactions of the key inside the window; it
    is NULL, and not an error, exactly when that total of amount_list is
    zero. *)
Theorem ratio_to_amount_list (transactions df : DataFrame) (ic : bool)
    (w : string) (mx : Z) (k : key) (name : string) (c : transaction -> Qc) :
  supported w = true ->
  f.max (col day) df = Some mx ->
  In k (map (select_key ic) transactions) ->
  In (name, c) amount_list_ratios ->
  in_window df ic (window_last w mx) (window_first w mx) k <> [] ->
  (total amount_list (in_window df ic (window_last w mx) (window_first w mx) k)
   = 0%Qc ->
   metric_of (call transactions df ic (Some w)) k
     (new_name (grouping_suffix_of ic) ("_" ++ w)%string name) = [None]) /\
  (total amount_list (in_window df ic (window_last w mx) (window_first w mx) k)
   <> 0%Qc ->
   metric_of (call transactions df ic (Some w)) k
     (new_name (grouping_suffix_of ic) ("_" ++ w)%string name)
   = [Some (total c (in_window df ic (window_last w mx) (window_first w mx) k)
            / total amount_list
                (in_window df ic (window_last w mx) (window_first w mx) k))%Qc]).
Proof.
  intros Hw Hmx Hk Hname Hg.
  destruct (amount_list_ratio_in ("_" ++ w)%string (window_days w) name c Hname)
    as [a [Hin Ha]].
  rewrite (metric_of_ratio transactions df ic w mx k name _ Hw Hmx Hk Hin Hg).
  unfold div.
  rewrite (aggregate_lookup _ a _ (monetary_sum_in_aggs a c Ha)).
  rewrite (aggregate_lookup _ "amount_list" (f.sum (col amount_list))
             (monetary_sum_in_aggs "amount_list" amount_list (or_introl eq_refl))).
  rewrite !sum_col.
  destruct (in_window df ic (window_last w mx) (window_first w mx) k) as [|t g];
    [congruence|].
  split.
  - intros Hz. unfold sql_div. rewrite Hz.
    destruct (Qc_eq_dec 0 0) as [_|Hne]; [reflexivity|congruence].
  - intros Hnz. rewrite sql_div_nonzero by exact Hnz. reflexivity.
Qed.

Lemma ratio_to_amount_list_witness :
  (total amount_list
     (in_window [line_a] false (window_last "30d" 700) (window_first "30d" 700)
        (1, None)) = 0%Qc ->
   metric_of (call [line_a] [line_a] false (Some "30d")) (1, None)
     (new_name (grouping_suffix_of false) "_30d" "amount_paid_to_amount_list")
   = [None]) /\
  (total amount_list
     (in_window [line_a] false (window_last "30d" 700) (window_first "30d" 700)
        (1, None)) <> 0%Qc ->
   metric_of (call [line_a] [line_a] false (Some "30d")) (1, None)
     (new_name (grouping_suffix_of false) "_30d" "amount_paid_to_amount_list")
   = [Some (Qcdiv
              (total amount_paid
                 (in_window [line_a] false (window_last "30d" 700)
                    (window_first "30d" 700) (1, None)))
              (total amount_list
                 (in_window [line_a] false (window_last "30d" 700)
                    (window_first "30d" 700) (1, None))))]).
Proof.
  apply (ratio_to_amount_list [line_a] [line_a] false "30d" 700 (1, None)
           "amount_paid_to_amount_list" amount_paid).
  - reflexivity.
  - reflexivity.
  - left. reflexivity.
  - do 3 right. left. reflexivity.
  - discriminate.
Defined.

(** ** The shape of the returned frame *)

Lemma output_columns_NoDup (ic : bool) (w : string) :
  supported w = true -> NoDup (output_columns ic w).
Proof.
  intros Hw. apply distinct_names_NoDup.
  destruct ic; destruct (supported_cases w Hw) as [ -> | [ -> | [ -> | -> ] ] ];
    vm_compute; reflexivity.
Qed.

Lemma output_columns_disjoint (ic1 ic2 : bool) (w1 w2 : string) :
  supported w1 = true -> supported w2 = true ->
  (ic1, w1) <> (ic2, w2) ->
  names_disjoint (output_columns ic1 w1) (output_columns ic2 w2) = true.
Proof.
  intros H1 H2 Hne.
  destruct ic1; destruct ic2;
    destruct (supported_cases w1 H1) as [ -> | [ -> | [ -> | -> ] ] ];
    destruct (supported_cases w2 H2) as [ -> | [ -> | [ -> | -> ] ] ];
    first [ exfalso; apply Hne; reflexivity | vm_compute; reflexivity ].
Qed.

(** X7. The frames returned for two different combinations of grouping
    mode and supported window have no metric column name in common, and
    within one frame the names are pairwise distinct: the frames of the
    eight combinations can be joined on the key without a clash. *)
Theorem columns_never_collide (t1 t2 df1 df2 : DataFrame) (ic1 ic2 : bool)
    (w1 w2 : string) (mx1 mx2 : Z) :
  supported w1 = true -> supported w2 = true ->
  f.max (col day) df1 = Some mx1 -> f.max (col day) df2 = Some mx2 ->
  (ic1, w1) <> (ic2, w2) ->
  exists fr1 fr2,
    call t1 df1 ic1 (Some w1) = ([Collect_min_max_day], inr fr1) /\
    call t2 df2 ic2 (Some w2) = ([Collect_min_max_day], inr fr2) /\
    NoDup (columns fr1) /\
    forall c, In c (columns fr1) -> ~ In c (columns fr2).
Proof.
  intros H1 H2 Hm1 Hm2 Hne. do 2 eexists.
  split; [apply (call_supported_frame t1 df1 ic1 w1 mx1 H1 Hm1)|].
  split; [apply (call_supported_frame t2 df2 ic2 w2 mx2 H2 Hm2)|].
  cbn [columns]. split.
  - exact (output_columns_NoDup ic1 w1 H1).
  - intros c.
    exact (names_disjoint_spec (output_columns ic1 w1) (output_columns ic2 w2) c
             (output_columns_disjoint ic1 ic2 w1 w2 H1 H2 Hne)).
Qed.

Lemma columns_never_collide_witness :
  exists fr1 fr2,
    call [line_a] [line_a] false (Some "30d") = ([Collect_min_max_day], inr fr1) /\
    call [line_a] [line_a] true (Some "30d") = ([Collect_min_max_day], inr fr2) /\
    NoDup (columns fr1) /\
    forall c, In c (columns fr1) -> ~ In c (columns fr2).
Proof.
  apply (columns_never_collide [line_a] [line_a] [line_a] [line_a] false true
           "30d" "30d" 700 700); try reflexivity.
  discriminate.
Defined.

(** X8. A returned frame is rectangular: it has 94 metric columns, the 26
    aggregates and 64 ratios of the summary and the 4 days-since metrics,
    and every row has one cell for each of them, also the rows of the keys
    that found no partner in the joins. *)
Theorem rows_are_complete (transactions df : DataFrame) (ic : bool) (w : string)
    (mx : Z) :
  supported w = true ->
  f.max (col day) df = Some mx ->
  exists fr,
    call transactions df ic (Some w) = ([Collect_min_max_day], inr fr) /\
    List.length (columns fr) = 94%nat /\
    forall k cells, In (k, cells) (rows fr) -> List.length cells = 94%nat.
Proof.
  intros Hw Hmx. eexists.
  split; [apply (call_supported_frame transactions df ic w mx Hw Hmx)|].
  cbn [columns rows].
  assert (Hn : List.length (summary_columns ("_" ++ w)%string 0) = 90%nat).
  { destruct (supported_cases w Hw) as [ -> | [ -> | [ -> | -> ] ] ];
      vm_compute; reflexivity. }
  split.
  - unfold summary_names, dayssince_names.
    rewrite length_app, !length_map, Hn. reflexivity.
  - intros k cells Hin. apply joined_row_inv in Hin. destruct Hin as [_ ->].
    rewrite joined_cells_length, Hn. reflexivity.
Qed.

Lemma rows_are_complete_witness :
  exists fr,
    call [line_a; line_old] [line_a] true (Some "1yr")
      = ([Collect_min_max_day], inr fr) /\
    List.length (columns fr) = 94%nat /\
    forall k cells, In (k, cells) (rows fr) -> List.length cells = 94%nat.
Proof.
  apply (rows_are_complete [line_a; line_old] [line_a] true "1yr" 700);
    reflexivity.
Defined.

(** ** No look-ahead *)

Lemma filter_implied {A : Type} (p q : A -> bool) (l : list A) :
  (forall x, p x = true -> q x = true) ->
  filter p (filter q l) = filter p l.
Proof.
  intros H. induction l as [|x l IH]; [reflexivity|].
  cbn [filter]. destruct (q x) eqn:Eq.
  - cbn [filter]. rewrite IH. reflexivity.
  - destruct (p x) eqn:Ep; [|exact IH].
    rewrite (H x Ep) in Eq. discriminate.
Qed.

Lemma joined_cells_up_to (df : DataFrame) (ic : bool) (ws : string)
    (d max_day min_day : Z) (k : key) :
  joined_cells df ic ws d max_day min_day k
  = joined_cells (filter (fun t => day t <=? max_day) df) ic ws d max_day min_day k.
Proof.
  unfold joined_cells, in_window, up_to.
  rewrite (filter_implied (between min_day max_day) (fun t => day t <=? max_day) df).
  - rewrite (filter_implied (fun t => day t <=? max_day)
               (fun t => day t <=? max_day) df); [reflexivity|].
    intros x Hx. exact Hx.
  - intros x Hx. unfold between in Hx. apply andb_true_iff in Hx. apply Hx.
Qed.

(** X9. Given the last day of the dataset, the returned frame depends on
    [df] only through its transactions up to the end of the window: two
    datasets with the same last day and the same transactions up to the
    window end give the same frame.  For the window '1yr' nothing of the
    last 335 days of the dataset enters a feature. *)
Theorem no_look_ahead (transactions df df' : DataFrame) (ic : bool) (w : string)
    (mx : Z) :
  supported w = true ->
  f.max (col day) df = Some mx ->
  f.max (col day) df' = Some mx ->
  filter (fun t => day t <=? window_last w mx) df
  = filter (fun t => day t <=? window_last w mx) df' ->
  call transactions df ic (Some w) = call transactions df' ic (Some w).
Proof.
  intros Hw Hmx Hmx' Heq.
  rewrite (call_supported_frame transactions df ic w mx Hw Hmx).
  rewrite (call_supported_frame transactions df' ic w mx Hw Hmx').
  do 2 f_equal. apply (f_equal (mkFrame _ _)).
  apply map_ext. intros k.
  rewrite (joined_cells_up_to df), (joined_cells_up_to df'), Heq. reflexivity.
Qed.

Lemma no_look_ahead_witness :
  call [line_a] [line_a; line_old] false (Some "1yr")
  = call [line_a] [line_b; line_old] false (Some "1yr").
Proof.
  apply (no_look_ahead [line_a] [line_a; line_old] [line_b; line_old] false
           "1yr" 700); reflexivity.
Defined.

(** * Properties of the adjusted transactions *)

Lemma gt_zero_iff (x : Qc) : gt_zero x = true <-> (0 < x)%Qc.
Proof.
  unfold gt_zero, Qclt, Qlt. rewrite Z.ltb_lt.
  change (this 0%Qc) with (0 # 1)%Q. cbn [Qnum Qden]. lia.
Qed.

(** X10. No monetary column of [transactions_adj] is ever NULL, whatever
    is NULL in the row of [transactions]: each of the seven is a number. *)
Theorem adjusted_amounts_not_null (r : transactions_adj.raw) :
  exists al cc mc mm tc ins ap : Qc,
    transactions_adj.amount_list (transactions_adj.adjust r) = Some al /\
    transactions_adj.campaign_coupon_discount (transactions_adj.adjust r) = Some cc /\
    transactions_adj.manuf_coupon_discount (transactions_adj.adjust r) = Some mc /\
    transactions_adj.manuf_coupon_match_discount (transactions_adj.adjust r) = Some mm /\
    transactions_adj.total_coupon_discount (transactions_adj.adjust r) = Some tc /\
    transactions_adj.instore_discount (transactions_adj.adjust r) = Some ins /\
    transactions_adj.amount_paid (transactions_adj.adjust r) = Some ap.
Proof.
  destruct r as [hh b wk d tt st pr qu [s|] [rd|] [c|] [m|]];
    cbn [transactions_adj.adjust transactions_adj.amount_list
         transactions_adj.campaign_coupon_discount
         transactions_adj.manuf_coupon_discount
         transactions_adj.manuf_coupon_match_discount
         transactions_adj.total_coupon_discount
         transactions_adj.instore_discount transactions_adj.amount_paid
         transactions_adj.sales_value transactions_adj.retail_disc
         transactions_adj.coupon_disc transactions_adj.coupon_match_disc
         transactions_adj.coalesce transactions_adj.sub transactions_adj.mul
         transactions_adj.eq transactions_adj.neq transactions_adj.zero
         transactions_adj.minus_one transactions_adj.case_when option_map];
    repeat match goal with
           | |- context [Qc_eq_dec ?x ?y] => destruct (Qc_eq_dec x y)
           end;
    cbn [negb]; do 7 eexists; repeat split; reflexivity.
Qed.

Ltac adj_unfold :=
  cbn [transactions_adj.adjust transactions_adj.amount_list
       transactions_adj.campaign_coupon_discount
       transactions_adj.manuf_coupon_discount
       transactions_adj.manuf_coupon_match_discount
       transactions_adj.total_coupon_discount
       transactions_adj.instore_discount transactions_adj.amount_paid
       transactions_adj.sales_value transactions_adj.retail_disc
       transactions_adj.coupon_disc transactions_adj.coupon_match_disc
       transactions_adj.coalesce transactions_adj.sub transactions_adj.mul
       transactions_adj.eq transactions_adj.neq transactions_adj.zero
       transactions_adj.minus_one transactions_adj.case_when
       transactions_adj.number option_map] in *.

(** X11. The coupon discount of a row goes to exactly one of the two
    coupon columns: to manuf_coupon_discount when the row has a coupon
    match discount other than zero, to campaign_coupon_discount otherwise
    (also when the match discount is NULL); the other column is 0, and the
    two add up to minus the coupon discount, NULL read as 0. *)
Theorem coupon_discount_split (r : transactions_adj.raw) :
  let c := transactions_adj.number (transactions_adj.coupon_disc r) in
  let m := transactions_adj.number (transactions_adj.coupon_match_disc r) in
  (m = 0%Qc ->
   transactions_adj.campaign_coupon_discount (transactions_adj.adjust r)
     = Some (- c)%Qc /\
   transactions_adj.manuf_coupon_discount (transactions_adj.adjust r)
     = Some 0%Qc) /\
  (m <> 0%Qc ->
   transactions_adj.campaign_coupon_discount (transactions_adj.adjust r)
     = Some 0%Qc /\
   transactions_adj.manuf_coupon_discount (transactions_adj.adjust r)
     = Some (- c)%Qc).
Proof.
  destruct r as [hh b wk d tt st pr qu s rd [c|] [m|]]; adj_unfold; cbv zeta;
    split; intros Hm;
    repeat match goal with
           | |- context [Qc_eq_dec ?x ?y] => destruct (Qc_eq_dec x y)
           end;
    cbn [negb]; try contradiction; try congruence;
    split; first [reflexivity | f_equal; ring].
Qed.

Lemma coupon_discount_split_witness :
  transactions_adj.campaign_coupon_discount
    (transactions_adj.adjust
       (transactions_adj.mkRaw (Some 1) (Some 10) (Some 1) (Some 700) (Some 1200)
          (Some 3) (Some 100) (Some 1) (Some (q 4 1)) (Some (q (-1) 2))
          (Some (q (-1) 1)) (Some (q (-1) 4))))
    = Some 0%Qc /\
  transactions_adj.manuf_coupon_discount
    (transactions_adj.adjust
       (transactions_adj.mkRaw (Some 1) (Some 10) (Some 1) (Some 700) (Some 1200)
          (Some 3) (Some 100) (Some 1) (Some (q 4 1)) (Some (q (-1) 2))
          (Some (q (-1) 1)) (Some (q (-1) 4))))
    = Some (- q (-1) 1)%Qc.
Proof.
  apply (coupon_discount_split
           (transactions_adj.mkRaw (Some 1) (Some 10) (Some 1) (Some 700) (Some 1200)
              (Some 3) (Some 100) (Some 1) (Some (q 4 1)) (Some (q (-1) 2))
              (Some (q (-1) 1)) (Some (q (-1) 4)))).
  vm_compute. discriminate.
Defined.



(** X13. A NULL in any of the four amounts of a row makes its list amount
    0, while the amount paid stays the sales value; and a NULL coupon
    match discount makes the total coupon discount 0 although the campaign
    coupon discount still carries the coupon discount. *)
Theorem null_amount_zeroes_list_amount (r : transactions_adj.raw) :
  (transactions_adj.sales_value r = None \/
   transactions_adj.retail_disc r = None \/
   transactions_adj.coupon_disc r = None \/
   transactions_adj.coupon_match_disc r = None ->
   transactions_adj.amount_list (transactions_adj.adjust r) = Some 0%Qc /\
   transactions_adj.amount_paid (transactions_adj.adjust r)
     = Some (transactions_adj.number (transactions_adj.sales_value r))) /\
  (forall c, transactions_adj.coupon_disc r = Some c ->
             transactions_adj.coupon_match_disc r = None ->
             exists tc,
               transactions_adj.total_coupon_discount (transactions_adj.adjust r)
                 = Some tc /\ tc = 0%Qc /\
               transactions_adj.campaign_coupon_discount (transactions_adj.adjust r)
                 = Some (- c)%Qc).
Proof.
  split.
  - destruct r as [hh b wk d tt st pr qu [s|] [rd|] [c|] [m|]]; adj_unfold;
      intros [H|[H|[H|H]]]; try discriminate H; split; reflexivity.
  - intros c Hc Hm.
    destruct r as [hh b wk d tt st pr qu s rd c0 m0]. adj_unfold.
    subst c0 m0. adj_unfold.
    destruct (Qc_eq_dec 0 0) as [_|Hne]; [|congruence].
    eexists. split; [reflexivity|]. split; [ring|f_equal; ring].
Qed.

Lemma null_amount_zeroes_list_amount_witness :
  transactions_adj.amount_list
    (transactions_adj.adjust
       (transactions_adj.mkRaw (Some 1) (Some 10) (Some 1) (Some 700) (Some 1200)
          (Some 3) (Some 100) (Some 1) (Some (q 4 1)) (Some (q (-1) 2))
          (Some (q (-1) 1)) None)) = Some 0%Qc /\
  transactions_adj.amount_paid
    (transactions_adj.adjust
       (transactions_adj.mkRaw (Some 1) (Some 10) (Some 1) (Some 700) (Some 1200)
          (Some 3) (Some 100) (Some 1) (Some (q 4 1)) (Some (q (-1) 2))
          (Some (q (-1) 1)) None))
  = Some (transactions_adj.number (Some (q 4 1))).
Proof.
  apply (null_amount_zeroes_list_amount
           (transactions_adj.mkRaw (Some 1) (Some 10) (Some 1) (Some 700) (Some 1200)
              (Some 3) (Some 100) (Some 1) (Some (q 4 1)) (Some (q (-1) 2))
              (Some (q (-1) 1)) None)).
  right. right. right. reflexivity.
Defined.

(** X14. The test [instore_discount > 0] that [get_features] applies to a
    line item holds for an adjusted row exactly when the row of
    [transactions] has a retail discount that is negative; a NULL or
    non-negative retail discount never counts as an in-store discount. *)
Theorem instore_discount_positive (r : transactions_adj.raw) :
  exists ins,
    transactions_adj.instore_discount (transactions_adj.adjust r) = Some ins /\
    (gt_zero ins = true <->
     exists d, transactions_adj.retail_disc r = Some d /\ (d < 0)%Qc).
Proof.
  destruct r as [hh b wk dd tt st pr qu s [rd|] c m]; adj_unfold;
    eexists; (split; [reflexivity|]); rewrite gt_zero_iff.
  - split.
    + intros H. exists rd. split; [reflexivity|].
      apply Qclt_minus_iff. replace (0 + - rd)%Qc with (- (1) * rd)%Qc by ring.
      exact H.
    + intros [d [E H]]. injection E as ->.
      apply Qclt_minus_iff in H.
      replace (0 + - d)%Qc with (- (1) * d)%Qc in H by ring. exact H.
  - split.
    + intros H. exfalso. exact (Qclt_not_eq _ _ H eq_refl).
    + intros [d [E _]]. discriminate E.
Qed.

(** * Properties of the day columns of [create_table] *)

Section day_columns_facts.

Variable cell : Type.
Variable cast_as_int : cell -> option Z.
Variable date_cell : option Z -> cell.

Local Abbreviation get := (create_table.get cell).
Local Abbreviation put := (create_table.put cell).
Local Abbreviation convert_row :=
  (create_table.convert_row cell cast_as_int date_cell).
Local Abbreviation convert_row_step :=
  (create_table.convert_row_step cell cast_as_int date_cell).
Local Abbreviation convert_step :=
  (create_table.convert_step cell cast_as_int date_cell).
Local Abbreviation convert_day_columns :=
  (create_table.convert_day_columns cell cast_as_int date_cell).
Local Abbreviation names := (create_table.names cell).
Local Abbreviation lines := (create_table.lines cell).
(* What the loop puts into a cell of a day column. *)
Local Abbreviation to_date :=
  (fun v : cell => date_cell (create_table.date_add_day (cast_as_int v))).

Lemma get_put_same (c : string) (v : cell) (cols : list string) :
  forall row, get cols (put cols row c v) c = option_map (fun _ => v) (get cols row c).
Proof.
  induction cols as [|x cols IH]; intros [|y row]; try reflexivity.
  cbn [create_table.put create_table.get].
  destruct (String.eqb x c); [reflexivity|]. apply IH.
Qed.

Lemma get_put_other (c x0 : string) (v : cell) (cols : list string) :
  x0 <> c ->
  forall row, get cols (put cols row c v) x0 = get cols row x0.
Proof.
  intros Hne. induction cols as [|x cols IH]; intros [|y row]; try reflexivity.
  cbn [create_table.put create_table.get].
  destruct (String.eqb x x0) eqn:E.
  - apply String.eqb_eq in E. subst x.
    destruct (String.eqb x0 c) eqn:E'; [|reflexivity].
    apply String.eqb_eq in E'. contradiction.
  - apply IH.
Qed.

Lemma put_length (c : string) (v : cell) (cols : list string) :
  forall row, List.length (put cols row c v) = List.length row.
Proof.
  induction cols as [|x cols IH]; intros [|y row]; try reflexivity.
  cbn [create_table.put List.length]. rewrite IH. reflexivity.
Qed.

Lemma convert_row_cons (cols : list string) (c : string) (cs : list string)
    (row : list cell) :
  convert_row cols (c :: cs) row
  = convert_row cols cs (convert_row_step cols row c).
Proof. reflexivity. Qed.

Lemma convert_row_step_get (cols : list string) (row : list cell) (c x : string) :
  get cols (convert_row_step cols row c) x
  = if create_table.is_day_column c && String.eqb x c
    then option_map to_date (get cols row x)
    else get cols row x.
Proof.
  unfold create_table.convert_row_step.
  destruct (create_table.is_day_column c); [|reflexivity]. cbn [andb].
  destruct (String.eqb x c) eqn:E.
  - apply String.eqb_eq in E. subst x.
    rewrite get_put_same. unfold create_table.day_expr.
    destruct (get cols row c); reflexivity.
  - apply get_put_other. apply String.eqb_neq. exact E.
Qed.

Lemma convert_row_get (cols : list string) (x : string) (cs : list string) :
  NoDup cs ->
  forall row,
    get cols (convert_row cols cs row) x
    = if create_table.is_day_column x && existsb (String.eqb x) cs
      then option_map to_date (get cols row x)
      else get cols row x.
Proof.
  induction 1 as [|c cs Hc Hnd IH]; intros row.
  - cbn [existsb]. rewrite andb_false_r. reflexivity.
  - rewrite convert_row_cons, IH, !convert_row_step_get. cbn [existsb].
    destruct (String.eqb x c) eqn:E.
    + apply String.eqb_eq in E. subst x.
      assert (Hcs : existsb (String.eqb c) cs = false).
      { destruct (existsb (String.eqb c) cs) eqn:Ex; [|reflexivity].
        apply existsb_eqb_In in Ex. contradiction. }
      rewrite Hcs, andb_false_r, andb_true_r. cbn [orb]. rewrite andb_true_r.
      reflexivity.
    + rewrite andb_false_r. cbn [orb]. reflexivity.
Qed.

Lemma convert_row_get_other (cols : list string) (x : string) (cs : list string) :
  create_table.is_day_column x = false ->
  forall row, get cols (convert_row cols cs row) x = get cols row x.
Proof.
  intros Hx. induction cs as [|c cs IH]; intros row; [reflexivity|].
  rewrite convert_row_cons, IH, convert_row_step_get.
  destruct (String.eqb x c) eqn:E; [|rewrite andb_false_r; reflexivity].
  apply String.eqb_eq in E. subst c. rewrite Hx. reflexivity.
Qed.

Lemma convert_row_length (cols cs : list string) :
  forall row, List.length (convert_row cols cs row) = List.length row.
Proof.
  induction cs as [|c cs IH]; intros row; [reflexivity|].
  rewrite convert_row_cons, IH. unfold create_table.convert_row_step.
  destruct (create_table.is_day_column c); [|reflexivity].
  apply put_length.
Qed.

Lemma fold_convert_step (cs : list string) :
  forall df,
    incl cs (names df) ->
    fold_left convert_step cs df
    = create_table.mkTable cell (names df)
        (map (convert_row (names df) cs) (lines df)).
Proof.
  induction cs as [|c cs IH]; intros df Hincl.
  - cbn [fold_left]. destruct df as [ns ls]. cbn.
    rewrite map_id. reflexivity.
  - cbn [fold_left].
    assert (Hc : existsb (String.eqb c) (names df) = true).
    { apply (proj2 (existsb_eqb_In c (names df))). apply Hincl. left. reflexivity. }
    assert (Hstep : convert_step df c
                    = create_table.mkTable cell (names df)
                        (map (fun row => convert_row_step (names df) row c)
                             (lines df))).
    { unfold create_table.convert_step, create_table.convert_row_step.
      destruct (create_table.is_day_column c).
      - unfold create_table.withColumn. rewrite Hc. reflexivity.
      - destruct df as [ns ls]. cbn. rewrite map_id. reflexivity. }
    rewrite Hstep, IH.
    + cbn [create_table.names create_table.lines]. rewrite map_map. reflexivity.
    + cbn [create_table.names]. intros x Hx. apply Hincl. right. exact Hx.
Qed.

(** X15. The loop over the day columns of [create_table] keeps the names
    and the order of the columns, the number of rows and the length of
    every row, and leaves every cell of a column whose lower-cased name
    does not end in 'day' as it was. *)
Theorem day_conversion_keeps_the_rest (df : create_table.table cell) :
  names (convert_day_columns df) = names df /\
  lines (convert_day_columns df)
  = map (convert_row (names df) (names df)) (lines df) /\
  List.length (lines (convert_day_columns df)) = List.length (lines df) /\
  forall row,
    List.length (convert_row (names df) (names df) row) = List.length row /\
    forall c,
      create_table.is_day_column c = false ->
      get (names df) (convert_row (names df) (names df) row) c
      = get (names df) row c.
Proof.
  unfold create_table.convert_day_columns.
  rewrite (fold_convert_step (names df) df (incl_refl _)).
  cbn [create_table.names create_table.lines].
  split; [reflexivity|]. split; [reflexivity|].
  split; [apply length_map|].
  intros row. split; [apply convert_row_length|].
  intros c Hc. apply convert_row_get_other. exact Hc.
Qed.

(** X16. In a table whose column names are distinct also when the case
    of the letters is ignored, and whose day columns have names that the
    SQL parser reads as one column, the loop replaces every cell of every
    column whose lower-cased name ends in 'day', once, by the date of
    [date_add('2018-01-01', cast(cell as int) - 1)]. *)
Theorem day_columns_become_dates (df : create_table.table cell) (c : string)
    (row : list cell) :
  NoDup (map create_table.lower (names df)) ->
  (forall x, In x (names df) ->
             create_table.is_day_column x = true ->
             create_table.bare_identifier x = true) ->
  In c (names df) ->
  create_table.is_day_column c = true ->
  In row (lines df) ->
  In (convert_row (names df) (names df) row) (lines (convert_day_columns df)) /\
  get (names df) (convert_row (names df) (names df) row) c
  = option_map to_date (get (names df) row c).
Proof.
  intros Hlow _ Hc Hday Hrow.
  assert (Hnd : NoDup (names df))
    by exact (NoDup_map_inv create_table.lower (names df) Hlow).
  split.
  - unfold create_table.convert_day_columns.
    rewrite (fold_convert_step (names df) df (incl_refl _)).
    cbn [create_table.lines]. apply in_map. exact Hrow.
  - rewrite (convert_row_get (names df) c (names df) Hnd row).
    rewrite Hday. cbn [andb].
    rewrite (proj2 (existsb_eqb_In c (names df)) Hc).
    reflexivity.
Qed.

End day_columns_facts.

Lemma day_columns_become_dates_witness :
  In (create_table.convert_row (option Z) (fun v => v) (fun d => d)
        ["household_key"; "DAY"] ["household_key"; "DAY"] [Some 7; Some 1])
     (create_table.lines (option Z)
        (create_table.convert_day_columns (option Z) (fun v => v) (fun d => d)
           (create_table.mkTable (option Z) ["household_key"; "DAY"]
              [[Some 7; Some 1]]))) /\
  create_table.get (option Z) ["household_key"; "DAY"]
    (create_table.convert_row (option Z) (fun v => v) (fun d => d)
       ["household_key"; "DAY"] ["household_key"; "DAY"] [Some 7; Some 1]) "DAY"
  = option_map (fun v => create_table.date_add_day v)
      (create_table.get (option Z) ["household_key"; "DAY"] [Some 7; Some 1] "DAY").
Proof.
  apply (day_columns_become_dates (option Z) (fun v => v) (fun d => d)
           (create_table.mkTable (option Z) ["household_key"; "DAY"]
              [[Some 7; Some 1]]) "DAY" [Some 7; Some 1]).
  - apply distinct_names_NoDup. reflexivity.
  - intros x Hx _. destruct Hx as [ <- | [ <- | [] ] ]; reflexivity.
  - right. left. reflexivity.
  - reflexivity.
  - left. reflexivity.
Defined.

Lemma wrap32_small (z : Z) :
  - 2 ^ 31 <= z < 2 ^ 31 -> create_table.wrap32 z = z.
Proof.
  intros H. unfold create_table.wrap32. rewrite Z.mod_small; lia.
Qed.

(** X17. A day number in the range of the SQL integers that leaves room
    for the addition becomes the date that many days minus one after
    2018-01-01, so that day 1 is 2018-01-01; the conversion keeps the
    distance between two days and their order, and a NULL stays NULL. *)
Theorem day_numbers_to_dates (n1 n2 : Z) :
  - 2 ^ 31 < n1 <= 2 ^ 31 - 17532 ->
  - 2 ^ 31 < n2 <= 2 ^ 31 - 17532 ->
  exists d1 d2,
    create_table.date_add_day (Some n1) = Some d1 /\
    create_table.date_add_day (Some n2) = Some d2 /\
    d1 = create_table.date_2018_01_01 + (n1 - 1) /\
    d2 - d1 = n2 - n1 /\
    (n1 <= n2 <-> d1 <= d2) /\
    create_table.date_add_day None = None.
Proof.
  intros H1 H2. unfold create_table.date_add_day, create_table.date_2018_01_01.
  cbn [option_map].
  rewrite (wrap32_small (n1 - 1)), (wrap32_small (n2 - 1)) by lia.
  rewrite (wrap32_small (17532 + (n1 - 1))), (wrap32_small (17532 + (n2 - 1)))
    by lia.
  do 2 eexists. repeat split; try reflexivity; lia.
Qed.

Lemma day_numbers_to_dates_witness :
  exists d1 d2,
    create_table.date_add_day (Some 1) = Some d1 /\
    create_table.date_add_day (Some 711) = Some d2 /\
    d1 = create_table.date_2018_01_01 + (1 - 1) /\
    d2 - d1 = 711 - 1 /\
    (1 <= 711 <-> d1 <= d2) /\
    create_table.date_add_day None = None.
Proof.
  apply (day_numbers_to_dates 1 711); lia.
Defined.

(** The test of line 83 holds exactly when the lower-cased name is some
    prefix followed by 'day': it ignores the case of the letters and
    looks at the end of the name only. *)
Lemma is_day_column_spec (c : string) :
  (create_table.is_day_column c = true <->
   exists p, create_table.lower c = String.append p "day") /\
  (forall p, create_table.is_day_column (String.append p "DAY") = true /\
             create_table.is_day_column (String.append p "Day") = true /\
             create_table.is_day_column (String.append p "day") = true).
Proof.
  assert (Happ : forall p suf, create_table.endswith (String.append p suf) suf = true).
  { intros p suf. induction p as [|x p IH]; cbn [String.append].
    - destruct suf; cbn [create_table.endswith]; rewrite String.eqb_refl; reflexivity.
    - cbn [create_table.endswith]. rewrite IH.
      destruct (String.eqb (String x (String.append p suf)) suf); reflexivity. }
  assert (Hspec : forall s suf, create_table.endswith s suf = true ->
                                exists p, s = String.append p suf).
  { intros s suf. induction s as [|x s IH].
    - cbn [create_table.endswith]. destruct (String.eqb "" suf) eqn:E;
        [|discriminate]. apply String.eqb_eq in E. subst suf.
      intros _. exists "". reflexivity.
    - cbn [create_table.endswith].
      destruct (String.eqb (String x s) suf) eqn:E.
      + apply String.eqb_eq in E. intros _. exists "". exact E.
      + intros H. destruct (IH H) as [p Hp]. exists (String x p).
        cbn [String.append]. rewrite Hp. reflexivity. }
  assert (Hlower : forall p q, create_table.lower (String.append p q)
                               = String.append (create_table.lower p)
                                   (create_table.lower q)).
  { intros p q. induction p as [|x p IH]; [reflexivity|].
    cbn [String.append create_table.lower]. rewrite IH. reflexivity. }
  split.
  - unfold create_table.is_day_column. split.
    + apply Hspec.
    + intros [p ->]. apply Happ.
  - intros p. unfold create_table.is_day_column. rewrite !Hlower.
    repeat split; apply Happ.
Qed.

(** * Properties of the configuration *)

(** X19. The user name derived from the e-mail address contains neither
    a dot nor an at sign; when the address is a local part without at sign
    followed by an at sign, the name is the local part with every dot
    turned into an underscore, of the same length. *)
Theorem username_has_no_dot (useremail : string) :
  (forall c, In c (list_ascii_of_string (config.username_sql_compatible useremail)) ->
             c <> "."%char /\ c <> "@"%char) /\
  (forall local rest,
     useremail = String.append local (String "@" rest) ->
     ~ In "@"%char (list_ascii_of_string local) ->
     config.username_sql_compatible useremail = config.replace_dots local /\
     String.length (config.username_sql_compatible useremail) = String.length local).
Proof.
  unfold config.username_sql_compatible. split.
  - induction useremail as [|x s IH]; [intros c []|].
    cbn [config.before_at]. destruct (Ascii.eqb x "@") eqn:Eat; [intros c []|].
    cbn [config.replace_dots list_ascii_of_string In].
    intros c [<-|Hc]; [|exact (IH c Hc)].
    destruct (Ascii.eqb x ".") eqn:Edot.
    + split; discriminate.
    + apply Ascii.eqb_neq in Eat. apply Ascii.eqb_neq in Edot.
      split; assumption.
  - intros local rest -> Hlocal.
    assert (Hb : config.before_at (String.append local (String "@" rest)) = local).
    { induction local as [|x l IH]; [reflexivity|].
      cbn [String.append config.before_at].
      destruct (Ascii.eqb x "@") eqn:E.
      - apply Ascii.eqb_eq in E. subst x. exfalso. apply Hlocal. left. reflexivity.
      - rewrite IH; [reflexivity|]. intros H. apply Hlocal. right. exact H. }
    rewrite Hb. split; [reflexivity|].
    clear. induction local as [|x l IH]; [reflexivity|].
    cbn [config.replace_dots String.length]. rewrite IH. reflexivity.
Qed.

(** * Line items across the grouping modes *)

Lemma Z2Qc_succ (n : nat) :
  Z2Qc (Z.of_nat (S n)) = (1 + Z2Qc (Z.of_nat n))%Qc.
Proof.
  unfold Z2Qc, Qcplus. apply Q2Qc_eq_iff.
  change (this 1%Qc) with (1 # 1)%Q. cbn [this Q2Qc].
  rewrite Qred_correct, Nat2Z.inj_succ, <- Z.add_1_l, inject_Z_plus.
  reflexivity.
Qed.

Lemma total_ones (g : list transaction) :
  total (fun _ => 1%Qc) g = Z2Qc (Z.of_nat (List.length g)).
Proof.
  induction g as [|t g IH]; [reflexivity|].
  rewrite total_cons, IH. cbn [List.length]. rewrite Z2Qc_succ. reflexivity.
Qed.

Lemma count_star_as_sum (g : list transaction) :
  g <> [] -> f.count_star g = f.sum (col (fun _ => 1%Qc)) g.
Proof.
  intros Hg. rewrite sum_col. destruct g as [|t g]; [congruence|].
  unfold f.count_star. rewrite total_ones. reflexivity.
Qed.

(** The cell of the line items in any returned row. *)
Lemma line_items_cell (df : DataFrame) (ic : bool) (w : string)
    (d max_day min_day : Z) (k : key) :
  supported w = true ->
  cell (summary_names ic w ++ dayssince_names ic w)
       (joined_cells df ic ("_" ++ w)%string d max_day min_day k)
       (new_name (grouping_suffix_of ic) ("_" ++ w)%string "line_items")
  = f.sum (col (fun _ => 1%Qc)) (in_window df ic max_day min_day k).
Proof.
  intros Hw. destruct in_summary_aggs_counts as [_ [_ [_ Hin]]].
  unfold joined_cells.
  destruct (in_window df ic max_day min_day k) as [|t g] eqn:E;
    cbn [joined_part].
  - rewrite summary_columns_days.
    rewrite <- (nulls_map (new_name (grouping_suffix_of ic) ("_" ++ w)%string)).
    rewrite sum_col.
    apply (cell_nulls_left (summary_names ic w)).
    unfold summary_names.
    apply (in_map (new_name (grouping_suffix_of ic) ("_" ++ w)%string)).
    unfold summary_columns. apply chain_cols_incl.
    change "line_items" with (fst ("line_items", f.count_star)).
    apply (in_map fst). exact Hin.
  - rewrite (summary_aggregate_cell ic w d (t :: g) _ "line_items" f.count_star
               Hw Hin).
    apply count_star_as_sum. discriminate.
Qed.

(** X20. For a household with a transaction inside the window, the line
    items of its rows produced with include_commodity=True add up to the
    line items of its row produced with include_commodity=False: both
    count the transactions of the household inside the window. *)
Theorem line_items_add_up (transactions df : DataFrame) (w : string) (mx : Z)
    (h : Z) :
  supported w = true ->
  f.max (col day) df = Some mx ->
  (forall t, In t df -> In (select_key true t) (map (select_key true) transactions)) ->
  in_window df false (window_last w mx) (window_first w mx) (h, None) <> [] ->
  exists n : Z,
    metric_of (call transactions df false (Some w)) (h, None)
      (new_name (grouping_suffix_of false) ("_" ++ w)%string "line_items")
      = [Some (Z2Qc n)] /\
    sum_over_household (call transactions df true (Some w)) h
      (new_name (grouping_suffix_of true) ("_" ++ w)%string "line_items")
      = Some (Z2Qc n) /\
    n = Z.of_nat (List.length
                    (in_window df false (window_last w mx) (window_first w mx)
                       (h, None))).
Proof.
  intros Hw Hmx Hsub Hg.
  destruct in_summary_aggs_counts as [_ [_ [_ Hin]]].
  eexists. split; [|split; [|reflexivity]].
  - assert (Hk : In (h, @None string) (map (select_key false) transactions)).
    { destruct (in_window df false (window_last w mx) (window_first w mx) (h, None))
        as [|t0 g0] eqn:Eg; [congruence|].
      assert (Ht0 : In t0 (in_window df false (window_last w mx)
                             (window_first w mx) (h, None)))
        by (rewrite Eg; left; reflexivity).
      apply (proj1 (in_window_spec df false _ _ (h, None) t0)) in Ht0.
      destruct Ht0 as [Hdf [_ Hkey]]. injection Hkey as Hh.
      pose proof (Hsub t0 Hdf) as Hk0.
      apply (proj1 (in_map_iff (select_key true) transactions _)) in Hk0.
      destruct Hk0 as [t' [E Ht']].
      apply (proj2 (in_map_iff (select_key false) transactions (h, None))).
      exists t'. split; [|exact Ht'].
      unfold select_key in *. injection E as E1 E2. rewrite E1, Hh. reflexivity. }
    rewrite (metric_of_summary transactions df false w mx (h, None) "line_items"
               f.count_star Hw Hmx Hk Hin Hg).
    reflexivity.
  - rewrite (call_supported_frame transactions df true w mx Hw Hmx).
    unfold sum_over_household, household_cells. cbn [snd rows columns].
    rewrite flat_map_of_map. cbn [fst snd].
    rewrite (flat_map_ext _
               (fun k : key =>
                  if Z.eqb (fst k) h
                  then match f.sum (col (fun _ => 1%Qc))
                               (group true
                                  (filter (between (window_first w mx)
                                             (window_last w mx)) df) k) with
                       | Some v => [v]
                       | None => []
                       end
                  else [])).
    2:{ intros k. destruct (Z.eqb (fst k) h); [|reflexivity].
        rewrite (line_items_cell df true w _ _ _ k Hw). reflexivity. }
    rewrite <- total_ones. unfold in_window.
    rewrite <- (household_partition (fun _ => 1%Qc) h
                  (distinct_keys true transactions)
                  (NoDup_distinct_keys true transactions)).
    + rewrite <- category_cells_sum.
      match goal with
      | |- match ?l with _ => _ end = _ => destruct l as [|x l'] eqn:El
      end; [|reflexivity].
      exfalso.
      destruct (in_window df false (window_last w mx) (window_first w mx) (h, None))
        as [|t0 g0] eqn:Eg; [congruence|].
      assert (Ht0 : In t0 (in_window df false (window_last w mx)
                             (window_first w mx) (h, None)))
        by (rewrite Eg; left; reflexivity).
      apply (proj1 (in_window_spec df false _ _ (h, None) t0)) in Ht0.
      destruct Ht0 as [Hdf [Hday Hkey]]. injection Hkey as Hh.
      assert (Hx : In (total (fun _ => 1%Qc)
                         (group true
                            (filter (between (window_first w mx)
                                       (window_last w mx)) df)
                            (select_key true t0)))
                      (@nil Qc)); [|destruct Hx].
      rewrite <- El. apply in_flat_map. exists (select_key true t0). split.
      * apply In_distinct_keys. apply Hsub. exact Hdf.
      * cbn [select_key fst]. rewrite Hh, Z.eqb_refl, sum_col.
        destruct (group true
                    (filter (between (window_first w mx) (window_last w mx)) df)
                    (select_key true t0)) as [|t1 g1] eqn:E1.
        -- exfalso.
           assert (Hin0 : In t0 (@nil transaction)); [|destruct Hin0].
           rewrite <- E1. unfold group. apply filter_In. split.
           ++ apply filter_In. split; [exact Hdf|].
              unfold between. apply andb_true_iff. rewrite !Z.leb_le. exact Hday.
           ++ apply key_eqb_refl.
        -- left. reflexivity.
    + intros t Ht. apply filter_In in Ht. destruct Ht as [Ht _].
      apply In_distinct_keys. apply Hsub. exact Ht.
Qed.

Lemma line_items_add_up_witness :
  exists n : Z,
    metric_of (call [line_a; line_b] [line_a; line_b] false (Some "30d")) (1, None)
      (new_name (grouping_suffix_of false) "_30d" "line_items")
      = [Some (Z2Qc n)] /\
    sum_over_household (call [line_a; line_b] [line_a; line_b] true (Some "30d")) 1
      (new_name (grouping_suffix_of true) "_30d" "line_items")
      = Some (Z2Qc n) /\
    n = Z.of_nat (List.length
                    (in_window [line_a; line_b] false (window_last "30d" 700)
                       (window_first "30d" 700) (1, None))).
Proof.
  apply (line_items_add_up [line_a; line_b] [line_a; line_b] "30d" 700 1).
  - reflexivity.
  - reflexivity.
  - intros t Ht. apply in_map. exact Ht.
  - discriminate.
Defined.
